(** * A shallow embedding of [bot.py]

    The bot relays chat messages to a language-model API, lets the model edit
    markdown files and query the version-control history through two tools,
    and keeps a short-lived, bounded message history per channel.

    Definitions come first:
    - [Py]         the Python values and string operations the source uses;
    - [Pathlib]    the files on disk and the [pathlib.Path] operations used;
    - [Bot]        the functions of [bot.py], in source order;
    - [Handlers]   the two event handlers and the calls they make to Slack;
    - [Deployment] the constants of the source and a sample checkout;
    - [Spec]       the notions the properties are stated with;
    - the sample data the properties are tried on.
    The properties follow, one group per function of the source. *)

From Stdlib Require Import ZArith Lia Ascii String List.
From stdpp Require Import base option list gmap fin_maps strings pretty.

Local Open Scope string_scope.
Local Open Scope Z_scope.
Local Open Scope list_scope.

(* ===================================================================== *)
(** * Python values: exceptions, results, strings                        *)
(* ===================================================================== *)

Module Py.

(** An exception instance: its class name and the text [str(e)] gives.
    Every exception of the model derives from [Exception], so a handler
    [except Exception] catches all of them. *)
Record exn := Exn { exn_class : string; exn_str : string }.

(** The outcome of evaluating a Python expression or call. *)
Inductive result (A : Type) : Type :=
| Ok (a : A)
| Raise (e : exn).
Global Arguments Ok {A} a.
Global Arguments Raise {A} e.

Definition bind {A B} (r : result A) (k : A -> result B) : result B :=
  match r with
  | Ok a => k a
  | Raise e => Raise e
  end.

(** [try: body except Exception as e: handler e]. *)
Definition try_except {A} (body : result A) (handler : exn -> result A)
  : result A :=
  match body with
  | Ok a => Ok a
  | Raise e => handler e
  end.

Definition is_ok {A} (r : result A) : bool :=
  match r with Ok _ => true | Raise _ => false end.

(** ** Strings *)

Definition str_eqb (a b : string) : bool := bool_decide (a = b).

(** [s.startswith(p)]. *)
Fixpoint startswith (p s : string) : bool :=
  match p, s with
  | EmptyString, _ => true
  | String a p', String b s' =>
      if Ascii.eqb a b then startswith p' s' else false
  | String _ _, EmptyString => false
  end.

(** [s[n:]]. *)
Fixpoint drop_str (n : nat) (s : string) : string :=
  match n, s with
  | O, _ => s
  | S n', String _ s' => drop_str n' s'
  | S _, EmptyString => EmptyString
  end.

(** [sub in s]: does [sub] occur in [s] as a literal substring? *)
Fixpoint contains (sub s : string) : bool :=
  if startswith sub s then true
  else match s with
       | EmptyString => false
       | String _ s' => contains sub s'
       end.

(** [s.replace(old, new, 1)]: the leftmost occurrence of [old] is replaced,
    a string without occurrence is returned as it is. *)
Fixpoint replace1 (s old new : string) : string :=
  if startswith old s then new +:+ drop_str (String.length old) s
  else match s with
       | EmptyString => EmptyString
       | String c s' => String c (replace1 s' old new)
       end.

(** [s.endswith(p)]. *)
Fixpoint endswith (p s : string) : bool :=
  if str_eqb p s then true
  else match s with
       | EmptyString => false
       | String _ s' => endswith p s'
       end.

(** [s.split(sep)] for a one-character separator: never the empty list. *)
Fixpoint split (sep : ascii) (s : string) : list string :=
  match s with
  | EmptyString => [EmptyString]
  | String c s' =>
      if Ascii.eqb c sep then EmptyString :: split sep s'
      else match split sep s' with
           | [] => [String c EmptyString]
           | h :: t => String c h :: t
           end
  end.

(** [sep.join(l)]. *)
Fixpoint join (sep : string) (l : list string) : string :=
  match l with
  | [] => EmptyString
  | [x] => x
  | x :: rest => x +:+ sep +:+ join sep rest
  end.

(** A [str] is held as the bytes of its UTF-8 encoding. The characters
    [str.strip()] removes are those [str.isspace] accepts. The ones of one
    byte: tab, line feed, vertical tab, form feed, carriage return, the
    four separators 28 to 31, and the space. *)
Definition isspace (c : ascii) : bool :=
  let n := nat_of_ascii c in
  ((9 <=? n)%nat && (n <=? 13)%nat) || ((28 <=? n)%nat && (n <=? 32)%nat).

(** The ones of two bytes: U+0085 and U+00A0, encoded [C2 85] and
    [C2 A0]. *)
Definition isspace2 (c1 c2 : ascii) : bool :=
  let n2 := nat_of_ascii c2 in
  (nat_of_ascii c1 =? 194)%nat && ((n2 =? 133)%nat || (n2 =? 160)%nat).

(** The ones of three bytes: U+1680 [E1 9A 80], U+2000 to U+200A
    [E2 80 80] to [E2 80 8A], U+2028 [E2 80 A8], U+2029 [E2 80 A9],
    U+202F [E2 80 AF], U+205F [E2 81 9F] and U+3000 [E3 80 80]. *)
Definition isspace3 (c1 c2 c3 : ascii) : bool :=
  let n1 := nat_of_ascii c1 in
  let n2 := nat_of_ascii c2 in
  let n3 := nat_of_ascii c3 in
  ((n1 =? 225)%nat && (n2 =? 154)%nat && (n3 =? 128)%nat)
  || ((n1 =? 226)%nat && (n2 =? 128)%nat
      && (((128 <=? n3)%nat && (n3 <=? 138)%nat)
          || (n3 =? 168)%nat || (n3 =? 169)%nat || (n3 =? 175)%nat))
  || ((n1 =? 226)%nat && (n2 =? 129)%nat && (n3 =? 159)%nat)
  || ((n1 =? 227)%nat && (n2 =? 128)%nat && (n3 =? 128)%nat).

(** [s.lstrip()]. *)
Fixpoint lstrip (s : string) : string :=
  match s with
  | EmptyString => EmptyString
  | String c1 s1 =>
      if isspace c1 then lstrip s1
      else
        match s1 with
        | EmptyString => s
        | String c2 s2 =>
            if isspace2 c1 c2 then lstrip s2
            else
              match s2 with
              | EmptyString => s
              | String c3 s3 => if isspace3 c1 c2 c3 then lstrip s3 else s
              end
        end
  end.

(** [s] holds white space only. *)
Definition blank (s : string) : bool := str_eqb (lstrip s) "".

(** [s.rstrip()]: what is left of [s] once its longest blank tail is
    cut. *)
Fixpoint rstrip (s : string) : string :=
  match s with
  | EmptyString => EmptyString
  | String c s' => if blank s then EmptyString else String c (rstrip s')
  end.

(** [s.strip()]. *)
Definition strip (s : string) : string := rstrip (lstrip s).

(** [str(n)] for an [int]. *)
Definition str_of_int (n : Z) : string := pretty n.

(** [len(set(l))]: the number of distinct elements. *)
Definition count_distinct (l : list string) : nat :=
  List.length (remove_dups l).

Definition newline : string := String (ascii_of_nat 10) EmptyString.

(** [sub] is a literal substring of [s]. *)
Definition occurs_in (sub s : string) : Prop :=
  exists p t, s = p +:+ sub +:+ t.

End Py.

Import Py.


(* ===================================================================== *)
(** * The files on disk and [pathlib.Path]                               *)
(* ===================================================================== *)

(** A path is the list of its components below the file-system root, as
    [pathlib] keeps them after parsing. A disk is a finite map from the
    paths of the entries that exist to what they are. There are no symbolic
    links and no special files. A directory is [accessible] when the process
    may list it and search it; the model has no finer permission bits.
    [File content] stands for a regular file that the process may read and
    write and that holds the text [content]: its bytes are the encoding of
    [content], without carriage return, so that reading it in text mode
    gives [content] and writing [content] in text mode gives those bytes.
    A regular file that the process may not open, or whose bytes do not
    decode, has no counterpart here; the properties of the code that reads
    and writes are therefore stated on what [read_text] returned and on
    what [write_text] was given. The semantics followed is that of CPython
    3.8 to 3.12 on POSIX. *)

Module Pathlib.

Inductive node :=
| File (content : string)
| Dir (accessible : bool).

Abbreviation path := (list string).
Abbreviation filesystem := (gmap (list string) node).

(** The components [pathlib] keeps of a string: empty ones and ["."] are
    dropped, [".."] is kept. *)
Definition parts (s : string) : path :=
  List.filter (fun x => negb (str_eqb x "") && negb (str_eqb x "."))
              (split "/" s).

(** [base / s]: an absolute [s] replaces [base]. *)
Definition joinpath (base : path) (s : string) : path :=
  if startswith "/" s then parts s else base ++ parts s.

(** [p.name]. *)
Definition name (p : path) : string := List.last p "".

Definition parent (p : path) : path := removelast p.

(** [str(p)]. *)
Definition render (p : path) : string := "/" +:+ join "/" p.

(** The tail of [s] that starts at the last occurrence of ["."]. *)
Fixpoint rfind_dot (s : string) : option string :=
  match s with
  | EmptyString => None
  | String c s' =>
      match rfind_dot s' with
      | Some t => Some t
      | None => if Ascii.eqb c "." then Some s else None
      end
  end.

(** [p.suffix]: with [i = name.rfind('.')], it is [name[i:]] when
    [0 < i < len(name) - 1] and the empty string otherwise. *)
Definition suffix (p : path) : string :=
  match rfind_dot (name p) with
  | Some t =>
      if (String.length t <? String.length (name p))%nat
         && (1 <? String.length t)%nat
      then t else ""
  | None => ""
  end.

(** What the operating system answers when it resolves a path. *)
Inductive lookup_result :=
| Found (p : path) (n : node)
| ENOENT
| ENOTDIR
| EACCES.

Definition node_at (fs : filesystem) (p : path) : option node :=
  match p with
  | [] => Some (Dir true)
  | _ => fs !! p
  end.

(** Resolution of the remaining components [comps] from the entry [n] at
    [cur]. A component is looked up in a directory only; [".."] leads to
    the parent directory, and the parent of the root is the root. *)
Fixpoint walk (fs : filesystem) (cur : path) (n : node) (comps : path)
  : lookup_result :=
  match comps with
  | [] => Found cur n
  | c :: rest =>
      match n with
      | File _ => ENOTDIR
      | Dir false => EACCES
      | Dir true =>
          if str_eqb c "." then walk fs cur n rest
          else if str_eqb c ".." then
            match node_at fs (parent cur) with
            | Some n' => walk fs (parent cur) n' rest
            | None => ENOENT
            end
          else
            match fs !! (cur ++ [c]) with
            | Some n' => walk fs (cur ++ [c]) n' rest
            | None => ENOENT
            end
      end
  end.

(** [os.stat(p)]. *)
Definition stat (fs : filesystem) (p : path) : lookup_result :=
  walk fs [] (Dir true) p.

Definition os_error (errno what : string) (p : path) : string :=
  "[Errno " +:+ errno +:+ "] " +:+ what +:+ ": '" +:+ render p +:+ "'".

Definition PermissionError (p : path) : exn :=
  Exn "PermissionError" (os_error "13" "Permission denied" p).
Definition FileNotFoundError (p : path) : exn :=
  Exn "FileNotFoundError" (os_error "2" "No such file or directory" p).
Definition NotADirectoryError (p : path) : exn :=
  Exn "NotADirectoryError" (os_error "20" "Not a directory" p).
Definition IsADirectoryError (p : path) : exn :=
  Exn "IsADirectoryError" (os_error "21" "Is a directory" p).

(** [p.exists()]: a missing entry or a file used as a directory answer
    [False]; any other failure of [stat] is raised again. *)
Definition exists_ (fs : filesystem) (p : path) : result bool :=
  match stat fs p with
  | Found _ _ => Ok true
  | ENOENT | ENOTDIR => Ok false
  | EACCES => Raise (PermissionError p)
  end.

(** [p.read_text()], on the files of the model: the text of the file. *)
Definition read_text (fs : filesystem) (p : path) : result string :=
  match stat fs p with
  | Found _ (File c) => Ok c
  | Found _ (Dir _) => Raise (IsADirectoryError p)
  | ENOENT => Raise (FileNotFoundError p)
  | ENOTDIR => Raise (NotADirectoryError p)
  | EACCES => Raise (PermissionError p)
  end.

(** [p.write_text(data)], on the files of the model: the file is replaced
    in full; it is created when only its last component is missing. *)
Definition write_text (fs : filesystem) (p : path) (data : string)
  : result filesystem :=
  match stat fs p with
  | Found q (File _) => Ok (<[q := File data]> fs)
  | Found _ (Dir _) => Raise (IsADirectoryError p)
  | ENOTDIR => Raise (NotADirectoryError p)
  | EACCES => Raise (PermissionError p)
  | ENOENT =>
      match stat fs (parent p) with
      | Found d (Dir true) => Ok (<[d ++ [name p] := File data]> fs)
      | Found _ (Dir false) | EACCES => Raise (PermissionError p)
      | Found _ (File _) | ENOTDIR => Raise (NotADirectoryError p)
      | ENOENT => Raise (FileNotFoundError p)
      end
  end.

(** [rel] when [p = d ++ rel]. *)
Fixpoint strip_prefix (d p : path) : option path :=
  match d, p with
  | [], _ => Some p
  | x :: d', y :: p' => if str_eqb x y then strip_prefix d' p' else None
  | _ :: _, [] => None
  end.

Definition searchable (o : option node) : bool :=
  match o with
  | Some (Dir true) => true
  | _ => false
  end.

(** Every directory from [cur] down to the one holding the last component
    of [rel] can be listed. *)
Fixpoint listed (fs : filesystem) (cur rel : path) : bool :=
  match rel with
  | [] => false
  | [_] => searchable (node_at fs cur)
  | x :: rest => searchable (node_at fs cur) && listed fs (cur ++ [x]) rest
  end.

(** The pattern [*.md] on a file name. *)
Definition matches_md (nm : string) : bool := endswith ".md" nm.

Definition selected (recursive : bool) (fs : filesystem) (d rel : path)
  : bool :=
  (recursive || bool_decide (List.length rel = 1%nat))
  && matches_md (name rel) && listed fs d rel.

(** [base.glob("*.md")] and, when [recursive], [base.glob("**/*.md")]: the
    entries of any kind whose name matches, given by their components
    below [base]. A directory that cannot be listed contributes nothing;
    a [base] that is not a directory gives nothing; a [base] that cannot
    be reached raises. The order of the result is the disk's own. *)
Definition glob_md (recursive : bool) (fs : filesystem) (base : path)
  : result (list path) :=
  match stat fs base with
  | EACCES => Raise (PermissionError base)
  | ENOENT | ENOTDIR | Found _ (File _) => Ok []
  | Found d (Dir _) =>
      Ok (omap (fun kv : path * node =>
                  match strip_prefix d (fst kv) with
                  | Some rel =>
                      if selected recursive fs d rel then Some rel else None
                  | None => None
                  end)
               (map_to_list fs))
  end.

(** The entry at [p] once the file at [q] holds [new_content]. *)
Definition overwritten (q : path) (new_content : string) (p : path)
    (n : node) : node :=
  if decide (p = q) then File new_content else n.

Definition overwritten_result (q : path) (new_content : string)
    (r : lookup_result) : lookup_result :=
  match r with
  | Found p n => Found p (overwritten q new_content p n)
  | other => other
  end.

End Pathlib.

Import Pathlib.


(* ===================================================================== *)
(** * The bot                                                             *)
(* ===================================================================== *)

Module Bot.

(** Monadic sequencing of calls that may raise. *)
Notation "'let*' x ':=' c1 'in' c2" := (bind c1 (fun x => c2))
  (at level 10, x name, c1 at level 100, c2 at level 200).

Fixpoint mapM {A B} (f : A -> result B) (l : list A) : result (list B) :=
  match l with
  | [] => Ok []
  | a :: rest => let* b := f a in let* bs := mapM f rest in Ok (b :: bs)
  end.

Definition dq : string := String (ascii_of_nat 34) EmptyString.
Definition nl : string := newline.

(** ** Data *)

(** The arguments of a tool call, with the types the tool schemas declare:
    [file_path], [find_text] and [replace_text] are strings, [days] is an
    integer. Any of them may be missing. *)
Record tool_input := {
  str_args : gmap string string;
  int_args : gmap string Z
}.

(** A content block of a model response. Only a text block has the
    attribute [text]; only a tool-use block has the type ["tool_use"]. *)
Inductive block :=
| TextBlock (text : string)
| ToolUseBlock (id name : string) (input : tool_input)
| ThinkingBlock (thinking : string).

Record response := {
  stop_reason : string;
  content : list block
}.

(** [{"type": "tool_result", "tool_use_id": ..., "content": ...}]. *)
Record tool_result := {
  tool_use_id : string;
  result_content : string
}.

Inductive message_content :=
| Text (s : string)
| Blocks (bs : list block)
| ToolResults (rs : list tool_result).

(** [{"role": ..., "content": ...}]. *)
Record message := {
  role : string;
  message_content_of : message_content
}.

(** [{"messages": [...], "last_activity": timestamp}]; timestamps are in
    whole seconds. *)
Record session := {
  messages : list message;
  last_activity : Z
}.

(** What [subprocess.run(..., capture_output=True, text=True)] returns. *)
Record completed_process := {
  returncode : Z;
  stdout : string;
  stderr : string
}.

(** A call of [claude.messages.create]: the model name, the token limit
    and the tool schemas are the same in every call and are left out. *)
Record request := {
  system : string;
  request_messages : list message
}.

(** The mutable state the bot works on. *)
Record world := {
  disk : filesystem;
  SESSIONS : gmap string session
}.

Definition SESSION_TIMEOUT : Z := 30 * 60.

Definition SYSTEM_PROMPT : string :=
    "You are a helpful assistant for project management and documentation.

## Available Skills

1. **Answer Questions** - Search and summarize information from project files
2. **Edit Files** - Use the edit_file tool to make changes to markdown files. Find the exact text you want to change, and replace it with new text.

## Guidelines
- Be concise and actionable
- Reference specific documents when available
- If you don't have information, say so clearly
- Use the edit_file tool when asked to update, add, or change anything in project files
- Always confirm what you changed after using a tool

## Memory
You have conversation memory within each channel/DM:
- 30 minute window: Memory resets after 30 minutes of inactivity
- 20 message limit: Keeps the last 20 exchanges before older messages are forgotten
- Each channel/DM has its own separate memory

## Weekly Update Command
When user asks for "
  +:+ dq +:+ "weekly update"
  +:+ dq +:+ ", "
  +:+ dq +:+ "recent updates"
  +:+ dq +:+ ", "
  +:+ dq +:+ "what's new"
  +:+ dq +:+ ", or similar:
1. Use the get_recent_updates tool to fetch git history from the last 7 days
2. Summarize the changes by project/area and highlight key updates

## Slack Formatting
Use Slack mrkdwn format, NOT standard markdown:
- Bold: *text* (not **text**)
- Italic: _text_
- Strikethrough: ~text~
- Code: `text` or ```code block```
- Lists: Use * or - with plain text
- No headers (# doesn't work) - use *Bold* for emphasis instead
- Links: <url|text>

Current project files will be provided as context.".

Section WithEnvironment.

(** The configuration of a deployment. *)
Variable PROJECT_ROOT : path.
Variable PROJECTS : list (string * string).
Variable CHANNEL_ACCESS : gmap string (list string).

(** The collaborators: the model API as a function of the system prompt
    and the messages sent, [subprocess.run] as a function of the command
    line, and the text of the date [days] days before now. Each of them
    may raise. *)
Variable claude_messages_create : string -> list message -> result response.
Variable subprocess_run : list string -> result completed_process.
Variable since_date : Z -> result string.

Definition get_allowed_dirs (channel_id : string) : option (list string) :=
  CHANNEL_ACCESS !! channel_id.

(** ** [get_all_markdown_files] *)

(** The section of a root-level entry [md_file = PROJECT_ROOT / rel]. *)
Definition root_section (fs : filesystem) (rel : path) : string :=
  match read_text fs (PROJECT_ROOT ++ rel) with
  | Ok content => "## File: " +:+ name rel +:+ nl +:+ nl +:+ content
  | Raise e =>
      "## File: " +:+ name rel +:+ nl +:+ nl
      +:+ "Error reading file: " +:+ exn_str e
  end.

(** [md_file.relative_to(PROJECT_ROOT)]. *)
Definition relative_to_root (p : path) : result path :=
  match strip_prefix PROJECT_ROOT p with
  | Some rel => Ok rel
  | None =>
      Raise (Exn "ValueError"
               ("'" +:+ render p +:+ "' is not in the subpath of '"
                +:+ render PROJECT_ROOT +:+ "'"))
  end.

(** The section of an entry [md_file = proj_path / rel] of a project. *)
Definition project_section (fs : filesystem) (proj_path : path)
    (proj_name : string) (rel : path) : string :=
  match
    let* content := read_text fs (proj_path ++ rel) in
    let* relative_path := relative_to_root (proj_path ++ rel) in
    Ok ("## File: " +:+ join "/" relative_path
        +:+ " (" +:+ proj_name +:+ ")" +:+ nl +:+ nl +:+ content)
  with
  | Ok s => s
  | Raise e =>
      "## File: " +:+ name (proj_path ++ rel) +:+ nl +:+ nl
      +:+ "Error reading file: " +:+ exn_str e
  end.

Definition skipped (allowed_dirs : option (list string))
    (proj_dir : string) : bool :=
  match allowed_dirs with
  | Some dirs => negb (bool_decide (proj_dir ∈ dirs))
  | None => false
  end.

(** One round of the loop over [PROJECTS.items()]. *)
Definition project_sections (fs : filesystem)
    (allowed_dirs : option (list string)) (proj : string * string)
  : result (list string) :=
  let '(proj_dir, proj_name) := proj in
  if skipped allowed_dirs proj_dir then Ok []
  else
    let proj_path := joinpath PROJECT_ROOT proj_dir in
    let* found := exists_ fs proj_path in
    if found : bool then
      let* rels := glob_md true fs proj_path in
      Ok (map (project_section fs proj_path proj_name) rels)
    else Ok [].

(** The loop over [PROJECT_ROOT.glob("*.md")]. *)
Definition root_sections (fs : filesystem)
    (allowed_dirs : option (list string)) : result (list string) :=
  match allowed_dirs with
  | None =>
      let* rels := glob_md false fs PROJECT_ROOT in
      Ok (map (root_section fs)
            (List.filter (fun rel => negb (str_eqb (name rel) "CLAUDE.md"))
               rels))
  | Some _ => Ok []
  end.

(** The list [files_content] when the loops are over. *)
Definition files_content (fs : filesystem)
    (allowed_dirs : option (list string)) : result (list string) :=
  let* from_root := root_sections fs allowed_dirs in
  let* from_projects := mapM (project_sections fs allowed_dirs) PROJECTS in
  Ok (from_root ++ concat from_projects).

Definition separator : string := nl +:+ nl +:+ "---" +:+ nl +:+ nl.

Definition get_all_markdown_files (fs : filesystem)
    (allowed_dirs : option (list string)) : result string :=
  let* sections := files_content fs allowed_dirs in
  Ok (match sections with
      | [] => "No project files found."
      | _ => join separator sections
      end).

(** ** [edit_file] *)

(** [file_path.split("/")[0] if "/" in file_path else None]. *)
Definition file_dir_of (file_path : string) : option string :=
  if contains "/" file_path then head (split "/" file_path) else None.

(** [file_dir in allowed_dirs]; [None] is in no list of strings. *)
Definition file_dir_in (file_dir : option string) (dirs : list string)
  : bool :=
  match file_dir with
  | Some d => bool_decide (d ∈ dirs)
  | None => false
  end.

(** [f"{file_dir}"]. *)
Definition show_file_dir (file_dir : option string) : string :=
  match file_dir with
  | Some d => d
  | None => "None"
  end.

Definition access_denied_message (file_dir : option string)
    (dirs : list string) : string :=
  "Error: You don't have access to edit files in '"
  +:+ show_file_dir file_dir
  +:+ "'. This channel can only access: " +:+ join ", " dirs.

Definition not_found_message (file_path : string) : string :=
  "Error: File '" +:+ file_path +:+ "' does not exist.".

Definition unsupported_type_message : string :=
  "Error: Can only edit markdown (.md) files.".

Definition text_not_found_message (file_path : string) : string :=
  "Error: Could not find the specified text in '" +:+ file_path
  +:+ "'. Make sure it matches exactly.".

Definition updated_message (file_path : string) : string :=
  "Updated '" +:+ file_path +:+ "': replaced text successfully.".

(** The access check: the message returned when the check fails. *)
Definition access_check (file_path : string)
    (allowed_dirs : option (list string)) : option string :=
  match allowed_dirs with
  | Some dirs =>
      let file_dir := file_dir_of file_path in
      if negb (file_dir_in file_dir dirs)
      then Some (access_denied_message file_dir dirs)
      else None
  | None => None
  end.

Definition edit_file (fs : filesystem)
    (file_path find_text replace_text : string)
    (allowed_dirs : option (list string)) : result string * filesystem :=
  let full_path := joinpath PROJECT_ROOT file_path in
  match access_check file_path allowed_dirs with
  | Some denied => (Ok denied, fs)
  | None =>
      match exists_ fs full_path with
      | Raise e => (Raise e, fs)
      | Ok false => (Ok (not_found_message file_path), fs)
      | Ok true =>
          if negb (str_eqb (suffix full_path) ".md")
          then (Ok unsupported_type_message, fs)
          else
            match read_text fs full_path with
            | Raise e => (Raise e, fs)
            | Ok content =>
                if negb (contains find_text content)
                then (Ok (text_not_found_message file_path), fs)
                else
                  let new_content :=
                    replace1 content find_text replace_text in
                  match write_text fs full_path new_content with
                  | Raise e => (Raise e, fs)
                  | Ok fs' => (Ok (updated_message file_path), fs')
                  end
            end
      end
  end.

(** ** [get_recent_updates] *)

Definition git_log_command (since : string) : list string :=
  ["git"; "log"; "--since=" +:+ since; "--pretty=format:%h|%s|%ad";
   "--date=short"; "--name-only"].

Definition git_stat_command (since : string) : list string :=
  ["git"; "log"; "--since=" +:+ since; "--pretty=format:"; "--shortstat"].

Definition git_count_command (since : string) : list string :=
  ["git"; "rev-list"; "--count"; "--since=" +:+ since; "HEAD"].

Definition git_files_command (since : string) : list string :=
  ["git"; "log"; "--since=" +:+ since; "--pretty=format:"; "--name-only"].

(** [set(f for f in out.strip().split("\n") if f)], counted. *)
Definition unique_files (out : string) : nat :=
  count_distinct
    (List.filter (fun f => negb (str_eqb f ""))
       (split (ascii_of_nat 10) (strip out))).

Definition git_log_error_message (err : string) : string :=
  "Error running git log: " +:+ err.

Definition no_commits_message (days : Z) : string :=
  "No commits found in the last " +:+ str_of_int days +:+ " days.".

Definition git_history_error_message (e : exn) : string :=
  "Error getting git history: " +:+ exn_str e.

Definition history_summary (days : Z) (commit_count : string)
    (files : nat) (log : string) : string :=
  "Git history for the last " +:+ str_of_int days +:+ " days:" +:+ nl +:+ nl
  +:+ "Total commits: " +:+ commit_count +:+ nl
  +:+ "Files modified: " +:+ str_of_int (Z.of_nat files) +:+ nl +:+ nl
  +:+ "Commits:" +:+ nl
  +:+ log.

(** The statements inside [try:]. *)
Definition recent_updates_body (days : Z) : result string :=
  let* since := since_date days in
  let* log_result := subprocess_run (git_log_command since) in
  if negb (returncode log_result =? 0)
  then Ok (git_log_error_message (stderr log_result))
  else if str_eqb (strip (stdout log_result)) ""
  then Ok (no_commits_message days)
  else
    let* stat_result := subprocess_run (git_stat_command since) in
    let* count_result := subprocess_run (git_count_command since) in
    let commit_count :=
      if returncode count_result =? 0
      then strip (stdout count_result) else "unknown" in
    let* files_result := subprocess_run (git_files_command since) in
    Ok (history_summary days commit_count
          (unique_files (stdout files_result)) (stdout log_result)).

Definition get_recent_updates (days : Z) : result string :=
  try_except (recent_updates_body days)
    (fun e => Ok (git_history_error_message e)).

(** ** [execute_tool] *)

(** [tool_input[key]]. *)
Definition getitem (input : tool_input) (key : string) : result string :=
  match str_args input !! key with
  | Some v => Ok v
  | None => Raise (Exn "KeyError" ("'" +:+ key +:+ "'"))
  end.

Definition execute_tool (fs : filesystem) (tool_name : string)
    (input : tool_input) (allowed_dirs : option (list string))
  : result string * filesystem :=
  if str_eqb tool_name "edit_file" then
    match
      let* file_path := getitem input "file_path" in
      let* find_text := getitem input "find_text" in
      let* replace_text := getitem input "replace_text" in
      Ok (file_path, find_text, replace_text)
    with
    | Ok (file_path, find_text, replace_text) =>
        edit_file fs file_path find_text replace_text allowed_dirs
    | Raise e => (Raise e, fs)
    end
  else if str_eqb tool_name "get_recent_updates" then
    (get_recent_updates (default 7 (int_args input !! "days")), fs)
  else (Ok ("Unknown tool: " +:+ tool_name), fs).

(** ** [get_session] *)

Definition expired (now : Z) (s : session) : Prop :=
  now - last_activity s > SESSION_TIMEOUT.

Global Instance expired_dec (now : Z) (s : session)
  : Decision (expired now s) :=
  decide (now - last_activity s > SESSION_TIMEOUT).

Definition fresh_session (now : Z) : session :=
  {| messages := []; last_activity := now |}.

Definition touch (now : Z) (s : session) : session :=
  {| messages := messages s; last_activity := now |}.

(** The sweep: every expired session is deleted. *)
Definition sweep (now : Z) (sessions : gmap string session)
  : gmap string session :=
  filter (fun kv : string * session => ¬ expired now (snd kv)) sessions.

(** The session returned is the one stored under [channel_id] in the
    map returned with it. *)
Definition get_session (now : Z) (sessions : gmap string session)
    (channel_id : string) : session * gmap string session :=
  let swept := sweep now sessions in
  let current :=
    match swept !! channel_id with
    | Some s =>
        if bool_decide (expired now s) then fresh_session now
        else touch now s
    | None => fresh_session now
    end in
  (current, <[channel_id := current]> swept).

(** ** [ask_claude] *)

Definition first_context_message (project_context user_message : string)
  : string :=
  "Here are the current project files:" +:+ nl +:+ nl
  +:+ project_context +:+ nl +:+ nl
  +:+ "---" +:+ nl +:+ nl
  +:+ "User request: " +:+ user_message.

Definition later_context_message (user_message : string) : string :=
  "(Project files still available from earlier in conversation)"
  +:+ nl +:+ nl
  +:+ "User request: " +:+ user_message.

(** The text of the user turn: the files on the first message of a
    session, a reminder afterwards. *)
Definition context_message (session_messages : list message)
    (project_context user_message : string) : string :=
  match session_messages with
  | [] => first_context_message project_context user_message
  | _ :: _ => later_context_message user_message
  end.

Definition system_prompt (project_context : string) : string :=
  SYSTEM_PROMPT +:+ nl +:+ nl +:+ "Current project files:" +:+ nl
  +:+ project_context.

Definition user_message_of (text : string) : message :=
  {| role := "user"; message_content_of := Text text |}.

Definition assistant_message_of (text : string) : message :=
  {| role := "assistant"; message_content_of := Text text |}.

(** [session["messages"].append(m)]. *)
Definition append_message (s : session) (m : message) : session :=
  {| messages := messages s ++ [m]; last_activity := last_activity s |}.

(** [if len(l) > 40: l = l[-40:]]. *)
Definition trim (l : list message) : list message :=
  if (40 <? List.length l)%nat then drop (List.length l - 40)%nat l else l.

Definition trim_session (s : session) : session :=
  {| messages := trim (messages s); last_activity := last_activity s |}.

(** The loop over the blocks of a response: every tool-use block is
    executed in turn, the first exception ends the loop. *)
Fixpoint run_tools (fs : filesystem) (blocks : list block)
    (allowed_dirs : option (list string))
  : result (list tool_result) * filesystem :=
  match blocks with
  | [] => (Ok [], fs)
  | ToolUseBlock id tool_name input :: rest =>
      match execute_tool fs tool_name input allowed_dirs with
      | (Raise e, fs1) => (Raise e, fs1)
      | (Ok out, fs1) =>
          match run_tools fs1 rest allowed_dirs with
          | (Raise e, fs2) => (Raise e, fs2)
          | (Ok results, fs2) =>
              (Ok ({| tool_use_id := id; result_content := out |}
                   :: results), fs2)
          end
      end
  | _ :: rest => run_tools fs rest allowed_dirs
  end.

(** [while response.stop_reason == "tool_use": ...]. One unit of [fuel]
    is spent each time the condition is evaluated; the source has no
    bound on the number of rounds. The result holds what the loop ended
    with (the last response, or the exception that left it), the disk,
    the local list [messages] and the requests made, oldest first. *)
Fixpoint tool_use_loop (fuel : nat) (system_text : string)
    (allowed_dirs : option (list string)) (fs : filesystem)
    (outbound : list message) (resp : response)
  : option (result response * filesystem * list message * list request) :=
  match fuel with
  | O => None
  | S fuel' =>
      if str_eqb (stop_reason resp) "tool_use" then
        match run_tools fs (content resp) allowed_dirs with
        | (Raise e, fs1) => Some (Raise e, fs1, outbound, [])
        | (Ok tool_results, fs1) =>
            let outbound1 :=
              outbound
              ++ [ {| role := "assistant";
                      message_content_of := Blocks (content resp) |};
                   {| role := "user";
                      message_content_of := ToolResults tool_results |} ] in
            let req :=
              {| system := system_text; request_messages := outbound1 |} in
            match claude_messages_create system_text outbound1 with
            | Raise e => Some (Raise e, fs1, outbound1, [req])
            | Ok resp1 =>
                match tool_use_loop fuel' system_text allowed_dirs fs1
                        outbound1 resp1 with
                | Some (r, fs2, outbound2, reqs) =>
                    Some (r, fs2, outbound2, req :: reqs)
                | None => None
                end
            end
        end
      else Some (Ok resp, fs, outbound, [])
  end.

(** The model settles at [n]: it asks for no tool once the conversation it
    is sent holds [n] messages or more. *)
Definition settles (n : nat) : Prop :=
  forall system_text outbound resp,
    claude_messages_create system_text outbound = Ok resp ->
    (n <= List.length outbound)%nat ->
    stop_reason resp <> "tool_use".

(** The first block with an attribute [text]. *)
Fixpoint first_text (blocks : list block) : option string :=
  match blocks with
  | [] => None
  | TextBlock t :: _ => Some t
  | _ :: rest => first_text rest
  end.

Definition fallback_reply : string :=
  "I completed the action but have no additional message.".

Definition sorry_message (e : exn) : string :=
  "Sorry, I encountered an error: " +:+ exn_str e.

(** What a call of [ask_claude] leaves behind: the value returned or the
    exception that escaped, the state, the requests sent to the model
    (oldest first), the local list [messages] at the end, and the
    exception its handler caught, if any. *)
Record turn := {
  reply : result string;
  after : world;
  sent : list request;
  outbound_messages : list message;
  caught : option exn
}.

(** [None] only when [fuel] does not cover the rounds the model asks
    for. [now] is what [time.time()] reads in [get_session]. The dictionary
    [session] of the source is the object held in [SESSIONS] under
    [channel_id], so every change made to it is written to the store here;
    the list [messages] is a copy, and what is appended to it stays local. *)
Definition ask_claude (fuel : nat) (now : Z) (w : world)
    (user_message channel_id : string) : option turn :=
  let '(session0, sessions0) := get_session now (SESSIONS w) channel_id in
  let allowed_dirs := get_allowed_dirs channel_id in
  match get_all_markdown_files (disk w) allowed_dirs with
  | Raise e =>
      Some {| reply := Raise e;
              after := {| disk := disk w; SESSIONS := sessions0 |};
              sent := []; outbound_messages := []; caught := None |}
  | Ok project_context =>
      let context_text :=
        context_message (messages session0) project_context user_message in
      let session1 :=
        append_message session0 (user_message_of context_text) in
      let sessions1 := <[channel_id := session1]> sessions0 in
      let outbound := messages session1 in
      let system_text := system_prompt project_context in
      let req :=
        {| system := system_text; request_messages := outbound |} in
      (* try: *)
      match claude_messages_create system_text outbound with
      | Raise e =>
          Some {| reply := Ok (sorry_message e);
                  after := {| disk := disk w; SESSIONS := sessions1 |};
                  sent := [req]; outbound_messages := outbound;
                  caught := Some e |}
      | Ok resp =>
          match tool_use_loop fuel system_text allowed_dirs (disk w)
                  outbound resp with
          | None => None
          | Some (Raise e, fs1, outbound1, reqs) =>
              Some {| reply := Ok (sorry_message e);
                      after := {| disk := fs1; SESSIONS := sessions1 |};
                      sent := req :: reqs; outbound_messages := outbound1;
                      caught := Some e |}
          | Some (Ok final, fs1, outbound1, reqs) =>
              let response_text :=
                default fallback_reply (first_text (content final)) in
              let session2 :=
                trim_session
                  (append_message session1
                     (assistant_message_of response_text)) in
              Some {| reply := Ok response_text;
                      after := {| disk := fs1;
                                  SESSIONS :=
                                    <[channel_id := session2]> sessions1 |};
                      sent := req :: reqs; outbound_messages := outbound1;
                      caught := None |}
          end
      end
  end.

End WithEnvironment.

End Bot.

Import Bot.

(* ===================================================================== *)
(** * The event handlers                                                  *)
(* ===================================================================== *)

Module Handlers.

(** The fields the handlers read of a Slack event. [event.get] answers
    [None] for a field that is missing; the channel is always there. *)
Record event := {
  event_text : option string;
  event_channel : string;
  event_bot_id : option string;
  event_channel_type : option string
}.

(** What a handler asks of Slack, in the order of the calls. *)
Inductive slack_call :=
| PostMessage (channel text : string)
| DeleteMessage (channel ts : string)
| Say (text : string).

(** What follows the first [sep] in [s], if there is one. *)
Fixpoint cut_after (sep : ascii) (s : string) : option string :=
  match s with
  | EmptyString => None
  | String c s' => if Ascii.eqb c sep then Some s' else cut_after sep s'
  end.

(** [s.split(sep, 1)[-1]]. *)
Definition split1_last (sep : ascii) (s : string) : string :=
  default s (cut_after sep s).

(** The truth value of [event.get(key)]. *)
Definition truthy (o : option string) : bool :=
  match o with
  | Some s => negb (str_eqb s "")
  | None => false
  end.

Definition thinking_text : string := "_Thinking..._".

Definition greeting : string := "Hi! Ask me anything about your project.".

(** What a handler leaves behind: how it ended, the state, and the calls it
    made to Slack, the one that raised included. *)
Record handled := {
  outcome : result unit;
  world_after : world;
  calls : list slack_call
}.

Section WithSlack.

Variable PROJECT_ROOT : path.
Variable PROJECTS : list (string * string).
Variable CHANNEL_ACCESS : gmap string (list string).
Variable claude_messages_create : string -> list message -> result response.
Variable subprocess_run : list string -> result completed_process.
Variable since_date : Z -> result string.

(** The Slack client: [client.chat_postMessage] answers the timestamp of
    the message posted. Each call may raise. *)
Variable chat_postMessage : string -> string -> result string.
Variable chat_delete : string -> string -> result unit.
Variable say : string -> result unit.

(** The four statements both handlers run on a message that is not empty:
    post the placeholder, ask, delete the placeholder, say the response. *)
Definition think_and_say (fuel : nat) (now : Z) (w : world)
    (user_message channel : string) : option handled :=
  match chat_postMessage channel thinking_text with
  | Raise e =>
      Some {| outcome := Raise e; world_after := w;
              calls := [PostMessage channel thinking_text] |}
  | Ok ts =>
      match ask_claude PROJECT_ROOT PROJECTS CHANNEL_ACCESS
              claude_messages_create subprocess_run since_date
              fuel now w user_message channel with
      | None => None
      | Some t =>
          match reply t with
          | Raise e =>
              Some {| outcome := Raise e; world_after := after t;
                      calls := [PostMessage channel thinking_text] |}
          | Ok response_text =>
              match chat_delete channel ts with
              | Raise e =>
                  Some {| outcome := Raise e; world_after := after t;
                          calls := [PostMessage channel thinking_text;
                                    DeleteMessage channel ts] |}
              | Ok _ =>
                  Some {| outcome :=
                            match say response_text with
                            | Ok _ => Ok tt
                            | Raise e => Raise e
                            end;
                          world_after := after t;
                          calls := [PostMessage channel thinking_text;
                                    DeleteMessage channel ts;
                                    Say response_text] |}
              end
          end
      end
  end.

Definition handle_mention (fuel : nat) (now : Z) (w : world) (ev : event)
  : option handled :=
  let user_message :=
    strip (split1_last ">" (default "" (event_text ev))) in
  let channel := event_channel ev in
  if negb (str_eqb user_message "") then
    think_and_say fuel now w user_message channel
  else
    Some {| outcome :=
              match say greeting with
              | Ok _ => Ok tt
              | Raise e => Raise e
              end;
            world_after := w;
            calls := [Say greeting] |}.

Definition handle_dm (fuel : nat) (now : Z) (w : world) (ev : event)
  : option handled :=
  if truthy (event_bot_id ev)
     || negb (bool_decide (event_channel_type ev = Some "im"))
  then Some {| outcome := Ok tt; world_after := w; calls := [] |}
  else
    let user_message := default "" (event_text ev) in
    let channel := event_channel ev in
    if negb (str_eqb user_message "") then
      think_and_say fuel now w user_message channel
    else Some {| outcome := Ok tt; world_after := w; calls := [] |}.

End WithSlack.

End Handlers.

Import Handlers.

(* ===================================================================== *)
(** * The constants of the source, and a small world to run the model on  *)
(* ===================================================================== *)

Module Deployment.

(** [PROJECTS], in the order of the dictionary. *)
Definition PROJECTS : list (string * string) :=
  [ ("project_alpha", "Project Alpha"); ("project_beta", "Project Beta") ].

(** [CHANNEL_ACCESS]: every entry of the source is commented out. *)
Definition CHANNEL_ACCESS : gmap string (list string) := ∅.

(** The configuration the comments of the source suggest. *)
Definition CHANNEL_ACCESS_example : gmap string (list string) :=
  list_to_map [ ("C0123456789", ["project_alpha"]);
                ("C0987654321", ["project_beta"]) ].

(** Where the repository is checked out. *)
Definition PROJECT_ROOT : path := ["srv"; "repo"].

(** A sample checkout. *)
Definition disk : filesystem :=
  list_to_map
    [ (["srv"], Dir true);
      (["srv"; "repo"], Dir true);
      (["srv"; "repo"; "README.md"], File "root notes");
      (["srv"; "repo"; "CLAUDE.md"], File "instructions");
      (["srv"; "repo"; "project_alpha"], Dir true);
      (["srv"; "repo"; "project_alpha"; "todo.md"], File "TODO one. TODO two.");
      (["srv"; "repo"; "project_alpha"; "deep"], Dir true);
      (["srv"; "repo"; "project_alpha"; "deep"; "plan.md"], File "plan");
      (["srv"; "repo"; "project_alpha"; "data.txt"], File "raw");
      (["srv"; "repo"; "project_beta"], Dir true);
      (["srv"; "repo"; "project_beta"; "notes.md"], File "beta notes");
      (["srv"; "repo"; "vault"], Dir false);
      (["srv"; "repo"; "vault"; "secret.md"], File "hidden") ].

End Deployment.

(* ===================================================================== *)
(** * The notions the properties are stated with                          *)
(* ===================================================================== *)

Module Spec.

(** The top-level partition of a path given as text: what precedes its
    first ["/"]. A path without ["/"] has none. *)
Definition top_level_partition (file_path d : string) : Prop :=
  exists rest, file_path = d +:+ "/" +:+ rest /\ contains "/" d = false.

(** The access check passes exactly when the scope is unrestricted or the
    top-level partition of the path is allowed. *)
Definition access_granted (file_path : string)
    (allowed_dirs : option (list string)) : Prop :=
  match allowed_dirs with
  | None => True
  | Some dirs => exists d, top_level_partition file_path d /\ d ∈ dirs
  end.

(** The root-level documents: the entries [*.md] directly under the
    project root. *)
Definition root_document (ROOT : path) (fs : filesystem) (rel : path) : Prop :=
  exists rels, glob_md false fs ROOT = Ok rels /\ rel ∈ rels.

(** The documents of a partition: the entries [*.md] at any depth under the
    directory of the partition. *)
Definition partition_document (ROOT : path) (fs : filesystem)
    (proj_dir : string) (rel : path) : Prop :=
  exists rels,
    glob_md true fs (joinpath ROOT proj_dir) = Ok rels /\ rel ∈ rels.

(** The first character of a text. *)
Definition first_char (s : string) : option ascii :=
  match s with
  | EmptyString => None
  | String c _ => Some c
  end.

End Spec.

Import Spec.

(* ===================================================================== *)
(** * Sample data                                                         *)
(* ===================================================================== *)

Module EditExamples.

(** The sample disk with one more file, holding ["A..A"]. *)
Definition disk_a : filesystem :=
  <[ ["srv"; "repo"; "project_alpha"; "a.md"] := File "A..A" ]> Deployment.disk.

Definition a_md : path := ["srv"; "repo"; "project_alpha"; "a.md"].

End EditExamples.

Module SessionExamples.

Definition hello : message := user_message_of "hello".

(** Two channels, last active at 1000 and at 1001 seconds. *)
Definition sessions : gmap string session :=
  list_to_map
    [ ("C1", {| messages := [hello]; last_activity := 1000 |});
      ("C2", {| messages := [hello]; last_activity := 1001 |}) ].

End SessionExamples.

Module HistoryExamples.

Definition since_date (days : Z) : result string := Ok "2026-10-28".

Definition process (code : Z) (out err : string) : completed_process :=
  {| returncode := code; stdout := out; stderr := err |}.

Definition log_output : string :=
  "1a2b3c4|Update todo|2026-11-02" +:+ nl +:+ "project_alpha/todo.md" +:+ nl
  +:+ nl +:+ "5d6e7f8|Add notes|2026-11-01" +:+ nl
  +:+ "project_alpha/todo.md" +:+ nl +:+ "project_beta/notes.md".

(** A repository with two commits in range, touching two files. *)
Definition repository (command : list string) : result completed_process :=
  if bool_decide (command = git_log_command "2026-10-28")
  then Ok (process 0 log_output "")
  else if bool_decide (command = git_count_command "2026-10-28")
  then Ok (process 0 ("2" +:+ nl) "")
  else if bool_decide (command = git_files_command "2026-10-28")
  then Ok (process 0 ("project_alpha/todo.md" +:+ nl +:+ nl
                      +:+ "project_alpha/todo.md" +:+ nl
                      +:+ "project_beta/notes.md") "")
  else Ok (process 0 "" "").

(** A repository with no commit in range. *)
Definition quiet_repository (command : list string)
  : result completed_process :=
  Ok (process 0 "" "").

(** A directory that is not a repository. *)
Definition no_repository (command : list string) : result completed_process :=
  Ok (process 128 "" "fatal: not a git repository").

(** A machine without [git]. *)
Definition no_git (command : list string) : result completed_process :=
  Raise (Exn "FileNotFoundError" "[Errno 2] No such file or directory: 'git'").

End HistoryExamples.

Module DocumentExamples.

(** A project root that holds [CLAUDE.md] and nothing else. *)
Definition lone_disk : filesystem :=
  list_to_map
    [ (["srv"], Dir true);
      (["srv"; "repo"], Dir true);
      (["srv"; "repo"; "CLAUDE.md"], File "instructions") ].

End DocumentExamples.

Module TurnExamples.

Definition text_response (text : string) : response :=
  {| stop_reason := "end_turn"; content := [TextBlock text] |}.

(** A model that answers at once. *)
Definition plain_model (system_text : string) (outbound : list message)
  : result response :=
  Ok (text_response "Nothing to change.").

Definition edit_request : tool_input :=
  {| str_args :=
       list_to_map [ ("file_path", "project_alpha/todo.md");
                     ("find_text", "TODO"); ("replace_text", "DONE") ];
     int_args := ∅ |}.

(** A model that asks for one edit when the conversation is short, and
    reports once it has the result. *)
Definition editing_model (system_text : string) (outbound : list message)
  : result response :=
  if (List.length outbound <? 3)%nat then
    Ok {| stop_reason := "tool_use";
          content := [ TextBlock "Let me edit the file.";
                       ToolUseBlock "toolu_01" "edit_file" edit_request ] |}
  else Ok (text_response "Changed TODO to DONE in project_alpha/todo.md.").

(** A model that asks for a tool whatever it is sent. *)
Definition restless_model (system_text : string) (outbound : list message)
  : result response :=
  Ok {| stop_reason := "tool_use";
        content := [ToolUseBlock "toolu_01" "get_recent_updates"
                      {| str_args := ∅; int_args := ∅ |}] |}.

(** A model that asks for an edit and leaves the arguments out. *)
Definition careless_model (system_text : string) (outbound : list message)
  : result response :=
  Ok {| stop_reason := "tool_use";
        content := [ToolUseBlock "toolu_01" "edit_file"
                      {| str_args := ∅; int_args := ∅ |}] |}.

(** An API that cannot be reached. *)
Definition failing_model (system_text : string) (outbound : list message)
  : result response :=
  Raise (Exn "APIConnectionError" "Connection error.").

Definition ask (model : string -> list message -> result response) :=
  ask_claude Deployment.PROJECT_ROOT Deployment.PROJECTS
    Deployment.CHANNEL_ACCESS model HistoryExamples.repository
    HistoryExamples.since_date.

(** The sample disk and no session. *)
Definition fresh_world : world :=
  {| disk := Deployment.disk; SESSIONS := ∅ |}.

Definition earlier : list message :=
  [ user_message_of "first question"; assistant_message_of "first answer" ].

(** The sample disk and a session of one exchange, last active at 900. *)
Definition ongoing_world : world :=
  {| disk := Deployment.disk;
     SESSIONS :=
       {[ "C1" := {| messages := earlier; last_activity := 900 |} ]} |}.

(** The sample disk and a session of twenty exchanges, last active at 900. *)
Definition full_world : world :=
  {| disk := Deployment.disk;
     SESSIONS :=
       {[ "C1" := {| messages := concat (replicate 20 earlier);
                     last_activity := 900 |} ]} |}.

(** A project root the process may not search. *)
Definition locked_disk : filesystem :=
  list_to_map [ (["srv"], Dir true); (["srv"; "repo"], Dir false) ].

Definition locked_world : world :=
  {| disk := locked_disk; SESSIONS := ∅ |}.

(** The text of the documents of the sample disk. *)
Definition blob : string :=
  Eval vm_compute in
    match get_all_markdown_files Deployment.PROJECT_ROOT Deployment.PROJECTS
            Deployment.disk None with
    | Ok text => text
    | Raise _ => ""
    end.

End TurnExamples.

(* ===================================================================== *)
(** * Further notions and sample data                                     *)
(* ===================================================================== *)

Module SpecExtra.

(** The identifiers of the tool-use blocks of a response, in order. *)
Fixpoint tool_use_ids (blocks : list block) : list string :=
  match blocks with
  | [] => []
  | ToolUseBlock id _ _ :: rest => id :: tool_use_ids rest
  | _ :: rest => tool_use_ids rest
  end.

(** A message whose content is plain text. *)
Definition plain_message (m : message) : Prop :=
  exists s, message_content_of m = Text s.

(** A store whose sessions hold plain text only. *)
Definition plain_store (sessions : gmap string session) : Prop :=
  forall channel_id s,
    sessions !! channel_id = Some s -> Forall plain_message (messages s).

(** A partition name made of one component that is neither ["."] nor
    [".."]. *)
Definition plain_name (proj_dir : string) : Prop :=
  exists x, parts proj_dir = [x] /\ x <> ".." /\ x <> "."
            /\ startswith "/" proj_dir = false.

End SpecExtra.

Import SpecExtra.

Module SlackExamples.

(** A Slack that accepts every call; messages posted get the timestamp
    ["1700000000.000100"]. *)
Definition chat_postMessage (channel text : string) : result string :=
  Ok "1700000000.000100".

Definition chat_delete (channel ts : string) : result unit := Ok tt.

Definition say (text : string) : result unit := Ok tt.

Definition mention (text : string) : event :=
  {| event_text := Some text; event_channel := "C1";
     event_bot_id := None; event_channel_type := None |}.

Definition direct (text : string) : event :=
  {| event_text := Some text; event_channel := "D1";
     event_bot_id := None; event_channel_type := Some "im" |}.

Definition on_mention (model : string -> list message -> result response) :=
  handle_mention Deployment.PROJECT_ROOT Deployment.PROJECTS
    Deployment.CHANNEL_ACCESS model HistoryExamples.repository
    HistoryExamples.since_date chat_postMessage chat_delete say.

Definition on_dm (model : string -> list message -> result response) :=
  handle_dm Deployment.PROJECT_ROOT Deployment.PROJECTS
    Deployment.CHANNEL_ACCESS model HistoryExamples.repository
    HistoryExamples.since_date chat_postMessage chat_delete say.

End SlackExamples.



Module AbsoluteExample.

(** The sample disk with a markdown file outside the checkout. *)
Definition disk : filesystem :=
  <[ ["etc"; "motd.md"] := File "welcome" ]>
    (<[ ["etc"] := Dir true ]> Deployment.disk).

End AbsoluteExample.

Module ToolExamples.

Definition no_argument : tool_input := {| str_args := ∅; int_args := ∅ |}.

Definition path_only : tool_input :=
  {| str_args := {[ "file_path" := "project_alpha/todo.md" ]};
     int_args := ∅ |}.

Definition no_replacement : tool_input :=
  {| str_args :=
       list_to_map [ ("file_path", "project_alpha/todo.md");
                     ("find_text", "TODO") ];
     int_args := ∅ |}.

Definition edit_notes : tool_input :=
  {| str_args :=
       list_to_map [ ("file_path", "project_beta/notes.md");
                     ("find_text", "beta"); ("replace_text", "gamma") ];
     int_args := ∅ |}.

(** A response with a text and two tool calls. *)
Definition two_calls : list block :=
  [ TextBlock "On it.";
    ToolUseBlock "toolu_01" "edit_file" TurnExamples.edit_request;
    ThinkingBlock "history next";
    ToolUseBlock "toolu_02" "get_recent_updates" no_argument ].

Definition execute :=
  execute_tool Deployment.PROJECT_ROOT HistoryExamples.repository
    HistoryExamples.since_date.

Definition run :=
  run_tools Deployment.PROJECT_ROOT HistoryExamples.repository
    HistoryExamples.since_date.

(** A response whose second tool call lacks its arguments. *)
Definition first_call : list block :=
  [ToolUseBlock "toolu_01" "edit_file" TurnExamples.edit_request].

Definition broken_call : list block :=
  first_call
  ++ ToolUseBlock "toolu_02" "edit_file" no_argument
  :: [ToolUseBlock "toolu_03" "edit_file" edit_notes].

End ToolExamples.

Module WorldExamples.

(** The sample disk and the two sessions of [SessionExamples]. *)
Definition two_channels : world :=
  {| disk := Deployment.disk; SESSIONS := SessionExamples.sessions |}.

(** A model that ends its turn with a tool call and no text. *)
Definition silent_model (system_text : string) (outbound : list message)
  : result response :=
  Ok {| stop_reason := "end_turn";
        content := [ToolUseBlock "toolu_01" "edit_file"
                      TurnExamples.edit_request] |}.

(** A model that asks for one edit in every turn: it asks for the tool
    unless the last message it is sent holds the results of one. It
    settles at no length of the conversation. *)
Definition one_round_model (system_text : string) (outbound : list message)
  : result response :=
  match message_content_of <$> last outbound with
  | Some (ToolResults _) =>
      Ok (TurnExamples.text_response
            "Changed TODO to DONE in project_alpha/todo.md.")
  | _ =>
      Ok {| stop_reason := "tool_use";
            content := [ToolUseBlock "toolu_01" "edit_file"
                          TurnExamples.edit_request] |}
  end.

End WorldExamples.

Module EventExamples.

(** A direct message written by a bot. *)
Definition from_bot : event :=
  {| event_text := Some "hi"; event_channel := "D1";
     event_bot_id := Some "B1"; event_channel_type := Some "im" |}.

End EventExamples.

(* ===================================================================== *)
(** * The model on small inputs                                           *)
(* ===================================================================== *)

Module ModelChecks.

Example split_example : split "/" "a/b//c" = ["a"; "b"; ""; "c"].
Proof. reflexivity. Qed.

Example replace1_example : replace1 "A..A" "A" "B" = "B..A".
Proof. reflexivity. Qed.

Example strip_example : strip "  a b
 " = "a b".
Proof. reflexivity. Qed.

Example strip_unicode_example :
  let nbsp := String (ascii_of_nat 194) (String (ascii_of_nat 160) "") in
  let line_separator :=
    String (ascii_of_nat 226)
      (String (ascii_of_nat 128) (String (ascii_of_nat 168) "")) in
  let e_acute := String (ascii_of_nat 195) (String (ascii_of_nat 169) "") in
  strip (nbsp +:+ " " +:+ e_acute +:+ nbsp +:+ "a" +:+ line_separator
         +:+ newline)
  = e_acute +:+ nbsp +:+ "a".
Proof. reflexivity. Qed.

Example str_of_int_example : str_of_int (-70) = "-70" /\ str_of_int 7 = "7".
Proof. split; vm_compute; reflexivity. Qed.

Example suffix_md : suffix ["a"; "todo.md"] = ".md".
Proof. reflexivity. Qed.

Example suffix_hidden : suffix [".md"] = "" /\ suffix ["x."] = "".
Proof. split; reflexivity. Qed.

Example joinpath_relative :
  joinpath ["srv"; "repo"] "project_alpha/./x//y.md"
  = ["srv"; "repo"; "project_alpha"; "x"; "y.md"].
Proof. reflexivity. Qed.

Example joinpath_absolute :
  joinpath ["srv"; "repo"] "/etc/motd.md" = ["etc"; "motd.md"].
Proof. reflexivity. Qed.

Example stat_dotdot :
  stat Deployment.disk ["srv"; "repo"; "project_alpha"; ".."; "README.md"]
  = Found ["srv"; "repo"; "README.md"] (File "root notes").
Proof. vm_compute. reflexivity. Qed.

Example exists_denied :
  exists_ Deployment.disk ["srv"; "repo"; "vault"; "secret.md"]
  = Raise (PermissionError ["srv"; "repo"; "vault"; "secret.md"]).
Proof. vm_compute. reflexivity. Qed.

End ModelChecks.

(* ===================================================================== *)
(** * Properties of the string operations                                 *)
(* ===================================================================== *)

Module PyFacts.

Lemma str_eqb_true (a b : string) : str_eqb a b = true <-> a = b.
Proof. unfold str_eqb. apply bool_decide_eq_true. Qed.

Lemma str_eqb_false (a b : string) : str_eqb a b = false <-> a <> b.
Proof. unfold str_eqb. apply bool_decide_eq_false. Qed.

Lemma append_cons (x : ascii) (a b : string) :
  String x a +:+ b = String x (a +:+ b).
Proof. reflexivity. Qed.

Lemma append_nil_l (b : string) : "" +:+ b = b.
Proof. reflexivity. Qed.

(** Pushes the constructors of a string out of its concatenations. *)
Ltac push_append := rewrite ?append_cons, ?append_nil_l in *.

Lemma append_assoc (a b c : string) : (a +:+ b) +:+ c = a +:+ b +:+ c.
Proof.
  induction a as [|x a IH]; push_append; [reflexivity | now rewrite IH].
Qed.

Lemma append_nil_r (a : string) : a +:+ "" = a.
Proof.
  induction a as [|x a IH]; push_append; [reflexivity | now rewrite IH].
Qed.

Lemma length_append (a b : string) :
  String.length (a +:+ b) = (String.length a + String.length b)%nat.
Proof.
  induction a as [|x a IH]; push_append; simpl; [reflexivity | now rewrite IH].
Qed.

(** [startswith p s] holds exactly when [s] is [p] followed by something. *)
Lemma startswith_spec (p s : string) :
  startswith p s = true <-> exists t, s = p +:+ t.
Proof.
  revert s. induction p as [|a p IH]; intros s; simpl.
  - split; [intros _; now exists s | reflexivity].
  - destruct s as [|b s].
    + split; [discriminate | intros [t Ht]; discriminate].
    + destruct (Ascii.eqb_spec a b) as [->|Hne].
      * rewrite IH. split; intros [t Ht]; exists t.
        -- now rewrite Ht.
        -- rewrite append_cons in Ht. now inversion Ht.
      * split; [discriminate |].
        intros [t Ht]. rewrite append_cons in Ht. congruence.
Qed.

Lemma drop_str_append (p t : string) : drop_str (String.length p) (p +:+ t) = t.
Proof. induction p as [|a p IH]; simpl; [reflexivity | exact IH]. Qed.

Lemma startswith_append (p t : string) : startswith p (p +:+ t) = true.
Proof. apply startswith_spec. now exists t. Qed.


(** [contains sub s] holds exactly when [sub] occurs in [s]. *)
Lemma contains_spec (sub s : string) :
  contains sub s = true <-> occurs_in sub s.
Proof.
  unfold occurs_in.
  induction s as [|c s IH]; simpl.
  - destruct (startswith sub "") eqn:E.
    + apply startswith_spec in E as [t Ht]. split; [intros _ | reflexivity].
      exists "", t. exact Ht.
    + split; [discriminate |]. intros (p & t & H).
      destruct p; push_append.
      * rewrite H, startswith_append in E. discriminate.
      * discriminate.
  - destruct (startswith sub (String c s)) eqn:E.
    + apply startswith_spec in E as [t Ht]. split; [intros _ | reflexivity].
      exists "", t. exact Ht.
    + rewrite IH. split.
      * intros (p & t & ->). exists (String c p), t. reflexivity.
      * intros (p & t & H). destruct p as [|x p]; push_append.
        -- rewrite H, startswith_append in E. discriminate.
        -- inversion H. now exists p, t.
Qed.

(** The leftmost occurrence, and only it, is replaced. *)
Lemma replace1_spec (s old new : string) :
  contains old s = true ->
  exists p t,
    s = p +:+ old +:+ t
    /\ replace1 s old new = p +:+ new +:+ t
    /\ (forall p' t', s = p' +:+ old +:+ t' ->
          (String.length p <= String.length p')%nat).
Proof.
  induction s as [|c s IH]; simpl.
  - destruct (startswith old "") eqn:E; [|discriminate]. intros _.
    apply startswith_spec in E as [t Ht]. exists "", t. push_append.
    rewrite Ht at 2. rewrite drop_str_append.
    repeat split; [exact Ht | intros; simpl; lia].
  - destruct (startswith old (String c s)) eqn:E.
    + intros _. apply startswith_spec in E as [t Ht]. exists "", t.
      push_append. rewrite Ht. rewrite drop_str_append.
      repeat split. intros; simpl; lia.
    + intros Hc. destruct (IH Hc) as (p & t & Hs & Hr & Hmin).
      exists (String c p), t. push_append. rewrite Hr, <- Hs.
      repeat split. intros p' t' H'.
      destruct p' as [|x p']; push_append.
      * rewrite H', startswith_append in E. discriminate.
      * injection H' as _ H1. specialize (Hmin p' t' H1). simpl. lia.
Qed.

Lemma replace1_absent (s old new : string) :
  contains old s = false -> replace1 s old new = s.
Proof.
  induction s as [|c s IH]; simpl.
  - destruct (startswith old ""); [discriminate | reflexivity].
  - destruct (startswith old (String c s)); [discriminate |].
    intros H. now rewrite IH.
Qed.

Lemma contains_middle (a x b : string) : contains x (a +:+ x +:+ b) = true.
Proof. apply contains_spec. now exists a, b. Qed.

(** Every element of a list occurs in the joined string. *)
Lemma contains_join (sep x : string) (l : list string) :
  x ∈ l -> contains x (join sep l) = true.
Proof.
  intros Hin. apply contains_spec.
  induction l as [|y l IH]; [inversion Hin |].
  destruct l as [|z l].
  - apply list_elem_of_singleton in Hin as ->. exists "", "". simpl.
    now rewrite append_nil_r.
  - apply elem_of_cons in Hin as [->|Hin].
    + exists "", (sep +:+ join sep (z :: l)). reflexivity.
    + destruct (IH Hin) as (p & t & Hpt).
      exists (y +:+ sep +:+ p), t.
      change (join sep (y :: z :: l)) with (y +:+ sep +:+ join sep (z :: l)).
      rewrite Hpt. now rewrite !append_assoc.
Qed.

End PyFacts.

Import PyFacts.

(* ===================================================================== *)
(** * Properties of path resolution                                       *)
(* ===================================================================== *)

Module PathlibFacts.

Lemma parent_snoc (p : path) (c : string) : parent (p ++ [c]) = p.
Proof. unfold parent. apply removelast_last. Qed.

Lemma name_snoc (p : path) (c : string) : name (p ++ [c]) = c.
Proof. unfold name. apply last_last. Qed.

(** Resolution goes through a concatenation component by component. *)
Lemma walk_app (fs : filesystem) (a b : path) :
  forall cur n,
    walk fs cur n (a ++ b)
    = match walk fs cur n a with
      | Found q m => walk fs q m b
      | r => r
      end.
Proof.
  induction a as [|c a IH]; intros cur n; [reflexivity |].
  simpl. destruct n as [|[]]; try reflexivity.
  destruct (str_eqb c "."); [apply IH |].
  destruct (str_eqb c "..").
  - destruct (node_at fs (parent cur)); [apply IH | reflexivity].
  - destruct (fs !! (cur ++ [c])); [apply IH | reflexivity].
Qed.

(** What resolution finds is what the disk holds there. *)
Lemma walk_found (fs : filesystem) (comps : path) :
  forall cur n q m,
    node_at fs cur = Some n ->
    walk fs cur n comps = Found q m ->
    node_at fs q = Some m.
Proof.
  induction comps as [|c comps IH]; intros cur n q m Hcur; simpl.
  - intros [= <- <-]. exact Hcur.
  - destruct n as [|[]]; try discriminate.
    destruct (str_eqb c "."); [now apply IH |].
    destruct (str_eqb c "..").
    + destruct (node_at fs (parent cur)) eqn:E; [now apply IH | discriminate].
    + destruct (fs !! (cur ++ [c])) eqn:E; [| discriminate].
      apply IH. destruct cur; exact E.
Qed.

Lemma stat_found (fs : filesystem) (p q : path) (m : node) :
  stat fs p = Found q m -> node_at fs q = Some m.
Proof. apply walk_found. reflexivity. Qed.


(** ** Replacing the content of a file *)

Section Overwrite.

Variable fs : filesystem.
Variable q : path.
Variable old_content new_content : string.
Hypothesis Hq : node_at fs q = Some (File old_content).

Lemma overwritten_not_root : q <> [].
Proof. intros ->. discriminate Hq. Qed.

Lemma lookup_overwritten (p : path) :
  <[q := File new_content]> fs !! p
  = overwritten q new_content p <$> fs !! p.
Proof.
  pose proof overwritten_not_root as Hne0.
  unfold overwritten. destruct (decide (p = q)) as [->|Hne].
  - rewrite lookup_insert_eq. destruct q; [congruence |].
    simpl in Hq. now rewrite Hq.
  - rewrite lookup_insert_ne by congruence. now destruct (fs !! p).
Qed.

Lemma node_at_overwritten (p : path) :
  node_at (<[q := File new_content]> fs) p
  = overwritten q new_content p <$> node_at fs p.
Proof.
  destruct p as [|x p]; [| apply lookup_overwritten].
  simpl. unfold overwritten.
  destruct (decide ([] = q)) as [E|]; [| reflexivity].
  symmetry in E. now apply overwritten_not_root in E.
Qed.

(** Resolution on the new disk finds the same entries as on the old one,
    with the new content at [q]. *)
Lemma walk_overwritten (comps : path) :
  forall cur n,
    node_at fs cur = Some n ->
    walk (<[q := File new_content]> fs) cur
      (overwritten q new_content cur n) comps
    = overwritten_result q new_content (walk fs cur n comps).
Proof.
  induction comps as [|c comps IH]; intros cur n Hcur; [reflexivity |].
  unfold overwritten at 1. destruct (decide (cur = q)) as [->|Hne].
  - rewrite Hq in Hcur. injection Hcur as <-. reflexivity.
  - simpl. destruct n as [|[]]; try reflexivity.
    destruct (str_eqb c ".").
    + rewrite <- (IH cur (Dir true) Hcur). unfold overwritten.
      now destruct (decide (cur = q)).
    + destruct (str_eqb c "..").
      * rewrite node_at_overwritten.
        destruct (node_at fs (parent cur)) eqn:E; [| reflexivity].
        simpl. now apply IH.
      * rewrite lookup_overwritten.
        destruct (fs !! (cur ++ [c])) eqn:E; [| reflexivity].
        simpl. apply IH. destruct cur; exact E.
Qed.

Lemma stat_overwritten (p : path) :
  stat (<[q := File new_content]> fs) p
  = overwritten_result q new_content (stat fs p).
Proof.
  unfold stat.
  rewrite <- (walk_overwritten p [] (Dir true) eq_refl).
  unfold overwritten. destruct (decide ([] = q)) as [E|]; [| reflexivity].
  symmetry in E. now apply overwritten_not_root in E.
Qed.

End Overwrite.

(** After [write_text] on a file that exists, [read_text] through the same
    path gives what was written. *)
Lemma read_after_write (fs fs' : filesystem) (p q : path) (c data : string) :
  stat fs p = Found q (File c) ->
  write_text fs p data = Ok fs' ->
  fs' = <[q := File data]> fs /\ read_text fs' p = Ok data.
Proof.
  intros Hstat Hw. unfold write_text in Hw. rewrite Hstat in Hw.
  injection Hw as <-. split; [reflexivity |].
  unfold read_text.
  rewrite (stat_overwritten fs q c data (stat_found _ _ _ _ Hstat)), Hstat.
  simpl. unfold overwritten. now rewrite decide_True.
Qed.

End PathlibFacts.

Import PathlibFacts.

(* ===================================================================== *)
(** * [edit_file]                                                         *)
(* ===================================================================== *)

Module EditFile.

Local Arguments Ascii.eqb : simpl never.


Lemma contains_slash_cons (c : ascii) (s : string) :
  contains "/" (String c s) = Ascii.eqb "/" c || contains "/" s.
Proof.
  simpl. destruct (Ascii.eqb "/" c); [reflexivity |].
  now destruct s.
Qed.

Lemma split_head (s : string) :
  exists d t, split "/" s = d :: t.
Proof.
  destruct s as [|c s]; simpl; [now eexists _, _ |].
  destruct (Ascii.eqb c "/"); [now eexists _, _ |].
  destruct (split "/" s); now eexists _, _.
Qed.

(** [file_dir_of] computes the top-level partition. *)
Lemma file_dir_of_spec (file_path d : string) :
  file_dir_of file_path = Some d <-> top_level_partition file_path d.
Proof.
  unfold file_dir_of, top_level_partition.
  revert d. induction file_path as [|c s IH]; intros d.
  - simpl. split; [discriminate |]. intros (rest & H & _).
    destruct d; discriminate.
  - rewrite contains_slash_cons. simpl split.
    rewrite (Ascii.eqb_sym c "/").
    destruct (Ascii.eqb_spec "/" c) as [<-|Hne]; simpl orb.
    + simpl. split.
      * intros [= <-]. now exists s.
      * intros (rest & H & Hd). destruct d as [|x d]; [reflexivity |].
        rewrite contains_slash_cons in Hd. rewrite append_cons in H.
        injection H as <- _. now rewrite Ascii.eqb_refl in Hd.
    + destruct (split_head s) as (h & t & Hs). rewrite Hs in *.
      destruct (contains "/" s) eqn:Ec.
      * simpl in *. split.
        -- intros [= <-]. destruct (proj1 (IH h) eq_refl) as (rest & -> & Hh).
           exists rest. rewrite contains_slash_cons, Hh.
           split; [reflexivity |]. now destruct (Ascii.eqb_spec "/" c).
        -- intros (rest & H & Hd). destruct d as [|x d].
           ++ rewrite append_nil_l, append_cons in H. congruence.
           ++ rewrite append_cons in H. injection H as <- H.
              rewrite contains_slash_cons in Hd.
              apply orb_false_iff in Hd as [_ Hd].
              f_equal. f_equal.
              assert (Some h = Some d) as [= ->]; [| reflexivity].
              apply IH. now exists rest.
      * split; [discriminate |]. intros (rest & H & Hd).
        destruct d as [|x d].
        -- rewrite append_nil_l, append_cons in H. congruence.
        -- rewrite append_cons in H. injection H as _ H.
           rewrite H, contains_middle in Ec. discriminate.
Qed.

Lemma file_dir_in_spec (file_dir : option string) (dirs : list string) :
  file_dir_in file_dir dirs = true
  <-> exists d, file_dir = Some d /\ d ∈ dirs.
Proof.
  destruct file_dir as [d|]; simpl.
  - rewrite bool_decide_eq_true. split; [eauto |]. now intros (? & [= <-] & ?).
  - split; [discriminate | now intros (? & ? & _)].
Qed.


Lemma access_check_granted (file_path : string)
    (allowed_dirs : option (list string)) :
  access_check file_path allowed_dirs = None
  <-> access_granted file_path allowed_dirs.
Proof.
  unfold access_check, access_granted. destruct allowed_dirs as [dirs|].
  - destruct (file_dir_in (file_dir_of file_path) dirs) eqn:E; simpl.
    + split; [intros _ | reflexivity].
      apply file_dir_in_spec in E as (d & Hd & Hin).
      exists d. split; [now apply file_dir_of_spec | exact Hin].
    + split; [discriminate |]. intros (d & Hd & Hin).
      apply file_dir_of_spec in Hd.
      assert (file_dir_in (file_dir_of file_path) dirs = true)
        by (apply file_dir_in_spec; eauto).
      congruence.
  - split; reflexivity.
Qed.

Lemma access_check_denied (file_path : string) (dirs : list string) :
  (forall d, top_level_partition file_path d -> d ∉ dirs) ->
  access_check file_path (Some dirs)
  = Some (access_denied_message (file_dir_of file_path) dirs).
Proof.
  intros Hnot. unfold access_check.
  destruct (file_dir_in (file_dir_of file_path) dirs) eqn:E; [| reflexivity].
  apply file_dir_in_spec in E as (d & Hd & Hin).
  apply file_dir_of_spec in Hd. now apply Hnot in Hin.
Qed.

(** ** The outcomes of [edit_file] *)


(** No error message is the confirmation of an edit. *)
Lemma updated_message_not_error (file_path : string) :
  first_char (updated_message file_path) = Some "U"%char.
Proof. reflexivity. Qed.

Lemma exists_stat (fs : filesystem) (p : path) :
  exists_ fs p = Ok true <-> exists q n, stat fs p = Found q n.
Proof.
  unfold exists_. destruct (stat fs p); split;
    try discriminate; try (intros (? & ? & ?); discriminate); eauto.
Qed.

(** Closes a goal whose hypothesis equates an error outcome, or an
    exception, with the confirmation of an edit. *)
Ltac not_updated :=
  let H := fresh in
  intros H; exfalso;
  apply (f_equal (fun r : result string * filesystem =>
                    match fst r with
                    | Ok s => first_char s
                    | Raise _ => None
                    end)) in H;
  vm_compute in H; discriminate H.

(** When every check passes, the file found is rewritten. *)
Lemma edit_file_success (ROOT : path) (fs : filesystem)
    (file_path find_text replace_text : string)
    (allowed_dirs : option (list string)) (q : path) (content : string) :
  access_check file_path allowed_dirs = None ->
  stat fs (joinpath ROOT file_path) = Found q (File content) ->
  suffix (joinpath ROOT file_path) = ".md" ->
  contains find_text content = true ->
  edit_file ROOT fs file_path find_text replace_text allowed_dirs
  = (Ok (updated_message file_path),
     <[q := File (replace1 content find_text replace_text)]> fs).
Proof.
  intros Hacc Hstat Hsuf Hfind. unfold edit_file.
  rewrite Hacc. unfold exists_, read_text, write_text.
  rewrite Hstat, Hsuf, Hfind. reflexivity.
Qed.

(** When every check passes, the outcome is that of [write_text], given
    the text read with its first occurrence replaced. *)
Lemma edit_file_writes (ROOT : path) (fs : filesystem)
    (file_path find_text replace_text : string)
    (allowed_dirs : option (list string)) (content : string) :
  access_check file_path allowed_dirs = None ->
  exists_ fs (joinpath ROOT file_path) = Ok true ->
  suffix (joinpath ROOT file_path) = ".md" ->
  read_text fs (joinpath ROOT file_path) = Ok content ->
  contains find_text content = true ->
  edit_file ROOT fs file_path find_text replace_text allowed_dirs
  = match write_text fs (joinpath ROOT file_path)
            (replace1 content find_text replace_text) with
    | Raise e => (Raise e, fs)
    | Ok fs' => (Ok (updated_message file_path), fs')
    end.
Proof.
  intros Hacc Hex Hsuf Hread Hfind. unfold edit_file.
  rewrite Hacc, Hex, Hsuf, Hread, Hfind. reflexivity.
Qed.

(** The converse: a confirmation is returned only when every check passed. *)
Lemma edit_file_updated_inv (ROOT : path) (fs fs' : filesystem)
    (file_path find_text replace_text : string)
    (allowed_dirs : option (list string)) :
  edit_file ROOT fs file_path find_text replace_text allowed_dirs
  = (Ok (updated_message file_path), fs') ->
  exists q content,
    access_check file_path allowed_dirs = None
    /\ stat fs (joinpath ROOT file_path) = Found q (File content)
    /\ suffix (joinpath ROOT file_path) = ".md"
    /\ contains find_text content = true
    /\ fs' = <[q := File (replace1 content find_text replace_text)]> fs.
Proof.
  unfold edit_file.
  destruct (access_check file_path allowed_dirs) as [msg|] eqn:Hacc.
  { unfold access_check in Hacc.
    destruct allowed_dirs as [dirs|]; [| discriminate].
    destruct (negb _); [| discriminate]. injection Hacc as <-. not_updated. }
  unfold exists_, read_text, write_text.
  destruct (stat fs (joinpath ROOT file_path)) as [q [content|acc]| | |]
    eqn:Hstat; try not_updated.
  - destruct (str_eqb (suffix (joinpath ROOT file_path)) ".md") eqn:Hsuf;
      simpl negb; cbv iota; [| not_updated].
    destruct (contains find_text content) eqn:Hfind;
      simpl negb; cbv iota; [| not_updated].
    intros [= <-]. apply str_eqb_true in Hsuf. now exists q, content.
  - destruct (negb _); not_updated.
Qed.

End EditFile.

Import EditFile.

(** C1. The checks of [edit_file] are made in this order: a restricted scope
    whose allowed set lacks the top-level partition of the path gives the
    access-denied message; otherwise a path that does not exist gives the
    not-found message; otherwise a path whose suffix is not [.md] gives the
    unsupported-type message; otherwise a [find_text] that does not occur in
    the content gives the text-not-found message. In each case the disk is
    returned as it was. *)
Theorem edit_file_errors_in_order (ROOT : path) (fs : filesystem)
    (file_path find_text replace_text : string)
    (allowed_dirs : option (list string)) :
  let full_path := joinpath ROOT file_path in
  let outcome :=
    edit_file ROOT fs file_path find_text replace_text allowed_dirs in
  (forall dirs,
      allowed_dirs = Some dirs ->
      (forall d, top_level_partition file_path d -> d ∉ dirs) ->
      outcome = (Ok (access_denied_message (file_dir_of file_path) dirs), fs))
  /\ (access_granted file_path allowed_dirs ->
      exists_ fs full_path = Ok false ->
      outcome = (Ok (not_found_message file_path), fs))
  /\ (access_granted file_path allowed_dirs ->
      exists_ fs full_path = Ok true ->
      suffix full_path <> ".md" ->
      outcome = (Ok unsupported_type_message, fs))
  /\ (access_granted file_path allowed_dirs ->
      exists_ fs full_path = Ok true ->
      suffix full_path = ".md" ->
      forall content,
        read_text fs full_path = Ok content ->
        ~ occurs_in find_text content ->
        outcome = (Ok (text_not_found_message file_path), fs)).
Proof.
  intros full_path outcome. subst outcome full_path. unfold edit_file.
  repeat split.
  - intros dirs -> Hnot. now rewrite access_check_denied.
  - intros Hacc%access_check_granted Hex. now rewrite Hacc, Hex.
  - intros Hacc%access_check_granted Hex Hsuf%str_eqb_false.
    now rewrite Hacc, Hex, Hsuf.
  - intros Hacc%access_check_granted Hex Hsuf%str_eqb_true content Hread Hno.
    rewrite Hacc, Hex, Hsuf, Hread. simpl negb. cbv iota.
    destruct (contains find_text content) eqn:Hc; [| reflexivity].
    apply contains_spec in Hc. contradiction.
Qed.

(** The four error outcomes on the sample disk, in the order of the checks. *)
Lemma edit_file_errors_in_order_witness :
  let ROOT := Deployment.PROJECT_ROOT in
  let disk := Deployment.disk in
  edit_file ROOT disk "project_beta/notes.md" "beta" "gamma"
    (Some ["project_alpha"])
  = (Ok (access_denied_message (Some "project_beta") ["project_alpha"]), disk)
  /\ edit_file ROOT disk "project_alpha/missing.txt" "TODO" "DONE"
       (Some ["project_alpha"])
     = (Ok (not_found_message "project_alpha/missing.txt"), disk)
  /\ edit_file ROOT disk "project_alpha/data.txt" "raw" "done" None
     = (Ok unsupported_type_message, disk)
  /\ edit_file ROOT disk "project_alpha/todo.md" "FIXME" "DONE" None
     = (Ok (text_not_found_message "project_alpha/todo.md"), disk).
Proof.
  intros ROOT disk. split; [| split; [| split]].
  - apply (proj1 (edit_file_errors_in_order ROOT disk "project_beta/notes.md"
                    "beta" "gamma" (Some ["project_alpha"]))
             ["project_alpha"] eq_refl).
    intros d Hd%file_dir_of_spec. vm_compute in Hd. injection Hd as <-.
    apply not_elem_of_cons. split; [discriminate | apply not_elem_of_nil].
  - apply (proj1 (proj2 (edit_file_errors_in_order ROOT disk
                           "project_alpha/missing.txt" "TODO" "DONE"
                           (Some ["project_alpha"])))).
    + apply access_check_granted. vm_compute. reflexivity.
    + vm_compute. reflexivity.
  - apply (proj1 (proj2 (proj2 (edit_file_errors_in_order ROOT disk
                                  "project_alpha/data.txt" "raw" "done" None)))).
    + exact I.
    + vm_compute. reflexivity.
    + vm_compute. discriminate.
  - apply (proj2 (proj2 (proj2 (edit_file_errors_in_order ROOT disk
                                  "project_alpha/todo.md" "FIXME" "DONE" None)))
             I) with (content := "TODO one. TODO two.").
    + vm_compute. reflexivity.
    + vm_compute. reflexivity.
    + vm_compute. reflexivity.
    + intros Hocc%contains_spec. vm_compute in Hocc. discriminate.
Defined.

(** C2. A call of [edit_file] that passes every check, on a file whose
    text holds [find_text], replaces the first occurrence of [find_text]
    and nothing else: the text [read_text] returned is
    [before +:+ find_text +:+ rest] with no occurrence starting earlier,
    and [write_text] is given [before +:+ replace_text +:+ rest], the text
    in full. When the write succeeds the value returned is the confirmation
    naming the path, with the disk as [write_text] left it; when it raises,
    the exception leaves [edit_file]. *)
Theorem edit_file_replaces_first_occurrence (ROOT : path) (fs : filesystem)
    (file_path find_text replace_text : string)
    (allowed_dirs : option (list string)) (content : string) :
  let full_path := joinpath ROOT file_path in
  let outcome :=
    edit_file ROOT fs file_path find_text replace_text allowed_dirs in
  access_granted file_path allowed_dirs ->
  exists_ fs full_path = Ok true ->
  suffix full_path = ".md" ->
  read_text fs full_path = Ok content ->
  occurs_in find_text content ->
  exists before rest,
    content = before +:+ find_text +:+ rest
    /\ (forall b r, content = b +:+ find_text +:+ r ->
          (String.length before <= String.length b)%nat)
    /\ (forall fs',
          write_text fs full_path (before +:+ replace_text +:+ rest) = Ok fs' ->
          outcome
          = (Ok ("Updated '" +:+ file_path
                 +:+ "': replaced text successfully."), fs'))
    /\ (forall e,
          write_text fs full_path (before +:+ replace_text +:+ rest)
          = Raise e ->
          fst outcome = Raise e).
Proof.
  intros full_path outcome Hacc%access_check_granted Hex Hsuf Hread
    Hocc%contains_spec.
  subst full_path outcome.
  destruct (replace1_spec content find_text replace_text Hocc)
    as (before & rest & Hc & Hr & Hmin).
  exists before, rest. split; [exact Hc |]. split; [exact Hmin |].
  rewrite <- Hr.
  rewrite (edit_file_writes ROOT fs file_path find_text replace_text
             allowed_dirs content Hacc Hex Hsuf Hread Hocc).
  split.
  - intros fs' ->. reflexivity.
  - intros e ->. reflexivity.
Qed.

(** The text read is ["A..A"]; with find ["A"] and replace ["B"] the text
    written is ["B..A"]. *)
Lemma edit_file_replaces_first_occurrence_witness :
  read_text EditExamples.disk_a EditExamples.a_md = Ok "A..A"
  /\ write_text EditExamples.disk_a EditExamples.a_md "B..A"
     = Ok (<[EditExamples.a_md := File "B..A"]> EditExamples.disk_a)
  /\ edit_file Deployment.PROJECT_ROOT EditExamples.disk_a
       "project_alpha/a.md" "A" "B" (Some ["project_alpha"])
     = (Ok "Updated 'project_alpha/a.md': replaced text successfully.",
        <[EditExamples.a_md := File "B..A"]> EditExamples.disk_a).
Proof.
  assert (Hacc : access_granted "project_alpha/a.md" (Some ["project_alpha"]))
    by (apply access_check_granted; vm_compute; reflexivity).
  assert (Hjoin : joinpath Deployment.PROJECT_ROOT "project_alpha/a.md"
                  = EditExamples.a_md)
    by (vm_compute; reflexivity).
  assert (Hstat : stat EditExamples.disk_a EditExamples.a_md
                  = Found EditExamples.a_md (File "A..A"))
    by (vm_compute; reflexivity).
  assert (Hex : exists_ EditExamples.disk_a EditExamples.a_md = Ok true)
    by (unfold exists_; now rewrite Hstat).
  assert (Hsuf : suffix EditExamples.a_md = ".md")
    by (vm_compute; reflexivity).
  assert (Hread : read_text EditExamples.disk_a EditExamples.a_md = Ok "A..A")
    by (unfold read_text; now rewrite Hstat).
  assert (Hwrite : write_text EditExamples.disk_a EditExamples.a_md "B..A"
                   = Ok (<[EditExamples.a_md := File "B..A"]>
                           EditExamples.disk_a))
    by (unfold write_text; now rewrite Hstat).
  assert (Hocc : occurs_in "A" "A..A")
    by (apply contains_spec; vm_compute; reflexivity).
  split; [exact Hread |]. split; [exact Hwrite |].
  pose proof (edit_file_replaces_first_occurrence Deployment.PROJECT_ROOT
                EditExamples.disk_a "project_alpha/a.md" "A" "B"
                (Some ["project_alpha"]) "A..A") as Hedit.
  cbv zeta in Hedit. rewrite Hjoin in Hedit.
  destruct (Hedit Hacc Hex Hsuf Hread Hocc)
    as (before & rest & Hc & Hmin & Hout & _).
  assert (before = "") as ->.
  { specialize (Hmin "" "..A" eq_refl). destruct before; [reflexivity |].
    simpl in Hmin. lia. }
  cbv [String.append] in Hc, Hout. injection Hc as <-.
  exact (Hout _ Hwrite).
Defined.

(** C7. The access check of [edit_file] looks at the text before the first
    ["/"] of [file_path] and at nothing else. Under a scope restricted to a
    set holding ["project_alpha"], the path ["project_alpha/../README.md"]
    passes the check, resolves to the file [README.md] directly under the
    project root, which lies in no partition, and that file is read and
    rewritten: no access-denied message is returned. *)
Theorem edit_file_escapes_partition (ROOT : path) (fs : filesystem)
    (dirs : list string) (find_text replace_text : string)
    (root_dir : path) (content : string) :
  "project_alpha" ∈ dirs ->
  stat fs ROOT = Found root_dir (Dir true) ->
  fs !! (root_dir ++ ["project_alpha"]) = Some (Dir true) ->
  fs !! (root_dir ++ ["README.md"]) = Some (File content) ->
  occurs_in find_text content ->
  let file_path := "project_alpha/../README.md" in
  let target := root_dir ++ ["README.md"] in
  top_level_partition file_path "project_alpha"
  /\ stat fs (joinpath ROOT file_path) = Found target (File content)
  /\ (forall d rel, rel <> [] -> target <> (root_dir ++ [d]) ++ rel)
  /\ edit_file ROOT fs file_path find_text replace_text (Some dirs)
     = (Ok (updated_message file_path),
        <[target := File (replace1 content find_text replace_text)]> fs).
Proof.
  intros Hin Hroot Hdir Hfile Hocc%contains_spec file_path target.
  assert (Hpart : top_level_partition file_path "project_alpha")
    by (apply file_dir_of_spec; reflexivity).
  assert (Hjoin : joinpath ROOT file_path
                  = ROOT ++ ["project_alpha"; ".."; "README.md"])
    by reflexivity.
  assert (Hstat : stat fs (joinpath ROOT file_path)
                  = Found target (File content)).
  { rewrite Hjoin. unfold stat. rewrite walk_app.
    fold (stat fs ROOT). rewrite Hroot.
    change (walk fs root_dir (Dir true) ["project_alpha"; ".."; "README.md"])
      with (match fs !! (root_dir ++ ["project_alpha"]) with
            | Some n' =>
                walk fs (root_dir ++ ["project_alpha"]) n' [".."; "README.md"]
            | None => ENOENT
            end).
    rewrite Hdir.
    change (walk fs (root_dir ++ ["project_alpha"]) (Dir true)
              [".."; "README.md"])
      with (match node_at fs (parent (root_dir ++ ["project_alpha"])) with
            | Some n' =>
                walk fs (parent (root_dir ++ ["project_alpha"])) n'
                  ["README.md"]
            | None => ENOENT
            end).
    rewrite parent_snoc, (stat_found _ _ _ _ Hroot).
    change (walk fs root_dir (Dir true) ["README.md"])
      with (match fs !! (root_dir ++ ["README.md"]) with
            | Some n' => walk fs (root_dir ++ ["README.md"]) n' []
            | None => ENOENT
            end).
    now rewrite Hfile. }
  split; [exact Hpart |]. split; [exact Hstat |]. split.
  - intros d rel Hrel Heq. subst target. rewrite <- app_assoc in Heq.
    apply app_inv_head in Heq. destruct rel; [congruence | discriminate].
  - apply edit_file_success; try assumption.
    + apply access_check_granted. exists "project_alpha". now split.
    + rewrite Hjoin.
      change (ROOT ++ ["project_alpha"; ".."; "README.md"])
        with (ROOT ++ ["project_alpha"; ".."] ++ ["README.md"]).
      rewrite app_assoc. unfold suffix. rewrite name_snoc. reflexivity.
Qed.

(** On the sample disk, a channel restricted to [project_alpha] rewrites the
    root-level [README.md]. *)
Lemma edit_file_escapes_partition_witness :
  edit_file Deployment.PROJECT_ROOT Deployment.disk
    "project_alpha/../README.md" "root" "ROOT" (Some ["project_alpha"])
  = (Ok (updated_message "project_alpha/../README.md"),
     <[ ["srv"; "repo"; "README.md"] := File "ROOT notes" ]> Deployment.disk).
Proof.
  apply (edit_file_escapes_partition Deployment.PROJECT_ROOT Deployment.disk
           ["project_alpha"] "root" "ROOT" ["srv"; "repo"] "root notes").
  - apply list_elem_of_singleton. reflexivity.
  - vm_compute. reflexivity.
  - vm_compute. reflexivity.
  - vm_compute. reflexivity.
  - apply contains_spec. vm_compute. reflexivity.
Defined.

(* ===================================================================== *)
(** * [get_session]                                                       *)
(* ===================================================================== *)

Module SessionFacts.

Lemma sweep_lookup_expired (now : Z) (sessions : gmap string session)
    (channel_id : string) (s : session) :
  sessions !! channel_id = Some s ->
  expired now s ->
  sweep now sessions !! channel_id = None.
Proof.
  intros Hs Hexp. unfold sweep. apply map_lookup_filter_None_2. right.
  intros x Hx. rewrite Hs in Hx. injection Hx as <-. simpl. tauto.
Qed.

Lemma sweep_lookup_live (now : Z) (sessions : gmap string session)
    (channel_id : string) (s : session) :
  sessions !! channel_id = Some s ->
  ~ expired now s ->
  sweep now sessions !! channel_id = Some s.
Proof.
  intros Hs Hlive. unfold sweep. now apply map_lookup_filter_Some_2.
Qed.

Lemma sweep_lookup_absent (now : Z) (sessions : gmap string session)
    (channel_id : string) :
  sessions !! channel_id = None ->
  sweep now sessions !! channel_id = None.
Proof.
  intros Hs. unfold sweep. apply map_lookup_filter_None_2. now left.
Qed.

(** The session returned is the one the store holds afterwards. *)
Lemma get_session_stored (now : Z) (sessions : gmap string session)
    (channel_id : string) :
  snd (get_session now sessions channel_id) !! channel_id
  = Some (fst (get_session now sessions channel_id)).
Proof. unfold get_session. simpl. apply lookup_insert_eq. Qed.

(** The sessions of the other channels are kept unless they expired. *)
Lemma get_session_others (now : Z) (sessions : gmap string session)
    (channel_id other : string) :
  other <> channel_id ->
  snd (get_session now sessions channel_id) !! other
  = sweep now sessions !! other.
Proof.
  intros Hne. unfold get_session. simpl. now rewrite lookup_insert_ne.
Qed.

Lemma get_session_fresh (now : Z) (sessions : gmap string session)
    (channel_id : string) :
  sessions !! channel_id = None ->
  fst (get_session now sessions channel_id) = fresh_session now.
Proof.
  intros Hs. unfold get_session. simpl.
  now rewrite (sweep_lookup_absent _ _ _ Hs).
Qed.

End SessionFacts.

Import SessionFacts.

(** C4. A session reached when [now - last_activity] exceeds
    [SESSION_TIMEOUT], that is 30 minutes, is replaced: the session returned
    has no message and the time of the access. A session reached after at
    most 30 minutes keeps its messages and takes the time of the access. In
    both cases the store holds the session returned. *)
Theorem get_session_expiry (now : Z) (sessions : gmap string session)
    (channel_id : string) (s : session) :
  sessions !! channel_id = Some s ->
  let current := fst (get_session now sessions channel_id) in
  let sessions' := snd (get_session now sessions channel_id) in
  SESSION_TIMEOUT = 1800
  /\ sessions' !! channel_id = Some current
  /\ (now - last_activity s > SESSION_TIMEOUT ->
      current = {| messages := []; last_activity := now |})
  /\ (now - last_activity s <= SESSION_TIMEOUT ->
      current = {| messages := messages s; last_activity := now |}).
Proof.
  intros Hs current sessions'. subst current sessions'.
  split; [reflexivity |]. split; [apply get_session_stored |].
  unfold get_session. simpl. split.
  - intros Hexp. now rewrite (sweep_lookup_expired now _ _ _ Hs Hexp).
  - intros Hlive.
    assert (Hnot : ~ expired now s) by (unfold expired; lia).
    rewrite (sweep_lookup_live now _ _ _ Hs Hnot).
    now rewrite bool_decide_eq_false_2.
Qed.


(** At 2801 seconds the first channel has been idle for 1801 seconds and
    the second for 1800. *)
Lemma get_session_expiry_witness :
  fst (get_session 2801 SessionExamples.sessions "C1")
  = {| messages := []; last_activity := 2801 |}
  /\ fst (get_session 2801 SessionExamples.sessions "C2")
     = {| messages := [SessionExamples.hello]; last_activity := 2801 |}.
Proof.
  split.
  - apply (get_session_expiry 2801 SessionExamples.sessions "C1"
             {| messages := [SessionExamples.hello]; last_activity := 1000 |}).
    + vm_compute. reflexivity.
    + vm_compute. reflexivity.
  - apply (get_session_expiry 2801 SessionExamples.sessions "C2"
             {| messages := [SessionExamples.hello]; last_activity := 1001 |}).
    + vm_compute. reflexivity.
    + vm_compute. discriminate.
Defined.

(* ===================================================================== *)
(** * [get_recent_updates]                                                *)
(* ===================================================================== *)

Module HistoryFacts.

(** [count_distinct] counts the elements of the set of a list. *)
Lemma count_distinct_size (l : list string) :
  count_distinct l = size (list_to_set l : gset string).
Proof.
  unfold count_distinct.
  rewrite <- (size_list_to_set (C := gset string) (remove_dups l))
    by apply NoDup_remove_dups.
  f_equal. apply set_eq. intros x.
  rewrite !elem_of_list_to_set. apply elem_of_remove_dups.
Qed.

Lemma summary_holds_count (days : Z) (commit_count : string) (files : nat)
    (log : string) :
  occurs_in ("Total commits: " +:+ commit_count)
    (history_summary days commit_count files log).
Proof.
  exists ("Git history for the last " +:+ str_of_int days +:+ " days:"
          +:+ nl +:+ nl),
         (nl +:+ "Files modified: " +:+ str_of_int (Z.of_nat files)
          +:+ nl +:+ nl +:+ "Commits:" +:+ nl +:+ log).
  unfold history_summary. now rewrite !append_assoc.
Qed.

Lemma summary_holds_files (days : Z) (commit_count : string) (files : nat)
    (log : string) :
  occurs_in ("Files modified: " +:+ str_of_int (Z.of_nat files))
    (history_summary days commit_count files log).
Proof.
  exists ("Git history for the last " +:+ str_of_int days +:+ " days:"
          +:+ nl +:+ nl +:+ "Total commits: " +:+ commit_count +:+ nl),
         (nl +:+ nl +:+ "Commits:" +:+ nl +:+ log).
  unfold history_summary. now rewrite !append_assoc.
Qed.

Lemma summary_ends_with_log (days : Z) (commit_count : string) (files : nat)
    (log : string) :
  exists head, history_summary days commit_count files log = head +:+ log.
Proof.
  eexists. unfold history_summary. rewrite <- !append_assoc. reflexivity.
Qed.

(** The handler of [get_recent_updates] leaves no exception. *)
Lemma get_recent_updates_returns
    (subprocess_run : list string -> result completed_process)
    (since_date : Z -> result string) (days : Z) :
  exists text, get_recent_updates subprocess_run since_date days = Ok text.
Proof.
  unfold get_recent_updates.
  destruct (recent_updates_body subprocess_run since_date days);
    simpl; eauto.
Qed.

End HistoryFacts.

Import HistoryFacts.

(** C9. [get_recent_updates] always returns a text. A log query that exits
    with a code other than 0 gives the text of its error output; a log query
    whose output is blank gives the no-commits message naming the number of
    days; any exception raised inside is turned into an error text; and when
    the queries go through, the text is the summary made of the commit
    count, the number of distinct files and the log as it was printed. *)
Theorem get_recent_updates_total
    (subprocess_run : list string -> result completed_process)
    (since_date : Z -> result string) (days : Z) :
  let run := get_recent_updates subprocess_run since_date days in
  (exists text, run = Ok text)
  /\ (forall since log_result,
        since_date days = Ok since ->
        subprocess_run (git_log_command since) = Ok log_result ->
        returncode log_result <> 0 ->
        run = Ok ("Error running git log: " +:+ stderr log_result))
  /\ (forall since log_result,
        since_date days = Ok since ->
        subprocess_run (git_log_command since) = Ok log_result ->
        returncode log_result = 0 ->
        strip (stdout log_result) = "" ->
        run = Ok ("No commits found in the last " +:+ str_of_int days
                  +:+ " days."))
  /\ (forall e,
        recent_updates_body subprocess_run since_date days = Raise e ->
        run = Ok ("Error getting git history: " +:+ exn_str e))
  /\ (forall since log_result stat_result count_result files_result,
        since_date days = Ok since ->
        subprocess_run (git_log_command since) = Ok log_result ->
        returncode log_result = 0 ->
        strip (stdout log_result) <> "" ->
        subprocess_run (git_stat_command since) = Ok stat_result ->
        subprocess_run (git_count_command since) = Ok count_result ->
        subprocess_run (git_files_command since) = Ok files_result ->
        let commit_count :=
          if returncode count_result =? 0
          then strip (stdout count_result) else "unknown" in
        let files := unique_files (stdout files_result) in
        run = Ok (history_summary days commit_count files (stdout log_result))
        /\ occurs_in ("Total commits: " +:+ commit_count)
             (history_summary days commit_count files (stdout log_result))
        /\ occurs_in ("Files modified: " +:+ str_of_int (Z.of_nat files))
             (history_summary days commit_count files (stdout log_result))
        /\ exists head,
             history_summary days commit_count files (stdout log_result)
             = head +:+ stdout log_result).
Proof.
  intros run. subst run. unfold get_recent_updates.
  split; [| split; [| split; [| split]]].
  - destruct (recent_updates_body subprocess_run since_date days);
      simpl; eauto.
  - intros since log_result Hsince Hlog Hcode.
    unfold recent_updates_body. rewrite Hsince. simpl. rewrite Hlog. simpl.
    apply Z.eqb_neq in Hcode. now rewrite Hcode.
  - intros since log_result Hsince Hlog Hcode Hblank.
    unfold recent_updates_body. rewrite Hsince. simpl. rewrite Hlog. simpl.
    apply Z.eqb_eq in Hcode. apply str_eqb_true in Hblank.
    now rewrite Hcode, Hblank.
  - intros e He. now rewrite He.
  - intros since log_result stat_result count_result files_result
      Hsince Hlog Hcode Hblank Hstat Hcount Hfiles.
    split; [| split; [apply summary_holds_count
                     | split; [apply summary_holds_files
                              | apply summary_ends_with_log]]].
    unfold recent_updates_body. rewrite Hsince. simpl. rewrite Hlog. simpl.
    apply Z.eqb_eq in Hcode. apply str_eqb_false in Hblank.
    rewrite Hcode, Hblank. simpl. rewrite Hstat. simpl. rewrite Hcount. simpl.
    now rewrite Hfiles.
Qed.


(** The four outcomes of [get_recent_updates 7]. *)
Lemma get_recent_updates_total_witness :
  get_recent_updates HistoryExamples.no_repository HistoryExamples.since_date 7
  = Ok "Error running git log: fatal: not a git repository"
  /\ get_recent_updates HistoryExamples.quiet_repository
       HistoryExamples.since_date 7
     = Ok "No commits found in the last 7 days."
  /\ get_recent_updates HistoryExamples.no_git HistoryExamples.since_date 7
     = Ok "Error getting git history: [Errno 2] No such file or directory: 'git'"
  /\ get_recent_updates HistoryExamples.repository HistoryExamples.since_date 7
     = Ok (history_summary 7 "2" 2 HistoryExamples.log_output).
Proof.
  split; [| split; [| split]].
  - apply (proj1 (proj2 (get_recent_updates_total HistoryExamples.no_repository
                           HistoryExamples.since_date 7))
             "2026-10-28"
             (HistoryExamples.process 128 "" "fatal: not a git repository")).
    + reflexivity.
    + reflexivity.
    + simpl. lia.
  - apply (proj1 (proj2 (proj2 (get_recent_updates_total
                                  HistoryExamples.quiet_repository
                                  HistoryExamples.since_date 7)))
             "2026-10-28" (HistoryExamples.process 0 "" "")).
    + reflexivity.
    + reflexivity.
    + reflexivity.
    + reflexivity.
  - apply (proj1 (proj2 (proj2 (proj2 (get_recent_updates_total
                                         HistoryExamples.no_git
                                         HistoryExamples.since_date 7))))
             (Exn "FileNotFoundError"
                  "[Errno 2] No such file or directory: 'git'")).
    reflexivity.
  - apply (proj2 (proj2 (proj2 (proj2 (get_recent_updates_total
                                         HistoryExamples.repository
                                         HistoryExamples.since_date 7))))
             "2026-10-28"
             (HistoryExamples.process 0 HistoryExamples.log_output "")
             (HistoryExamples.process 0 "" "")
             (HistoryExamples.process 0 ("2" +:+ nl) "")
             (HistoryExamples.process 0
                ("project_alpha/todo.md" +:+ nl +:+ nl
                 +:+ "project_alpha/todo.md" +:+ nl
                 +:+ "project_beta/notes.md") "")).
    + reflexivity.
    + vm_compute. reflexivity.
    + reflexivity.
    + vm_compute. discriminate.
    + vm_compute. reflexivity.
    + vm_compute. reflexivity.
    + vm_compute. reflexivity.
Defined.

(* ===================================================================== *)
(** * [get_all_markdown_files]                                            *)
(* ===================================================================== *)

Module DocumentFacts.

Lemma strip_prefix_spec (d p rel : path) :
  strip_prefix d p = Some rel <-> p = d ++ rel.
Proof.
  revert p. induction d as [|x d IH]; intros p; simpl.
  - split; [now intros [= ->] | now intros ->].
  - destruct p as [|y p]; [split; discriminate |].
    destruct (str_eqb x y) eqn:E.
    + apply str_eqb_true in E as ->. rewrite IH.
      split; [now intros -> | now intros [= ->]].
    + apply str_eqb_false in E. split; [discriminate | now intros [= -> _]].
Qed.

(** What [glob_md] lists: the entries of the disk below the directory
    [base] resolves to that the pattern selects. *)
Lemma glob_md_spec (recursive : bool) (fs : filesystem) (base : path)
    (rels : list path) (rel : path) :
  glob_md recursive fs base = Ok rels ->
  rel ∈ rels
  <-> exists d acc n,
        stat fs base = Found d (Dir acc)
        /\ fs !! (d ++ rel) = Some n
        /\ selected recursive fs d rel = true.
Proof.
  unfold glob_md.
  destruct (stat fs base) as [d [c|acc]| | |] eqn:Hstat; try discriminate;
    try (intros [= <-]; split;
         [intros H; inversion H | intros (? & ? & ? & ? & _); discriminate]).
  intros [= <-]. rewrite list_elem_of_omap. split.
  - intros ([p n] & Hin & Hsel). apply elem_of_map_to_list in Hin.
    simpl in Hsel.
    destruct (strip_prefix d p) as [rel'|] eqn:Hp; [| discriminate].
    destruct (selected recursive fs d rel') eqn:Hs; [| discriminate].
    injection Hsel as ->. apply strip_prefix_spec in Hp as ->.
    now exists d, acc, n.
  - intros (d' & acc' & n & [= <- <-] & Hn & Hs).
    exists (d ++ rel, n). split; [now apply elem_of_map_to_list |].
    simpl. rewrite (proj2 (strip_prefix_spec d (d ++ rel) rel) eq_refl).
    now rewrite Hs.
Qed.

(** A non-empty listing comes from a directory that exists. *)
Lemma glob_md_exists (recursive : bool) (fs : filesystem) (base : path)
    (rels : list path) (rel : path) :
  glob_md recursive fs base = Ok rels ->
  rel ∈ rels ->
  exists_ fs base = Ok true.
Proof.
  intros Hglob Hin.
  apply (glob_md_spec _ _ _ _ _ Hglob) in Hin as (d & acc & n & Hstat & _).
  unfold exists_. now rewrite Hstat.
Qed.

Lemma mapM_ok {A B} (f : A -> result B) (l : list A) (ys : list B) :
  mapM f l = Ok ys <-> Forall2 (fun x y => f x = Ok y) l ys.
Proof.
  revert ys. induction l as [|a l IH]; intros ys; simpl.
  - split; [intros [= <-]; constructor | intros H; now inversion H].
  - destruct (f a) as [b|e] eqn:Ha; simpl.
    + destruct (mapM f l) as [bs|e] eqn:Hl; simpl.
      * split.
        -- intros [= <-]. constructor; [exact Ha | now apply IH].
        -- intros H. inversion H as [|? y ? ys' Hy Hys]; subst.
           apply IH in Hys. congruence.
      * split; [discriminate |]. intros H.
        inversion H as [|? y ? ys' Hy Hys]; subst.
        apply IH in Hys. discriminate.
    + split; [discriminate |]. intros H.
      inversion H as [|? y ? ys' Hy Hys]; subst. congruence.
Qed.


Section Loading.

Variable ROOT : path.
Variable PROJECTS : list (string * string).
Variable fs : filesystem.

Lemma root_sections_unrestricted (sections : list string) (rel : path) :
  root_sections ROOT fs None = Ok sections ->
  root_document ROOT fs rel ->
  name rel <> "CLAUDE.md" ->
  root_section ROOT fs rel ∈ sections.
Proof.
  unfold root_sections. intros Hs (rels & Hglob & Hin) Hname.
  rewrite Hglob in Hs. simpl in Hs. injection Hs as <-.
  apply list_elem_of_fmap_2. apply list_elem_of_In, filter_In.
  split; [now apply list_elem_of_In |].
  apply negb_true_iff. now apply str_eqb_false.
Qed.

Lemma root_sections_restricted (dirs : list string) :
  root_sections ROOT fs (Some dirs) = Ok [].
Proof. reflexivity. Qed.

Lemma project_sections_in (allowed_dirs : option (list string))
    (proj_dir proj_name : string) (sections : list string) (rel : path) :
  project_sections ROOT fs allowed_dirs (proj_dir, proj_name) = Ok sections ->
  skipped allowed_dirs proj_dir = false ->
  partition_document ROOT fs proj_dir rel ->
  project_section ROOT fs (joinpath ROOT proj_dir) proj_name rel ∈ sections.
Proof.
  unfold project_sections. intros Hs Hskip (rels & Hglob & Hin).
  rewrite Hskip, (glob_md_exists _ _ _ _ _ Hglob Hin) in Hs. simpl in Hs.
  rewrite Hglob in Hs. simpl in Hs. injection Hs as <-.
  now apply list_elem_of_fmap_2.
Qed.

Lemma project_sections_only (allowed_dirs : option (list string))
    (proj_dir proj_name : string) (sections : list string) (s : string) :
  project_sections ROOT fs allowed_dirs (proj_dir, proj_name) = Ok sections ->
  s ∈ sections ->
  skipped allowed_dirs proj_dir = false
  /\ exists rel,
       partition_document ROOT fs proj_dir rel
       /\ s = project_section ROOT fs (joinpath ROOT proj_dir) proj_name rel.
Proof.
  unfold project_sections.
  destruct (skipped allowed_dirs proj_dir);
    [intros [= <-] H; inversion H |].
  destruct (exists_ fs (joinpath ROOT proj_dir)) as [[]|]; simpl;
    [| intros [= <-] H; inversion H | discriminate].
  destruct (glob_md true fs (joinpath ROOT proj_dir)) as [rels|] eqn:Hglob;
    simpl; [| discriminate].
  intros [= <-] Hin. apply list_elem_of_fmap in Hin as (rel & -> & Hrel).
  split; [reflexivity |]. exists rel. split; [| reflexivity].
  now exists rels.
Qed.

Lemma skipped_restricted (dirs : list string) (proj_dir : string) :
  skipped (Some dirs) proj_dir = false <-> proj_dir ∈ dirs.
Proof.
  unfold skipped. rewrite negb_false_iff. apply bool_decide_eq_true.
Qed.

End Loading.

(** The documents, read off the disk. *)
Lemma root_document_spec (ROOT : path) (fs : filesystem) (rel : path) :
  root_document ROOT fs rel
  <-> exists d acc n,
        stat fs ROOT = Found d (Dir acc)
        /\ fs !! (d ++ rel) = Some n
        /\ selected false fs d rel = true.
Proof.
  unfold root_document. split.
  - intros (rels & Hglob & Hin). now apply (glob_md_spec _ _ _ _ _ Hglob).
  - intros (d & acc & n & Hstat & Hn & Hsel).
    assert (Hglob : exists rels, glob_md false fs ROOT = Ok rels)
      by (unfold glob_md; rewrite Hstat; eauto).
    destruct Hglob as [rels Hglob]. exists rels. split; [exact Hglob |].
    apply (glob_md_spec _ _ _ _ _ Hglob). now exists d, acc, n.
Qed.

Lemma partition_document_spec (ROOT : path) (fs : filesystem)
    (proj_dir : string) (rel : path) :
  partition_document ROOT fs proj_dir rel
  <-> exists d acc n,
        stat fs (joinpath ROOT proj_dir) = Found d (Dir acc)
        /\ fs !! (d ++ rel) = Some n
        /\ selected true fs d rel = true.
Proof.
  unfold partition_document. split.
  - intros (rels & Hglob & Hin). now apply (glob_md_spec _ _ _ _ _ Hglob).
  - intros (d & acc & n & Hstat & Hn & Hsel).
    assert (Hglob : exists rels,
               glob_md true fs (joinpath ROOT proj_dir) = Ok rels)
      by (unfold glob_md; rewrite Hstat; eauto).
    destruct Hglob as [rels Hglob]. exists rels. split; [exact Hglob |].
    apply (glob_md_spec _ _ _ _ _ Hglob). now exists d, acc, n.
Qed.

(** An entry named [*.md] directly under a project root that can be listed
    is a root-level document. *)
Lemma root_document_intro (ROOT : path) (fs : filesystem) (d : path)
    (nm : string) (n : node) :
  stat fs ROOT = Found d (Dir true) ->
  fs !! (d ++ [nm]) = Some n ->
  endswith ".md" nm = true ->
  root_document ROOT fs [nm].
Proof.
  intros Hstat Hn Hmd. apply root_document_spec. exists d, true, n.
  split; [exact Hstat |]. split; [exact Hn |].
  unfold selected, matches_md. change (name [nm]) with nm. rewrite Hmd.
  change (listed fs d [nm]) with (searchable (node_at fs d)).
  now rewrite (stat_found _ _ _ _ Hstat).
Qed.

End DocumentFacts.

Import DocumentFacts.

Lemma elem_of_concat {A} (x : A) (ls : list (list A)) :
  x ∈ concat ls <-> exists l, x ∈ l /\ l ∈ ls.
Proof.
  rewrite list_elem_of_In, in_concat. split.
  - intros (l & Hl & Hx). exists l. now rewrite !list_elem_of_In.
  - intros (l & Hx & Hl). exists l. now rewrite <- !list_elem_of_In.
Qed.

(** C6, as amended. Under an unrestricted scope the sections loaded hold the
    section of every root-level document whose name is not [CLAUDE.md] and
    the section of every document of every configured partition. Under a
    scope restricted to a set of partitions they hold the section of every
    document of the configured partitions in the set, and nothing else: no
    section of a root-level document. The text returned is the sections
    joined by the separator, or the sentinel when there is none. *)
Theorem files_content_scope (ROOT : path) (PROJECTS : list (string * string))
    (fs : filesystem) (allowed_dirs : option (list string))
    (sections : list string) :
  files_content ROOT PROJECTS fs allowed_dirs = Ok sections ->
  (allowed_dirs = None ->
     (forall rel,
         root_document ROOT fs rel ->
         name rel <> "CLAUDE.md" ->
         root_section ROOT fs rel ∈ sections)
     /\ (forall proj_dir proj_name rel,
           (proj_dir, proj_name) ∈ PROJECTS ->
           partition_document ROOT fs proj_dir rel ->
           project_section ROOT fs (joinpath ROOT proj_dir) proj_name rel
           ∈ sections))
  /\ (forall dirs,
        allowed_dirs = Some dirs ->
        (forall proj_dir proj_name rel,
            (proj_dir, proj_name) ∈ PROJECTS ->
            proj_dir ∈ dirs ->
            partition_document ROOT fs proj_dir rel ->
            project_section ROOT fs (joinpath ROOT proj_dir) proj_name rel
            ∈ sections)
        /\ (forall s,
              s ∈ sections ->
              exists proj_dir proj_name rel,
                (proj_dir, proj_name) ∈ PROJECTS
                /\ proj_dir ∈ dirs
                /\ partition_document ROOT fs proj_dir rel
                /\ s = project_section ROOT fs (joinpath ROOT proj_dir)
                         proj_name rel))
  /\ get_all_markdown_files ROOT PROJECTS fs allowed_dirs
     = Ok (match sections with
           | [] => "No project files found."
           | _ => join separator sections
           end).
Proof.
  intros Hfiles.
  assert (Hblob : get_all_markdown_files ROOT PROJECTS fs allowed_dirs
                  = Ok (match sections with
                        | [] => "No project files found."
                        | _ => join separator sections
                        end))
    by (unfold get_all_markdown_files; now rewrite Hfiles).
  unfold files_content in Hfiles.
  destruct (root_sections ROOT fs allowed_dirs) as [from_root|] eqn:Hroot;
    [| discriminate].
  simpl in Hfiles.
  destruct (mapM (project_sections ROOT fs allowed_dirs) PROJECTS)
    as [from_projects|] eqn:Hprojects; [| discriminate].
  simpl in Hfiles. injection Hfiles as <-.
  apply mapM_ok in Hprojects.
  assert (Hin : forall proj_dir proj_name rel,
             (proj_dir, proj_name) ∈ PROJECTS ->
             skipped allowed_dirs proj_dir = false ->
             partition_document ROOT fs proj_dir rel ->
             project_section ROOT fs (joinpath ROOT proj_dir) proj_name rel
             ∈ from_root ++ concat from_projects).
  { intros proj_dir proj_name rel Hproj Hskip Hdoc.
    apply elem_of_app. right.
    apply list_elem_of_lookup in Hproj as [i Hi].
    destruct (Forall2_lookup_l _ _ _ _ _ Hprojects Hi) as (secs & Hsecs & Hrun).
    apply elem_of_concat. exists secs.
    split; [| now apply list_elem_of_lookup_2 in Hsecs].
    now apply (project_sections_in ROOT fs allowed_dirs proj_dir proj_name). }
  split; [| split; [| exact Hblob]].
  - intros ->. split.
    + intros rel Hdoc Hname. apply elem_of_app. left.
      now apply (root_sections_unrestricted ROOT fs).
    + intros proj_dir proj_name rel Hproj Hdoc. now apply Hin.
  - intros dirs ->. split.
    + intros proj_dir proj_name rel Hproj Hdir Hdoc.
      apply Hin; [assumption | now apply skipped_restricted | assumption].
    + intros s Hs. rewrite root_sections_restricted in Hroot.
      injection Hroot as <-. simpl in Hs.
      apply elem_of_concat in Hs as (secs & Hs & Hsecs).
      apply list_elem_of_lookup in Hsecs as [i Hi].
      destruct (Forall2_lookup_r _ _ _ _ _ Hprojects Hi)
        as ([proj_dir proj_name] & Hproj & Hrun).
      destruct (project_sections_only ROOT fs _ _ _ _ _ Hrun Hs)
        as (Hskip & rel & Hdoc & ->).
      exists proj_dir, proj_name, rel.
      split; [now apply list_elem_of_lookup_2 in Hproj |].
      split; [now apply skipped_restricted |]. now split.
Qed.


(** C6, as stated, fails: on the sample disk [CLAUDE.md] is a root-level
    document, and the text loaded under an unrestricted scope holds neither
    its name nor its content; where it is the only document, the sentinel is
    returned. *)
Lemma get_all_markdown_files_omits_claude_md :
  root_document Deployment.PROJECT_ROOT Deployment.disk ["CLAUDE.md"]
  /\ read_text Deployment.disk (Deployment.PROJECT_ROOT ++ ["CLAUDE.md"])
     = Ok "instructions"
  /\ (exists blob,
        get_all_markdown_files Deployment.PROJECT_ROOT Deployment.PROJECTS
          Deployment.disk None = Ok blob
        /\ contains "CLAUDE.md" blob = false
        /\ contains "instructions" blob = false)
  /\ root_document Deployment.PROJECT_ROOT DocumentExamples.lone_disk
       ["CLAUDE.md"]
  /\ get_all_markdown_files Deployment.PROJECT_ROOT Deployment.PROJECTS
       DocumentExamples.lone_disk None
     = Ok "No project files found.".
Proof.
  split; [| split; [| split; [| split]]].
  - eexists. split; [vm_compute; reflexivity |].
    apply list_elem_of_further, list_elem_of_here.
  - vm_compute. reflexivity.
  - eexists. split; [vm_compute; reflexivity |].
    split; vm_compute; reflexivity.
  - eexists. split; [vm_compute; reflexivity |]. apply list_elem_of_here.
  - vm_compute. reflexivity.
Qed.

(** On the sample disk: the unrestricted scope sees the root-level
    [README.md] and the documents of both partitions; a scope restricted to
    [project_beta] sees the one document of that partition only. *)
Lemma files_content_scope_witness :
  (exists sections,
      files_content Deployment.PROJECT_ROOT Deployment.PROJECTS
        Deployment.disk None = Ok sections
      /\ root_section Deployment.PROJECT_ROOT Deployment.disk ["README.md"]
         ∈ sections
      /\ project_section Deployment.PROJECT_ROOT Deployment.disk
           ["srv"; "repo"; "project_alpha"] "Project Alpha"
           ["deep"; "plan.md"]
         ∈ sections)
  /\ get_all_markdown_files Deployment.PROJECT_ROOT Deployment.PROJECTS
       Deployment.disk (Some ["project_beta"])
     = Ok ("## File: project_beta/notes.md (Project Beta)" +:+ nl +:+ nl
           +:+ "beta notes").
Proof.
  split.
  - let l := eval vm_compute in
         (match files_content Deployment.PROJECT_ROOT Deployment.PROJECTS
                  Deployment.disk None with
          | Ok l => l
          | Raise _ => []
          end) in
    pose (sections := l).
    assert (Hfiles : files_content Deployment.PROJECT_ROOT Deployment.PROJECTS
                       Deployment.disk None = Ok sections)
      by (vm_compute; reflexivity).
    destruct (files_content_scope Deployment.PROJECT_ROOT Deployment.PROJECTS
                Deployment.disk None sections Hfiles)
      as (Hall & _ & _).
    destruct (Hall eq_refl) as (Hroot & Hproj).
    exists sections. split; [exact Hfiles |]. split.
    + apply Hroot.
      * eexists. split; [vm_compute; reflexivity | apply list_elem_of_here].
      * vm_compute. discriminate.
    + apply (Hproj "project_alpha" "Project Alpha" ["deep"; "plan.md"]).
      * apply list_elem_of_here.
      * eexists. split; [vm_compute; reflexivity |].
        apply list_elem_of_further, list_elem_of_here.
  - pose (sections :=
            ["## File: project_beta/notes.md (Project Beta)" +:+ nl +:+ nl
             +:+ "beta notes"]).
    assert (Hfiles : files_content Deployment.PROJECT_ROOT Deployment.PROJECTS
                       Deployment.disk (Some ["project_beta"]) = Ok sections)
      by (vm_compute; reflexivity).
    destruct (files_content_scope Deployment.PROJECT_ROOT Deployment.PROJECTS
                Deployment.disk (Some ["project_beta"]) sections Hfiles)
      as (_ & _ & Hblob).
    exact Hblob.
Defined.

(* ===================================================================== *)
(** * [ask_claude]                                                        *)
(* ===================================================================== *)

Section Orchestrator.

Variable PROJECT_ROOT : path.
Variable PROJECTS : list (string * string).
Variable CHANNEL_ACCESS : gmap string (list string).
Variable claude_messages_create : string -> list message -> result response.
Variable subprocess_run : list string -> result completed_process.
Variable since_date : Z -> result string.

Local Abbreviation ask :=
  (ask_claude PROJECT_ROOT PROJECTS CHANNEL_ACCESS claude_messages_create
     subprocess_run since_date).
Local Abbreviation loop :=
  (tool_use_loop PROJECT_ROOT claude_messages_create subprocess_run since_date).
Local Abbreviation load := (get_all_markdown_files PROJECT_ROOT PROJECTS).


(** ** The tool-use loop *)

(** One round of the loop. *)
Lemma loop_unfold (fuel : nat) (system_text : string)
    (allowed_dirs : option (list string)) (fs : filesystem)
    (outbound : list message) (resp : response) :
  tool_use_loop PROJECT_ROOT claude_messages_create subprocess_run since_date
    (S fuel) system_text allowed_dirs fs outbound resp
  = if str_eqb (stop_reason resp) "tool_use" then
      match run_tools PROJECT_ROOT subprocess_run since_date fs
              (content resp) allowed_dirs with
      | (Raise e, fs1) => Some (Raise e, fs1, outbound, [])
      | (Ok tool_results, fs1) =>
          let outbound1 :=
            outbound
            ++ [ {| role := "assistant";
                    message_content_of := Blocks (content resp) |};
                 {| role := "user";
                    message_content_of := ToolResults tool_results |} ] in
          let req :=
            {| system := system_text; request_messages := outbound1 |} in
          match claude_messages_create system_text outbound1 with
          | Raise e => Some (Raise e, fs1, outbound1, [req])
          | Ok resp1 =>
              match tool_use_loop PROJECT_ROOT claude_messages_create
                      subprocess_run since_date fuel system_text
                      allowed_dirs fs1 outbound1 resp1 with
              | Some (r, fs2, outbound2, reqs) =>
                  Some (r, fs2, outbound2, req :: reqs)
              | None => None
              end
          end
      end
    else Some (Ok resp, fs, outbound, []).
Proof. reflexivity. Qed.

(** Every request of the loop carries the system prompt of the turn. *)
Lemma loop_requests_system (fuel : nat) :
  forall system_text allowed_dirs fs outbound resp r fs' outbound' reqs,
    loop fuel system_text allowed_dirs fs outbound resp
    = Some (r, fs', outbound', reqs) ->
    Forall (fun q => system q = system_text) reqs.
Proof.
  induction fuel as [|fuel IH]; intros * H; [discriminate |].
  simpl in H. destruct (str_eqb (stop_reason resp) "tool_use").
  - destruct (run_tools _ _ _ _ _ _) as [[results|e] fs1].
    + destruct (claude_messages_create _ _) as [resp1|e].
      * destruct (tool_use_loop _ _ _ _ fuel _ _ _ _ _)
          as [[[[r2 fs2] out2] reqs2]|] eqn:Hrec; [| discriminate].
        injection H as <- <- <- <-. constructor; [reflexivity |].
        eapply IH. exact Hrec.
      * injection H as <- <- <- <-. repeat constructor.
    + injection H as <- <- <- <-. constructor.
  - injection H as <- <- <- <-. constructor.
Qed.

(** The local list [messages] only grows, by two messages per request. *)
Lemma loop_outbound (fuel : nat) :
  forall system_text allowed_dirs fs outbound resp r fs' outbound' reqs,
    loop fuel system_text allowed_dirs fs outbound resp
    = Some (r, fs', outbound', reqs) ->
    exists extra,
      outbound' = outbound ++ extra
      /\ List.length extra = (2 * List.length reqs)%nat.
Proof.
  induction fuel as [|fuel IH]; intros * H; [discriminate |].
  simpl in H. destruct (str_eqb (stop_reason resp) "tool_use").
  - destruct (run_tools _ _ _ _ _ _) as [[results|e] fs1].
    + destruct (claude_messages_create _ _) as [resp1|e].
      * destruct (tool_use_loop _ _ _ _ fuel _ _ _ _ _)
          as [[[[r2 fs2] out2] reqs2]|] eqn:Hrec; [| discriminate].
        injection H as <- <- <- <-.
        destruct (IH _ _ _ _ _ _ _ _ _ Hrec) as (extra & -> & Hlen).
        eexists. rewrite <- app_assoc. split; [reflexivity |].
        simpl. lia.
      * injection H as <- <- <- <-. eexists. split; [reflexivity |].
        reflexivity.
    + injection H as <- <- <- <-. exists []. now rewrite app_nil_r.
  - injection H as <- <- <- <-. exists []. now rewrite app_nil_r.
Qed.

(** More fuel does not change what the loop ends with. *)
Lemma loop_more_fuel (fuel : nat) :
  forall system_text allowed_dirs fs outbound resp out,
    loop fuel system_text allowed_dirs fs outbound resp = Some out ->
    loop (S fuel) system_text allowed_dirs fs outbound resp = Some out.
Proof.
  induction fuel as [|fuel IH]; intros * H; [discriminate |].
  rewrite loop_unfold in H |- *.
  destruct (str_eqb (stop_reason resp) "tool_use"); [| exact H].
  destruct (run_tools _ _ _ _ _ _) as [[results|e] fs1]; [| exact H].
  cbv zeta in *.
  destruct (claude_messages_create _ _) as [resp1|e]; [| exact H].
  destruct (tool_use_loop _ _ _ _ fuel _ _ _ _ _) as [out1|] eqn:Hrec;
    [| discriminate].
  now rewrite (IH _ _ _ _ _ _ Hrec).
Qed.

(** With a model that settles, the loop ends. *)
Lemma loop_ends (n : nat) :
  settles claude_messages_create n ->
  forall fuel system_text allowed_dirs fs outbound resp,
    claude_messages_create system_text outbound = Ok resp ->
    (n <= List.length outbound + 2 * fuel)%nat ->
    exists out,
      loop (S fuel) system_text allowed_dirs fs outbound resp = Some out.
Proof.
  intros Hsettles.
  induction fuel as [|fuel IH]; intros * Hresp Hlen.
  - simpl. destruct (str_eqb (stop_reason resp) "tool_use") eqn:E.
    + apply str_eqb_true in E.
      exfalso. apply (Hsettles _ _ _ Hresp); [lia | exact E].
    + eauto.
  - rewrite loop_unfold.
    destruct (str_eqb (stop_reason resp) "tool_use"); [| eauto].
    destruct (run_tools _ _ _ _ _ _) as [[results|e] fs1]; [| eauto].
    cbv zeta.
    destruct (claude_messages_create system_text (outbound ++ _))
      as [resp1|e] eqn:Hnext; [| eauto].
    destruct (IH system_text allowed_dirs fs1 _ resp1 Hnext) as [out Hout].
    { rewrite length_app. simpl. lia. }
    rewrite Hout. destruct out as [[[r fs2] out2] reqs]. eauto.
Qed.


(** ** The turn *)

Lemma trim_bound (l : list message) : (List.length (trim l) <= 40)%nat.
Proof.
  unfold trim. destruct (40 <? List.length l)%nat eqn:E.
  - apply Nat.ltb_lt in E. rewrite length_drop. lia.
  - apply Nat.ltb_ge in E. exact E.
Qed.

(** Trimming after two appends drops old messages only. *)
Lemma trim_two (l : list message) (a b : message) :
  trim (l ++ [a; b]) = drop (List.length l + 2 - 40)%nat l ++ [a; b].
Proof.
  unfold trim. rewrite length_app. simpl List.length.
  destruct (40 <? List.length l + 2)%nat eqn:E.
  - apply Nat.ltb_lt in E. apply drop_app_le. lia.
  - apply Nat.ltb_ge in E.
    now replace (List.length l + 2 - 40)%nat with 0%nat by lia.
Qed.

(** What a call of [ask_claude] that returns has done, path by path. *)
Lemma ask_claude_inv (fuel : nat) (now : Z) (w : world)
    (user_message channel_id : string) (t : turn) :
  ask fuel now w user_message channel_id = Some t ->
  let session0 := fst (get_session now (SESSIONS w) channel_id) in
  let sessions0 := snd (get_session now (SESSIONS w) channel_id) in
  let allowed_dirs := CHANNEL_ACCESS !! channel_id in
  (exists e,
      load (disk w) allowed_dirs = Raise e
      /\ t = {| reply := Raise e;
               after := {| disk := disk w; SESSIONS := sessions0 |};
               sent := []; outbound_messages := []; caught := None |})
  \/ (exists project_context,
        load (disk w) allowed_dirs = Ok project_context
        /\ let session1 :=
             append_message session0
               (user_message_of
                  (context_message (messages session0) project_context
                     user_message)) in
           let sessions1 := <[channel_id := session1]> sessions0 in
           let system_text := system_prompt project_context in
           let req :=
             {| system := system_text;
                request_messages := messages session1 |} in
           (exists e,
               claude_messages_create system_text (messages session1) = Raise e
               /\ t = {| reply := Ok (sorry_message e);
                        after := {| disk := disk w; SESSIONS := sessions1 |};
                        sent := [req];
                        outbound_messages := messages session1;
                        caught := Some e |})
           \/ (exists resp r fs1 outbound1 reqs,
                 claude_messages_create system_text (messages session1)
                 = Ok resp
                 /\ loop fuel system_text allowed_dirs (disk w)
                      (messages session1) resp
                    = Some (r, fs1, outbound1, reqs)
                 /\ match r with
                    | Raise e =>
                        t = {| reply := Ok (sorry_message e);
                               after := {| disk := fs1;
                                           SESSIONS := sessions1 |};
                               sent := req :: reqs;
                               outbound_messages := outbound1;
                               caught := Some e |}
                    | Ok final =>
                        let response_text :=
                          default fallback_reply
                            (first_text (content final)) in
                        t = {| reply := Ok response_text;
                               after :=
                                 {| disk := fs1;
                                    SESSIONS :=
                                      <[channel_id :=
                                          trim_session
                                            (append_message session1
                                               (assistant_message_of
                                                  response_text))]>
                                        sessions1 |};
                               sent := req :: reqs;
                               outbound_messages := outbound1;
                               caught := None |}
                    end)).
Proof.
  unfold ask_claude, get_allowed_dirs.
  destruct (get_session now (SESSIONS w) channel_id) as [session0 sessions0].
  simpl fst. simpl snd. cbv zeta.
  destruct (get_all_markdown_files PROJECT_ROOT PROJECTS (disk w)
              (CHANNEL_ACCESS !! channel_id)) as [project_context|e].
  - intros H. right. exists project_context. split; [reflexivity |].
    destruct (claude_messages_create _ _) as [resp|e] eqn:Hcall.
    + right.
      destruct (tool_use_loop _ _ _ _ fuel _ _ _ _ _)
        as [[[[r fs1] outbound1] reqs]|] eqn:Hloop; [| discriminate].
      exists resp, r, fs1, outbound1, reqs.
      split; [first [exact Hcall | reflexivity] |].
      split; [first [exact Hloop | reflexivity] |].
      destruct r; cbv iota beta in H; now injection H as <-.
    + left. exists e. split; [first [exact Hcall | reflexivity] |].
      now injection H as <-.
  - intros [= <-]. left. now exists e.
Qed.

(** With a model that settles at [n], [n + 1] units of fuel cover the turn. *)
Lemma ask_claude_returns (n : nat) (now : Z) (w : world)
    (user_message channel_id : string) :
  settles claude_messages_create n ->
  exists t, ask (S n) now w user_message channel_id = Some t.
Proof.
  intros Hsettles. unfold ask_claude, get_allowed_dirs.
  destruct (get_session now (SESSIONS w) channel_id) as [session0 sessions0].
  destruct (get_all_markdown_files PROJECT_ROOT PROJECTS (disk w)
              (CHANNEL_ACCESS !! channel_id)) as [project_context|e];
    [| eauto].
  cbv zeta.
  destruct (claude_messages_create _ _) as [resp|e] eqn:Hcall; [| eauto].
  destruct (loop_ends n Hsettles n _ (CHANNEL_ACCESS !! channel_id) (disk w)
              _ _ Hcall) as [[[[r fs1] outbound1] reqs] Hout]; [lia |].
  rewrite Hout. destruct r; eauto.
Qed.

(** X18. After a turn without exception the session of the channel holds
    at most 40 messages, whatever it held before. *)
Lemma ask_claude_success_bound (fuel : nat) (now : Z) (w : world)
    (user_message channel_id : string) (t : turn) (text : string) :
  ask fuel now w user_message channel_id = Some t ->
  reply t = Ok text ->
  caught t = None ->
  exists stored,
    SESSIONS (after t) !! channel_id = Some stored
    /\ (List.length (messages stored) <= 40)%nat.
Proof.
  intros Hask Hreply Hcaught.
  destruct (ask_claude_inv _ _ _ _ _ _ Hask)
    as [(e & _ & ->) | (ctx & _ & [(e & _ & ->) | (resp & r & fs1 & out1 & reqs
                                                   & _ & _ & Ht)])];
    try discriminate.
  destruct r as [final|e]; cbv zeta in Ht; subst t; [| discriminate].
  eexists. split; [apply lookup_insert_eq |]. apply trim_bound.
Qed.

(** X17. After a turn whose handler caught an exception the session holds
    the messages it had and the user message, with no reply after it and
    untrimmed, and the text returned is the error message. *)
Lemma ask_claude_caught_session (fuel : nat) (now : Z) (w : world)
    (user_message channel_id : string) (t : turn) (e : exn) :
  ask fuel now w user_message channel_id = Some t ->
  caught t = Some e ->
  let session0 := fst (get_session now (SESSIONS w) channel_id) in
  exists project_context stored,
    load (disk w) (CHANNEL_ACCESS !! channel_id) = Ok project_context
    /\ SESSIONS (after t) !! channel_id = Some stored
    /\ messages stored
       = messages session0
         ++ [user_message_of
               (context_message (messages session0) project_context
                  user_message)]
    /\ reply t = Ok (sorry_message e).
Proof.
  intros Hask Hcaught.
  destruct (ask_claude_inv _ _ _ _ _ _ Hask)
    as [(e' & _ & ->) | (ctx & Hload & [(e' & _ & ->)
                                       | (resp & r & fs1 & out1 & reqs
                                          & _ & _ & Ht)])];
    try discriminate.
  - injection Hcaught as ->. exists ctx. eexists.
    split; [exact Hload |]. split; [apply lookup_insert_eq |]. now split.
  - destruct r as [final|e']; cbv zeta in Ht; subst t; [discriminate |].
    injection Hcaught as ->. exists ctx. eexists.
    split; [exact Hload |]. split; [apply lookup_insert_eq |]. now split.
Qed.

(** C5, as amended. The handler of [ask_claude] covers the model calls, the
    execution of the tools, the extraction of the reply and the last append:
    an exception raised there is caught and the text returned is the error
    message made from it. The documents are loaded before the handler is
    entered: an exception raised while loading them leaves [ask_claude] as
    it is. With a model that stops asking for tools the call returns, so
    whenever the documents load the caller receives a text. *)
Theorem ask_claude_catches_after_loading (now : Z) (w : world)
    (user_message channel_id : string) :
  let allowed_dirs := CHANNEL_ACCESS !! channel_id in
  let session0 := fst (get_session now (SESSIONS w) channel_id) in
  (forall fuel t,
      ask fuel now w user_message channel_id = Some t ->
      (forall e, load (disk w) allowed_dirs = Raise e -> reply t = Raise e)
      /\ (forall project_context,
            load (disk w) allowed_dirs = Ok project_context ->
            let system_text := system_prompt project_context in
            let outbound :=
              messages session0
              ++ [user_message_of
                    (context_message (messages session0) project_context
                       user_message)] in
            (exists text, reply t = Ok text)
            /\ (forall e,
                  caught t = Some e ->
                  reply t
                  = Ok ("Sorry, I encountered an error: " +:+ exn_str e))
            /\ (forall e,
                  claude_messages_create system_text outbound = Raise e ->
                  caught t = Some e)
            /\ (forall resp e fs1 outbound1 reqs,
                  claude_messages_create system_text outbound = Ok resp ->
                  loop fuel system_text allowed_dirs (disk w) outbound resp
                  = Some (Raise e, fs1, outbound1, reqs) ->
                  caught t = Some e)))
  /\ (forall n,
        settles claude_messages_create n ->
        exists fuel t, ask fuel now w user_message channel_id = Some t).
Proof.
  intros allowed_dirs session0. subst allowed_dirs session0. split.
  - intros fuel t Hask.
    destruct (ask_claude_inv _ _ _ _ _ _ Hask)
      as [(e & Hload & ->) | (ctx & Hload & Hrest)].
    + split; [intros e' He'; simpl; congruence |].
      intros ctx Hctx. congruence.
    + split; [intros e He; congruence |].
      intros ctx' Hctx' system_text outbound. subst system_text outbound.
      rewrite Hload in Hctx'. injection Hctx' as <-.
      destruct Hrest as [(e & Hcall & ->)
                        | (resp & r & fs1 & out1 & reqs & Hcall & Hloop & Ht)];
        unfold append_message in Hcall; cbn [messages] in Hcall.
      * split; [simpl; eauto |]. split; [| split].
        -- intros e' [= <-]. reflexivity.
        -- intros e' He'. simpl. congruence.
        -- intros resp' e' fs1' out1' reqs' Hcall'. congruence.
      * unfold append_message in Hloop. cbn [messages] in Hloop.
        assert (Hsame : forall resp' e' fs1' out1' reqs',
                   claude_messages_create (system_prompt ctx)
                     (messages (fst (get_session now (SESSIONS w) channel_id))
                      ++ [user_message_of
                            (context_message
                               (messages
                                  (fst (get_session now (SESSIONS w)
                                          channel_id)))
                               ctx user_message)])
                   = Ok resp' ->
                   loop fuel (system_prompt ctx) (CHANNEL_ACCESS !! channel_id)
                     (disk w)
                     (messages (fst (get_session now (SESSIONS w) channel_id))
                      ++ [user_message_of
                            (context_message
                               (messages
                                  (fst (get_session now (SESSIONS w)
                                          channel_id)))
                               ctx user_message)])
                     resp'
                   = Some (Raise e', fs1', out1', reqs') ->
                   r = Raise e').
        { intros resp' e' fs1' out1' reqs' Hcall' Hloop'.
          rewrite Hcall in Hcall'. injection Hcall' as <-.
          rewrite Hloop in Hloop'. now injection Hloop' as ->. }
        destruct r as [final|e]; cbv zeta in Ht; subst t.
        -- split; [simpl; eauto |]. split; [discriminate |]. split.
           ++ intros e' He'. congruence.
           ++ intros resp' e' fs1' out1' reqs' Hcall' Hloop'.
              discriminate (Hsame _ _ _ _ _ Hcall' Hloop').
        -- split; [simpl; eauto |]. split; [| split].
           ++ intros e' [= <-]. reflexivity.
           ++ intros e' He'. congruence.
           ++ intros resp' e' fs1' out1' reqs' Hcall' Hloop'. simpl.
              f_equal. now injection (Hsame _ _ _ _ _ Hcall' Hloop').
  - intros n Hsettles. exists (S n). now apply ask_claude_returns.
Qed.

(** C8. The first request of a turn carries the messages of the session
    fetched followed by the user message built for the turn: on a session
    without message its text is the document text loaded for the turn and
    the request of the user; otherwise it is the fixed reminder and the
    request of the user. Every request of the turn carries the system
    instructions followed by the document text loaded for the turn. *)
Theorem ask_claude_context (fuel : nat) (now : Z) (w : world)
    (user_message channel_id : string) (t : turn) (project_context : string) :
  ask fuel now w user_message channel_id = Some t ->
  load (disk w) (CHANNEL_ACCESS !! channel_id) = Ok project_context ->
  let session0 := fst (get_session now (SESSIONS w) channel_id) in
  exists first rest,
    sent t = first :: rest
    /\ (messages session0 = [] ->
        request_messages first
        = [ {| role := "user";
               message_content_of :=
                 Text ("Here are the current project files:" +:+ nl +:+ nl
                       +:+ project_context +:+ nl +:+ nl
                       +:+ "---" +:+ nl +:+ nl
                       +:+ "User request: " +:+ user_message) |} ])
    /\ (messages session0 <> [] ->
        request_messages first
        = messages session0
          ++ [ {| role := "user";
                  message_content_of :=
                    Text ("(Project files still available from earlier in conversation)"
                          +:+ nl +:+ nl
                          +:+ "User request: " +:+ user_message) |} ])
    /\ (forall r,
          r ∈ sent t ->
          system r
          = SYSTEM_PROMPT +:+ nl +:+ nl +:+ "Current project files:" +:+ nl
            +:+ project_context).
Proof.
  intros Hask Hload session0.
  assert (Hfirst : forall reqs,
             exists first rest,
               {| system := system_prompt project_context;
                  request_messages :=
                    messages session0
                    ++ [user_message_of
                          (context_message (messages session0)
                             project_context user_message)] |} :: reqs
               = first :: rest
               /\ (messages session0 = [] ->
                   request_messages first
                   = [user_message_of
                        (first_context_message project_context user_message)])
               /\ (messages session0 <> [] ->
                   request_messages first
                   = messages session0
                     ++ [user_message_of
                           (later_context_message user_message)])).
  { intros reqs. eexists _, _. split; [reflexivity |]. simpl.
    destruct (messages session0) as [|m l].
    - split; [reflexivity | congruence].
    - split; [discriminate | reflexivity]. }
  destruct (ask_claude_inv _ _ _ _ _ _ Hask)
    as [(e & Hload' & _) | (ctx & Hload' & Hrest)]; [congruence |].
  rewrite Hload in Hload'. injection Hload' as <-.
  destruct Hrest as [(e & _ & ->)
                    | (resp & r & fs1 & out1 & reqs & _ & Hloop & Ht)].
  - destruct (Hfirst []) as (first & rest & Heq & H1 & H2).
    exists first, rest. split; [exact Heq |]. split; [exact H1 |].
    split; [exact H2 |].
    intros q Hq. simpl in Hq. apply list_elem_of_singleton in Hq as ->.
    reflexivity.
  - assert (Hsent : sent t
                    = {| system := system_prompt project_context;
                         request_messages :=
                           messages session0
                           ++ [user_message_of
                                 (context_message (messages session0)
                                    project_context user_message)] |}
                      :: reqs)
      by (destruct r; cbv zeta in Ht; subst t; reflexivity).
    destruct (Hfirst reqs) as (first & rest & Heq & H1 & H2).
    exists first, rest. rewrite Hsent.
    split; [exact Heq |]. split; [exact H1 |]. split; [exact H2 |].
    intros q Hq. apply elem_of_cons in Hq as [->|Hq]; [reflexivity |].
    pose proof (loop_requests_system _ _ _ _ _ _ _ _ _ _ Hloop) as Hall.
    rewrite Forall_forall in Hall. now apply Hall.
Qed.

(** C10. After a turn that ends without exception the session holds what it
    held before, less the oldest messages the cap of 40 pushes out, followed
    by two messages: the user message built for the turn and the reply
    returned, as text. The messages of the tool rounds, two per further
    request, are added to the local list sent to the model only. *)
Theorem ask_claude_persists_two_messages (fuel : nat) (now : Z) (w : world)
    (user_message channel_id : string) (t : turn) (text : string) :
  ask fuel now w user_message channel_id = Some t ->
  reply t = Ok text ->
  caught t = None ->
  let session0 := fst (get_session now (SESSIONS w) channel_id) in
  exists project_context stored dropped tool_rounds,
    load (disk w) (CHANNEL_ACCESS !! channel_id) = Ok project_context
    /\ let user_turn :=
         {| role := "user";
            message_content_of :=
              Text (context_message (messages session0) project_context
                      user_message) |} in
       let assistant_turn :=
         {| role := "assistant"; message_content_of := Text text |} in
       SESSIONS (after t) !! channel_id = Some stored
       /\ messages stored
          = drop dropped (messages session0) ++ [user_turn; assistant_turn]
       /\ dropped = (List.length (messages session0) + 2 - 40)%nat
       /\ outbound_messages t
          = messages session0 ++ [user_turn] ++ tool_rounds
       /\ List.length tool_rounds = (2 * (List.length (sent t) - 1))%nat.
Proof.
  intros Hask Hreply Hcaught session0.
  destruct (ask_claude_inv _ _ _ _ _ _ Hask)
    as [(e & _ & ->) | (ctx & Hload & [(e & _ & ->)
                                      | (resp & r & fs1 & out1 & reqs
                                         & _ & Hloop & Ht)])];
    try discriminate.
  destruct r as [final|e]; cbv zeta in Ht; subst t; [| discriminate].
  simpl in Hreply. injection Hreply as <-.
  destruct (loop_outbound _ _ _ _ _ _ _ _ _ _ Hloop) as (extra & -> & Hlen).
  exists ctx. eexists. eexists. exists extra.
  split; [exact Hload |]. cbv zeta.
  split; [apply lookup_insert_eq |].
  split.
  - simpl. rewrite <- app_assoc. simpl. apply trim_two.
  - split; [reflexivity |]. split.
    + simpl. now rewrite <- app_assoc.
    + simpl. rewrite Hlen. lia.
Qed.

End Orchestrator.

Module TurnFacts.

Lemma blob_loaded (w : world) (channel_id : string) :
  disk w = Deployment.disk ->
  get_all_markdown_files Deployment.PROJECT_ROOT Deployment.PROJECTS
    (disk w) (Deployment.CHANNEL_ACCESS !! channel_id)
  = Ok TurnExamples.blob.
Proof.
  intros ->. unfold Deployment.CHANNEL_ACCESS. rewrite lookup_empty.
  vm_compute. reflexivity.
Qed.

Lemma editing_model_settles : settles TurnExamples.editing_model 3.
Proof.
  intros system_text outbound resp Hcall Hlen.
  unfold TurnExamples.editing_model in Hcall.
  destruct (List.length outbound <? 3)%nat eqn:E.
  - apply Nat.ltb_lt in E. lia.
  - injection Hcall as <-. discriminate.
Qed.

(** A call that returns is known by what is observed of its turn. *)
Lemma turn_observed {A} (f : turn -> A) (o : option turn) (a : A) :
  f <$> o = Some a -> exists t, o = Some t /\ f t = a.
Proof.
  destruct o as [t|]; simpl; [| discriminate].
  intros [= <-]. now exists t.
Qed.

(** The loop has no bound of its own: with a model that asks for a tool
    whatever it is sent, no amount of fuel lets it end. *)
Lemma restless_loop_never_ends (ROOT : path)
    (subprocess_run : list string -> result completed_process)
    (since_date : Z -> result string) (fuel : nat) :
  forall system_text allowed_dirs fs outbound resp,
    TurnExamples.restless_model system_text outbound = Ok resp ->
    tool_use_loop ROOT TurnExamples.restless_model subprocess_run since_date
      fuel system_text allowed_dirs fs outbound resp
    = None.
Proof.
  induction fuel as [|fuel IH]; intros * Hresp; [reflexivity |].
  injection Hresp as <-. simpl.
  destruct (get_recent_updates_returns subprocess_run since_date 7)
    as [text Htext].
  unfold execute_tool. simpl. rewrite lookup_empty. simpl. rewrite Htext.
  now rewrite IH.
Qed.

Lemma restless_turn_never_returns (fuel : nat) :
  TurnExamples.ask TurnExamples.restless_model fuel 1000
    TurnExamples.fresh_world "hello" "C1" = None.
Proof.
  unfold TurnExamples.ask, ask_claude, get_allowed_dirs.
  destruct (get_session 1000 (SESSIONS TurnExamples.fresh_world) "C1")
    as [session0 sessions0].
  rewrite (blob_loaded TurnExamples.fresh_world "C1" eq_refl).
  cbv zeta.
  change (TurnExamples.restless_model
            (system_prompt TurnExamples.blob)
            (messages
               (append_message session0
                  (user_message_of
                     (context_message (messages session0)
                        TurnExamples.blob "hello")))))
    with (Ok {| stop_reason := "tool_use";
                content := [ToolUseBlock "toolu_01" "get_recent_updates"
                              {| str_args := ∅; int_args := ∅ |}] |}).
  cbv iota beta.
  now rewrite restless_loop_never_ends.
Qed.

End TurnFacts.


(** C5, as stated, fails: with a project root the process may not search,
    loading the documents raises [PermissionError], and the exception leaves
    [ask_claude]: no text is returned. *)
Lemma ask_claude_propagates_loading_error :
  exists t,
    TurnExamples.ask TurnExamples.plain_model 1 1000
      TurnExamples.locked_world "hello" "C1" = Some t
    /\ reply t = Raise (PermissionError ["srv"; "repo"; "project_alpha"])
    /\ caught t = None.
Proof.
  destruct (TurnFacts.turn_observed (fun t => (reply t, caught t))
              (TurnExamples.ask TurnExamples.plain_model 1 1000
                 TurnExamples.locked_world "hello" "C1")
              (Raise (PermissionError ["srv"; "repo"; "project_alpha"]), None))
    as (t & Hask & Hobs); [vm_compute; reflexivity |].
  exists t. injection Hobs as Hreply Hcaught. now split.
Qed.

(** With an API that cannot be reached, and with a tool call that lacks its
    arguments, the text returned is the error message; with the model that
    edits once the call returns. *)
Lemma ask_claude_catches_after_loading_witness :
  (exists t,
      TurnExamples.ask TurnExamples.failing_model 1 1000
        TurnExamples.fresh_world "hello" "C1" = Some t
      /\ reply t = Ok "Sorry, I encountered an error: Connection error.")
  /\ (exists t,
        TurnExamples.ask TurnExamples.careless_model 1 1000
          TurnExamples.fresh_world "hello" "C1" = Some t
        /\ reply t = Ok "Sorry, I encountered an error: 'file_path'")
  /\ (exists fuel t,
        TurnExamples.ask TurnExamples.editing_model fuel 1000
          TurnExamples.fresh_world "change TODO to DONE" "C1" = Some t).
Proof.
  split; [| split].
  - destruct (TurnFacts.turn_observed (fun _ => tt)
                (TurnExamples.ask TurnExamples.failing_model 1 1000
                   TurnExamples.fresh_world "hello" "C1") tt)
      as (t & Hask & _); [vm_compute; reflexivity |].
    exists t. split; [exact Hask |].
    destruct (proj1 (ask_claude_catches_after_loading Deployment.PROJECT_ROOT
                       Deployment.PROJECTS Deployment.CHANNEL_ACCESS
                       TurnExamples.failing_model HistoryExamples.repository
                       HistoryExamples.since_date 1000
                       TurnExamples.fresh_world "hello" "C1") 1%nat t Hask)
      as [_ Hloaded].
    destruct (Hloaded TurnExamples.blob
                (TurnFacts.blob_loaded TurnExamples.fresh_world "C1" eq_refl))
      as (_ & Hcaught & Hraise & _).
    apply (Hcaught (Exn "APIConnectionError" "Connection error.")).
    apply Hraise. reflexivity.
  - destruct (TurnFacts.turn_observed caught
                (TurnExamples.ask TurnExamples.careless_model 1 1000
                   TurnExamples.fresh_world "hello" "C1")
                (Some (Exn "KeyError" "'file_path'")))
      as (t & Hask & Hobs); [vm_compute; reflexivity |].
    exists t. split; [exact Hask |].
    destruct (proj1 (ask_claude_catches_after_loading Deployment.PROJECT_ROOT
                       Deployment.PROJECTS Deployment.CHANNEL_ACCESS
                       TurnExamples.careless_model HistoryExamples.repository
                       HistoryExamples.since_date 1000
                       TurnExamples.fresh_world "hello" "C1") 1%nat t Hask)
      as [_ Hloaded].
    destruct (Hloaded TurnExamples.blob
                (TurnFacts.blob_loaded TurnExamples.fresh_world "C1" eq_refl))
      as (_ & Hcaught & _).
    exact (Hcaught (Exn "KeyError" "'file_path'") Hobs).
  - apply (ask_claude_catches_after_loading Deployment.PROJECT_ROOT
             Deployment.PROJECTS Deployment.CHANNEL_ACCESS
             TurnExamples.editing_model HistoryExamples.repository
             HistoryExamples.since_date 1000 TurnExamples.fresh_world
             "change TODO to DONE" "C1") with (n := 3%nat).
    apply TurnFacts.editing_model_settles.
Defined.

(** On a session without message the request carries the document text; on
    a session of one exchange it carries the reminder. *)
Lemma ask_claude_context_witness :
  (exists t first rest,
      TurnExamples.ask TurnExamples.plain_model 1 1000
        TurnExamples.fresh_world "what is planned?" "C1" = Some t
      /\ sent t = first :: rest
      /\ request_messages first
         = [user_message_of
              (first_context_message TurnExamples.blob "what is planned?")]
      /\ system first = system_prompt TurnExamples.blob)
  /\ (exists t first rest,
        TurnExamples.ask TurnExamples.plain_model 1 1000
          TurnExamples.ongoing_world "and after that?" "C1" = Some t
        /\ sent t = first :: rest
        /\ request_messages first
           = TurnExamples.earlier
             ++ [user_message_of (later_context_message "and after that?")]
        /\ system first = system_prompt TurnExamples.blob).
Proof.
  split.
  - destruct (TurnFacts.turn_observed (fun _ => tt)
                (TurnExamples.ask TurnExamples.plain_model 1 1000
                   TurnExamples.fresh_world "what is planned?" "C1") tt)
      as (t & Hask & _); [vm_compute; reflexivity |].
    destruct (ask_claude_context Deployment.PROJECT_ROOT Deployment.PROJECTS
                Deployment.CHANNEL_ACCESS TurnExamples.plain_model
                HistoryExamples.repository HistoryExamples.since_date
                1%nat 1000 TurnExamples.fresh_world "what is planned?" "C1"
                t TurnExamples.blob Hask
                (TurnFacts.blob_loaded TurnExamples.fresh_world "C1" eq_refl))
      as (first & rest & Hsent & Hempty & _ & Hsystem).
    exists t, first, rest. split; [exact Hask |]. split; [exact Hsent |].
    split.
    + apply Hempty. vm_compute. reflexivity.
    + apply Hsystem. rewrite Hsent. apply list_elem_of_here.
  - destruct (TurnFacts.turn_observed (fun _ => tt)
                (TurnExamples.ask TurnExamples.plain_model 1 1000
                   TurnExamples.ongoing_world "and after that?" "C1") tt)
      as (t & Hask & _); [vm_compute; reflexivity |].
    destruct (ask_claude_context Deployment.PROJECT_ROOT Deployment.PROJECTS
                Deployment.CHANNEL_ACCESS TurnExamples.plain_model
                HistoryExamples.repository HistoryExamples.since_date
                1%nat 1000 TurnExamples.ongoing_world "and after that?" "C1"
                t TurnExamples.blob Hask
                (TurnFacts.blob_loaded TurnExamples.ongoing_world "C1" eq_refl))
      as (first & rest & Hsent & _ & Hlater & Hsystem).
    exists t, first, rest. split; [exact Hask |]. split; [exact Hsent |].
    assert (Hsession :
              messages (fst (get_session 1000
                               (SESSIONS TurnExamples.ongoing_world) "C1"))
              = TurnExamples.earlier)
      by (vm_compute; reflexivity).
    rewrite Hsession in Hlater.
    split.
    + apply Hlater. discriminate.
    + apply Hsystem. rewrite Hsent. apply list_elem_of_here.
Defined.

(** A turn with one tool round: two requests are sent, the local list ends
    with three messages, the file is edited, and the session holds the user
    message and the reply. *)
Lemma ask_claude_persists_two_messages_witness :
  exists t stored,
    TurnExamples.ask TurnExamples.editing_model 2 1000
      TurnExamples.fresh_world "change TODO to DONE" "C1" = Some t
    /\ List.length (sent t) = 2%nat
    /\ List.length (outbound_messages t) = 3%nat
    /\ read_text (disk (after t)) ["srv"; "repo"; "project_alpha"; "todo.md"]
       = Ok "DONE one. TODO two."
    /\ SESSIONS (after t) !! "C1" = Some stored
    /\ messages stored
       = [ user_message_of
             (first_context_message TurnExamples.blob "change TODO to DONE");
           assistant_message_of
             "Changed TODO to DONE in project_alpha/todo.md." ].
Proof.
  destruct (TurnFacts.turn_observed
              (fun t => (reply t, caught t, List.length (sent t),
                         List.length (outbound_messages t),
                         read_text (disk (after t))
                           ["srv"; "repo"; "project_alpha"; "todo.md"]))
              (TurnExamples.ask TurnExamples.editing_model 2 1000
                 TurnExamples.fresh_world "change TODO to DONE" "C1")
              (Ok "Changed TODO to DONE in project_alpha/todo.md.", None,
               2%nat, 3%nat, Ok "DONE one. TODO two."))
    as (t & Hask & Hobs); [vm_compute; reflexivity |].
  injection Hobs as Hreply Hcaught Hsent Houtbound Hread.
  destruct (ask_claude_persists_two_messages Deployment.PROJECT_ROOT
              Deployment.PROJECTS Deployment.CHANNEL_ACCESS
              TurnExamples.editing_model HistoryExamples.repository
              HistoryExamples.since_date 2%nat 1000 TurnExamples.fresh_world
              "change TODO to DONE" "C1" t
              "Changed TODO to DONE in project_alpha/todo.md."
              Hask Hreply Hcaught)
    as (ctx & stored & dropped & rounds & Hload & Hstored & Hmessages
        & Hdropped & _).
  assert (Hctx : Ok ctx = Ok TurnExamples.blob)
    by (rewrite <- Hload;
        exact (TurnFacts.blob_loaded TurnExamples.fresh_world "C1" eq_refl)).
  injection Hctx as ->.
  assert (Hsession :
            messages (fst (get_session 1000
                             (SESSIONS TurnExamples.fresh_world) "C1")) = [])
    by (vm_compute; reflexivity).
  rewrite Hsession in Hmessages, Hdropped. subst dropped.
  exists t, stored. repeat (split; [assumption |]). exact Hmessages.
Defined.

(** C3. The code departs from the claim. A session holds forty messages; the
    next turn reaches no model, so its handler returns the error text; the
    user message appended before the call stays, and the trim that follows
    the reply is not reached: the session holds forty-one messages. *)
Theorem ask_claude_error_turn_exceeds_cap :
  (exists before,
      SESSIONS TurnExamples.full_world !! "C1" = Some before
      /\ List.length (messages before) = 40%nat)
  /\ (exists t stored,
        TurnExamples.ask TurnExamples.failing_model 1 1000
          TurnExamples.full_world "hello" "C1" = Some t
        /\ reply t = Ok "Sorry, I encountered an error: Connection error."
        /\ SESSIONS (after t) !! "C1" = Some stored
        /\ List.length (messages stored) = 41%nat).
Proof.
  split.
  - eexists. split; [apply lookup_singleton_eq | reflexivity].
  - destruct (TurnFacts.turn_observed
                (fun t => (reply t,
                           (fun s => List.length (messages s))
                             <$> SESSIONS (after t) !! "C1"))
                (TurnExamples.ask TurnExamples.failing_model 1 1000
                   TurnExamples.full_world "hello" "C1")
                (Ok "Sorry, I encountered an error: Connection error.",
                 Some 41%nat))
      as (t & Hask & Hobs); [vm_compute; reflexivity |].
    injection Hobs as Hreply Hcount.
    destruct (SESSIONS (after t) !! "C1") as [stored|] eqn:Hstored;
      [| discriminate].
    injection Hcount as Hcount.
    exists t, stored. now repeat split.
Qed.

(* ===================================================================== *)
(** * Further properties of [edit_file]                                   *)
(* ===================================================================== *)

Module EditFacts.




Lemma split_slash_first (s : string) :
  head (split "/" (String "/" s)) = Some "".
Proof. reflexivity. Qed.

End EditFacts.

Import EditFacts.



(** X2. Under a restricted scope whose allowed set does not hold the empty
    name, a path without ["/"] and a path that starts with ["/"] are both
    refused, whatever the disk holds: the first is reported under the name
    [None], the second under the empty name. *)
Theorem edit_file_refuses_unpartitioned (ROOT : path) (fs : filesystem)
    (file_path find_text replace_text : string) (dirs : list string) :
  (~ occurs_in "/" file_path ->
   edit_file ROOT fs file_path find_text replace_text (Some dirs)
   = (Ok ("Error: You don't have access to edit files in 'None'. "
          +:+ "This channel can only access: " +:+ join ", " dirs), fs))
  /\ (startswith "/" file_path = true ->
      "" ∉ dirs ->
      edit_file ROOT fs file_path find_text replace_text (Some dirs)
      = (Ok ("Error: You don't have access to edit files in ''. "
             +:+ "This channel can only access: " +:+ join ", " dirs), fs)).
Proof.
  split.
  - intros Hno. unfold edit_file, access_check, file_dir_of.
    destruct (contains "/" file_path) eqn:E.
    + apply contains_spec in E. contradiction.
    + reflexivity.
  - intros Habs Hnot. unfold edit_file.
    rewrite access_check_denied.
    + assert (Hdir : file_dir_of file_path = Some "").
      { apply file_dir_of_spec.
        apply startswith_spec in Habs as [rest ->]. now exists rest. }
      now rewrite Hdir.
    + intros d Hd. apply file_dir_of_spec in Hd.
      assert (Hdir : file_dir_of file_path = Some "").
      { apply file_dir_of_spec.
        apply startswith_spec in Habs as [rest ->]. now exists rest. }
      rewrite Hdir in Hd. now injection Hd as <-.
Qed.

Lemma edit_file_refuses_unpartitioned_witness :
  edit_file Deployment.PROJECT_ROOT Deployment.disk "README.md" "root" "ROOT"
    (Some ["project_alpha"])
  = (Ok ("Error: You don't have access to edit files in 'None'. "
         +:+ "This channel can only access: project_alpha"), Deployment.disk)
  /\ edit_file Deployment.PROJECT_ROOT Deployment.disk
       "/srv/repo/project_alpha/todo.md" "TODO" "DONE" (Some ["project_alpha"])
     = (Ok ("Error: You don't have access to edit files in ''. "
            +:+ "This channel can only access: project_alpha"),
        Deployment.disk).
Proof.
  split.
  - apply (proj1 (edit_file_refuses_unpartitioned Deployment.PROJECT_ROOT
                    Deployment.disk "README.md" "root" "ROOT"
                    ["project_alpha"])).
    intros Hocc%contains_spec. vm_compute in Hocc. discriminate.
  - apply (proj2 (edit_file_refuses_unpartitioned Deployment.PROJECT_ROOT
                    Deployment.disk "/srv/repo/project_alpha/todo.md"
                    "TODO" "DONE" ["project_alpha"])).
    + reflexivity.
    + apply not_elem_of_cons. split; [discriminate | apply not_elem_of_nil].
Defined.

(** X3. Under an unrestricted scope a path that starts with ["/"] is
    resolved from the root of the file system and the project root plays
    no part: the outcome is the same under every project root, and the
    file that is looked up, read and written is the one at that absolute
    path, wherever it lies. *)
Theorem edit_file_absolute_path (ROOT : path) (fs : filesystem)
    (file_path find_text replace_text : string) :
  startswith "/" file_path = true ->
  (forall ROOT',
      edit_file ROOT fs file_path find_text replace_text None
      = edit_file ROOT' fs file_path find_text replace_text None)
  /\ (forall content fs',
        exists_ fs (parts file_path) = Ok true ->
        suffix (parts file_path) = ".md" ->
        read_text fs (parts file_path) = Ok content ->
        occurs_in find_text content ->
        write_text fs (parts file_path)
          (replace1 content find_text replace_text) = Ok fs' ->
        edit_file ROOT fs file_path find_text replace_text None
        = (Ok (updated_message file_path), fs')).
Proof.
  intros Habs.
  assert (Hjoin : forall R, joinpath R file_path = parts file_path)
    by (intros R; unfold joinpath; now rewrite Habs).
  split.
  - intros ROOT'. unfold edit_file. now rewrite !Hjoin.
  - intros content fs' Hex Hsuf Hread Hocc%contains_spec Hwrite.
    rewrite (edit_file_writes ROOT fs file_path find_text replace_text None
               content); rewrite ?Hjoin; auto.
    now rewrite Hwrite.
Qed.

(** A file outside the checkout, edited through its absolute path. *)
Lemma edit_file_absolute_path_witness :
  edit_file Deployment.PROJECT_ROOT AbsoluteExample.disk "/etc/motd.md"
    "welcome" "goodbye" None
  = (Ok (updated_message "/etc/motd.md"),
     <[ ["etc"; "motd.md"] := File "goodbye" ]> AbsoluteExample.disk).
Proof.
  assert (Hstat : stat AbsoluteExample.disk (parts "/etc/motd.md")
                  = Found ["etc"; "motd.md"] (File "welcome"))
    by (vm_compute; reflexivity).
  apply (proj2 (edit_file_absolute_path Deployment.PROJECT_ROOT
                  AbsoluteExample.disk "/etc/motd.md" "welcome" "goodbye"
                  eq_refl) "welcome").
  - unfold exists_. now rewrite Hstat.
  - vm_compute. reflexivity.
  - unfold read_text. now rewrite Hstat.
  - apply contains_spec. vm_compute. reflexivity.
  - unfold write_text. now rewrite Hstat.
Defined.



(* ===================================================================== *)
(** * Properties of [execute_tool] and of the loop over the blocks        *)
(* ===================================================================== *)

Section Tools.

Variable PROJECT_ROOT : path.
Variable subprocess_run : list string -> result completed_process.
Variable since_date : Z -> result string.

Local Abbreviation execute :=
  (execute_tool PROJECT_ROOT subprocess_run since_date).
Local Abbreviation run :=
  (run_tools PROJECT_ROOT subprocess_run since_date).


(** X6. A call of [edit_file] that lacks an argument raises [KeyError]
    for the first one missing, in the order [file_path], [find_text],
    [replace_text]; the disk is not read, and the scope is not looked at. *)
Theorem execute_tool_missing_argument (fs : filesystem) (input : tool_input)
    (allowed_dirs : option (list string)) :
  (str_args input !! "file_path" = None ->
   execute fs "edit_file" input allowed_dirs
   = (Raise (Exn "KeyError" "'file_path'"), fs))
  /\ (is_Some (str_args input !! "file_path") ->
      str_args input !! "find_text" = None ->
      execute fs "edit_file" input allowed_dirs
      = (Raise (Exn "KeyError" "'find_text'"), fs))
  /\ (is_Some (str_args input !! "file_path") ->
      is_Some (str_args input !! "find_text") ->
      str_args input !! "replace_text" = None ->
      execute fs "edit_file" input allowed_dirs
      = (Raise (Exn "KeyError" "'replace_text'"), fs)).
Proof.
  unfold execute_tool, getitem.
  change (str_eqb "edit_file" "edit_file") with true. cbv iota.
  split; [| split].
  - intros ->. reflexivity.
  - intros [a ->] ->. reflexivity.
  - intros [a ->] [b ->] ->. reflexivity.
Qed.

(** X7. The tool [get_recent_updates] answers a text whatever happens,
    leaves the disk as it was, takes 7 for a missing [days], and does not
    look at the scope of the channel. *)
Theorem execute_tool_recent_updates (fs : filesystem) (input : tool_input)
    (allowed_dirs : option (list string)) :
  (exists answer,
      execute fs "get_recent_updates" input allowed_dirs = (Ok answer, fs))
  /\ execute fs "get_recent_updates" input allowed_dirs
     = execute fs "get_recent_updates" input None
  /\ (int_args input !! "days" = None ->
      fst (execute fs "get_recent_updates" input allowed_dirs)
      = get_recent_updates subprocess_run since_date 7).
Proof.
  unfold execute_tool.
  change (str_eqb "get_recent_updates" "edit_file") with false.
  change (str_eqb "get_recent_updates" "get_recent_updates") with true.
  cbv iota. split; [| split].
  - destruct (get_recent_updates_returns subprocess_run since_date
                (default 7 (int_args input !! "days"))) as [answer ->].
    now exists answer.
  - reflexivity.
  - intros ->. reflexivity.
Qed.

(** The loop over a response in two parts. *)
Lemma run_tools_app (allowed_dirs : option (list string))
    (first : list block) :
  forall fs rest,
    run fs (first ++ rest) allowed_dirs
    = match run fs first allowed_dirs with
      | (Ok results1, fs1) =>
          match run fs1 rest allowed_dirs with
          | (Ok results2, fs2) => (Ok (results1 ++ results2), fs2)
          | (Raise e, fs2) => (Raise e, fs2)
          end
      | (Raise e, fs1) => (Raise e, fs1)
      end.
Proof.
  induction first as [|b first IH]; intros fs rest.
  - simpl. now destruct (run_tools _ _ _ fs rest allowed_dirs) as [[|] ?].
  - destruct b as [t | id tool_name input | t]; simpl; try apply IH.
    destruct (execute_tool _ _ _ fs tool_name input allowed_dirs)
      as [[out|e] fs1]; [| reflexivity].
    rewrite IH.
    destruct (run_tools _ _ _ fs1 first allowed_dirs) as [[results1|e] fs2];
      [| reflexivity].
    now destruct (run_tools _ _ _ fs2 rest allowed_dirs) as [[|] ?].
Qed.

(** X8. When the loop over the blocks of a response ends without
    exception, there is one tool result per tool-use block, carrying the
    identifier of its block, in the order of the blocks; the other blocks
    give no result. *)
Theorem run_tools_results (allowed_dirs : option (list string))
    (blocks : list block) :
  forall fs results fs',
    run fs blocks allowed_dirs = (Ok results, fs') ->
    map tool_use_id results = tool_use_ids blocks.
Proof.
  induction blocks as [|b blocks IH]; intros fs results fs' H.
  - simpl in H. now injection H as <- <-.
  - destruct b as [t | id tool_name input | t]; simpl in H |- *;
      try (now apply (IH _ _ _ H)).
    destruct (execute_tool _ _ _ fs tool_name input allowed_dirs)
      as [[out|e] fs1]; [| discriminate].
    destruct (run_tools _ _ _ fs1 blocks allowed_dirs)
      as [[rs|e] fs2] eqn:Hrest; [| discriminate].
    injection H as <- <-. simpl. f_equal. now apply (IH _ _ _ Hrest).
Qed.

(** X9. The loop over the blocks stops at the first tool that raises: the
    blocks after it are not run, and what the tools before it wrote stays
    on the disk. *)
Theorem run_tools_stops (allowed_dirs : option (list string))
    (fs fs1 fs2 : filesystem) (before after_ : list block)
    (results : list tool_result) (id tool_name : string)
    (input : tool_input) (e : exn) :
  run fs before allowed_dirs = (Ok results, fs1) ->
  execute fs1 tool_name input allowed_dirs = (Raise e, fs2) ->
  run fs (before ++ ToolUseBlock id tool_name input :: after_) allowed_dirs
  = (Raise e, fs2).
Proof.
  intros Hbefore Hraise. rewrite run_tools_app, Hbefore.
  simpl. now rewrite Hraise.
Qed.

End Tools.

Lemma execute_tool_missing_argument_witness :
  ToolExamples.execute Deployment.disk "edit_file" ToolExamples.no_argument
    (Some ["project_beta"])
  = (Raise (Exn "KeyError" "'file_path'"), Deployment.disk)
  /\ ToolExamples.execute Deployment.disk "edit_file" ToolExamples.path_only
       None
     = (Raise (Exn "KeyError" "'find_text'"), Deployment.disk)
  /\ ToolExamples.execute Deployment.disk "edit_file"
       ToolExamples.no_replacement None
     = (Raise (Exn "KeyError" "'replace_text'"), Deployment.disk).
Proof.
  split; [| split].
  - apply (proj1 (execute_tool_missing_argument Deployment.PROJECT_ROOT
                    HistoryExamples.repository HistoryExamples.since_date
                    Deployment.disk ToolExamples.no_argument
                    (Some ["project_beta"]))).
    reflexivity.
  - apply (proj1 (proj2 (execute_tool_missing_argument Deployment.PROJECT_ROOT
                           HistoryExamples.repository
                           HistoryExamples.since_date Deployment.disk
                           ToolExamples.path_only None))).
    + eexists. vm_compute. reflexivity.
    + vm_compute. reflexivity.
  - apply (proj2 (proj2 (execute_tool_missing_argument Deployment.PROJECT_ROOT
                           HistoryExamples.repository
                           HistoryExamples.since_date Deployment.disk
                           ToolExamples.no_replacement None))).
    + eexists. vm_compute. reflexivity.
    + eexists. vm_compute. reflexivity.
    + vm_compute. reflexivity.
Defined.

Lemma execute_tool_recent_updates_witness :
  fst (ToolExamples.execute Deployment.disk "get_recent_updates"
         ToolExamples.no_argument (Some ["project_beta"]))
  = Ok (history_summary 7 "2" 2 HistoryExamples.log_output).
Proof.
  unfold ToolExamples.execute.
  rewrite (proj2 (proj2 (execute_tool_recent_updates Deployment.PROJECT_ROOT
                           HistoryExamples.repository
                           HistoryExamples.since_date Deployment.disk
                           ToolExamples.no_argument (Some ["project_beta"])))).
  - vm_compute. reflexivity.
  - reflexivity.
Defined.

Lemma run_tools_results_witness :
  exists results fs',
    ToolExamples.run Deployment.disk ToolExamples.two_calls None
    = (Ok results, fs')
    /\ map tool_use_id results = ["toolu_01"; "toolu_02"].
Proof.
  destruct (ToolExamples.run Deployment.disk ToolExamples.two_calls None)
    as [[results|e] fs'] eqn:Hrun.
  - exists results, fs'. split; [reflexivity |].
    exact (run_tools_results Deployment.PROJECT_ROOT
             HistoryExamples.repository HistoryExamples.since_date None
             ToolExamples.two_calls Deployment.disk results fs' Hrun).
  - apply (f_equal (fun r : result (list tool_result) * filesystem =>
                      is_ok (fst r))) in Hrun.
    vm_compute in Hrun. discriminate Hrun.
Defined.

Lemma run_tools_stops_witness :
  let fs1 := snd (ToolExamples.run Deployment.disk ToolExamples.first_call
                    None) in
  ToolExamples.run Deployment.disk ToolExamples.broken_call None
  = (Raise (Exn "KeyError" "'file_path'"), fs1)
  /\ read_text fs1 ["srv"; "repo"; "project_alpha"; "todo.md"]
     = Ok "DONE one. TODO two."
  /\ read_text fs1 ["srv"; "repo"; "project_beta"; "notes.md"]
     = Ok "beta notes".
Proof.
  intros fs1. split; [| split; vm_compute; reflexivity].
  assert (Hfirst : fst (ToolExamples.run Deployment.disk
                          ToolExamples.first_call None)
                   = Ok [ {| tool_use_id := "toolu_01";
                             result_content :=
                               updated_message "project_alpha/todo.md" |} ])
    by (vm_compute; reflexivity).
  apply (run_tools_stops Deployment.PROJECT_ROOT HistoryExamples.repository
           HistoryExamples.since_date None Deployment.disk fs1 fs1
           ToolExamples.first_call
           [ToolUseBlock "toolu_03" "edit_file" ToolExamples.edit_notes]
           [ {| tool_use_id := "toolu_01";
                result_content :=
                  updated_message "project_alpha/todo.md" |} ]).
  - rewrite <- Hfirst. apply surjective_pairing.
  - reflexivity.
Defined.

(* ===================================================================== *)
(** * Further properties of [get_session]                                 *)
(* ===================================================================== *)

(** The store [get_session] returns holds no expired session. *)
Lemma get_session_live (now : Z) (sessions : gmap string session)
    (channel_id c : string) (s : session) :
  snd (get_session now sessions channel_id) !! c = Some s ->
  ~ expired now s.
Proof.
  intros Hc. destruct (decide (c = channel_id)) as [->|Hne].
  - rewrite get_session_stored in Hc. injection Hc as <-.
    unfold get_session. simpl.
    destruct (sweep now sessions !! channel_id) as [s|] eqn:Hs.
    + destruct (bool_decide (expired now s)); unfold expired; simpl;
        unfold SESSION_TIMEOUT; lia.
    + unfold expired. simpl. unfold SESSION_TIMEOUT. lia.
  - rewrite get_session_others in Hc by exact Hne.
    unfold sweep in Hc. apply map_lookup_filter_Some in Hc as [_ Hlive].
    exact Hlive.
Qed.

(** X10. After [get_session] the store holds no expired session: each one
    that had expired is gone, whichever channel it belongs to, and the
    session of every other channel that has not expired is as it was. *)
Theorem get_session_sweeps (now : Z) (sessions : gmap string session)
    (channel_id : string) :
  let sessions' := snd (get_session now sessions channel_id) in
  (forall c s, sessions' !! c = Some s -> ~ expired now s)
  /\ (forall other s,
        other <> channel_id ->
        sessions !! other = Some s ->
        sessions' !! other = if decide (expired now s) then None else Some s)
  /\ (forall other,
        other <> channel_id ->
        sessions !! other = None ->
        sessions' !! other = None).
Proof.
  intros sessions'. subst sessions'. split; [| split].
  - intros c s. apply get_session_live.
  - intros other s Hne Hs. rewrite get_session_others by exact Hne.
    destruct (decide (expired now s)) as [Hexp|Hlive].
    + now apply (sweep_lookup_expired now sessions other s).
    + now apply sweep_lookup_live.
  - intros other Hne Hs. rewrite get_session_others by exact Hne.
    now apply sweep_lookup_absent.
Qed.

(** At 2801 seconds the access to [C2] removes the session of [C1], idle
    for 1801 seconds. *)
Lemma get_session_sweeps_witness :
  snd (get_session 2801 SessionExamples.sessions "C2") !! "C1" = None.
Proof.
  apply (proj1 (proj2 (get_session_sweeps 2801 SessionExamples.sessions "C2"))
           "C1" {| messages := [SessionExamples.hello];
                   last_activity := 1000 |}).
  - discriminate.
  - vm_compute. reflexivity.
Defined.

(** X11. A second access to the same channel at the same time changes
    nothing: it returns the session and the store of the first. *)
Theorem get_session_again (now : Z) (sessions : gmap string session)
    (channel_id : string) :
  get_session now (snd (get_session now sessions channel_id)) channel_id
  = get_session now sessions channel_id.
Proof.
  pose proof (get_session_live now sessions channel_id) as Hlive.
  set (first := get_session now sessions channel_id) in *.
  assert (Hsweep : sweep now (snd first) = snd first).
  { unfold sweep. apply map_filter_id. intros c s Hc. simpl.
    now apply (Hlive c s). }
  assert (Hstored : snd first !! channel_id = Some (fst first))
    by apply get_session_stored.
  assert (Hnow : last_activity (fst first) = now).
  { subst first. unfold get_session. simpl.
    destruct (sweep now sessions !! channel_id) as [s|]; [| reflexivity].
    now destruct (bool_decide (expired now s)). }
  unfold get_session at 1. rewrite Hsweep, Hstored.
  rewrite bool_decide_eq_false_2 by (now apply (Hlive channel_id)).
  assert (Htouch : touch now (fst first) = fst first).
  { unfold touch. rewrite <- Hnow at 1. now destruct (fst first). }
  rewrite Htouch, (insert_id _ _ _ Hstored).
  now destruct first.
Qed.

(* ===================================================================== *)
(** * Further properties of [get_all_markdown_files]                      *)
(* ===================================================================== *)

Module LoadingFacts.

Lemma mapM_total {A B} (f : A -> result B) (l : list A) :
  (forall a, a ∈ l -> exists b, f a = Ok b) ->
  exists bs, mapM f l = Ok bs.
Proof.
  induction l as [|a l IH]; intros Hall; simpl; [eauto |].
  destruct (Hall a) as [b ->]; [apply list_elem_of_here |].
  destruct IH as [bs ->].
  - intros a' Ha'. apply Hall. now apply list_elem_of_further.
  - simpl. eauto.
Qed.

Lemma mapM_nil {A B} (f : A -> result (list B)) (l : list A) :
  (forall a, a ∈ l -> f a = Ok []) ->
  exists bs, mapM f l = Ok bs /\ concat bs = [].
Proof.
  induction l as [|a l IH]; intros Hall; simpl; [now exists [] |].
  rewrite (Hall a) by apply list_elem_of_here.
  destruct IH as (bs & -> & Hbs).
  - intros a' Ha'. apply Hall. now apply list_elem_of_further.
  - simpl. exists ([] :: bs). now split.
Qed.

(** Below a directory that can be searched, a plain name is found or
    missing: looking for it raises nothing. *)
Lemma stat_child (fs : filesystem) (base d : path) (x : string) :
  stat fs base = Found d (Dir true) ->
  x <> ".." ->
  x <> "." ->
  stat fs (base ++ [x])
  = match fs !! (d ++ [x]) with
    | Some n => Found (d ++ [x]) n
    | None => ENOENT
    end.
Proof.
  intros Hbase Hdd Hd. unfold stat. rewrite walk_app.
  fold (stat fs base). rewrite Hbase. simpl.
  apply str_eqb_false in Hdd, Hd. rewrite Hdd, Hd.
  now destruct (fs !! (d ++ [x])).
Qed.

End LoadingFacts.

Import LoadingFacts.

(** X12. Under a scope that allows none of the configured partitions, the
    sentinel is returned and the disk is not looked at: no state of the
    disk makes the call raise. *)
Theorem get_all_markdown_files_nothing_allowed (ROOT : path)
    (PROJECTS : list (string * string)) (fs : filesystem)
    (dirs : list string) :
  (forall proj_dir proj_name,
      (proj_dir, proj_name) ∈ PROJECTS -> proj_dir ∉ dirs) ->
  get_all_markdown_files ROOT PROJECTS fs (Some dirs)
  = Ok "No project files found.".
Proof.
  intros Hnone. unfold get_all_markdown_files, files_content.
  rewrite root_sections_restricted. simpl.
  destruct (mapM_nil (project_sections ROOT fs (Some dirs)) PROJECTS)
    as (bs & -> & Hbs).
  - intros [proj_dir proj_name] Hin. unfold project_sections.
    assert (Hskip : skipped (Some dirs) proj_dir = true).
    { destruct (skipped (Some dirs) proj_dir) eqn:E; [reflexivity |].
      apply skipped_restricted in E. now apply Hnone in Hin. }
    now rewrite Hskip.
  - simpl. now rewrite Hbs.
Qed.

Lemma get_all_markdown_files_nothing_allowed_witness :
  get_all_markdown_files Deployment.PROJECT_ROOT Deployment.PROJECTS
    TurnExamples.locked_disk (Some ["project_gamma"])
  = Ok "No project files found.".
Proof.
  apply get_all_markdown_files_nothing_allowed.
  intros proj_dir proj_name Hin Hdir.
  apply list_elem_of_singleton in Hdir as ->.
  apply elem_of_cons in Hin as [Hin|Hin]; [discriminate Hin |].
  apply list_elem_of_singleton in Hin. discriminate Hin.
Defined.

(** X13. When the project root resolves to a directory that can be
    searched and every configured partition is named by one plain
    component, loading the documents raises nothing, under any scope:
    what cannot be read becomes a section of its own. *)
Theorem get_all_markdown_files_total (ROOT : path)
    (PROJECTS : list (string * string)) (fs : filesystem)
    (allowed_dirs : option (list string)) (root_dir : path) :
  stat fs ROOT = Found root_dir (Dir true) ->
  (forall proj_dir proj_name,
      (proj_dir, proj_name) ∈ PROJECTS -> plain_name proj_dir) ->
  exists text, get_all_markdown_files ROOT PROJECTS fs allowed_dirs = Ok text.
Proof.
  intros Hroot Hplain. unfold get_all_markdown_files, files_content.
  assert (Hfrom_root : exists l, root_sections ROOT fs allowed_dirs = Ok l).
  { unfold root_sections. destruct allowed_dirs; [eauto |].
    unfold glob_md. rewrite Hroot. simpl. eauto. }
  destruct Hfrom_root as [from_root ->]. simpl.
  destruct (mapM_total (project_sections ROOT fs allowed_dirs) PROJECTS)
    as [bs ->]; [| simpl; eauto].
  intros [proj_dir proj_name] Hin. unfold project_sections.
  destruct (skipped allowed_dirs proj_dir); [eauto |].
  destruct (Hplain _ _ Hin) as (x & Hparts & Hdd & Hd & Hrel).
  assert (Hjoin : joinpath ROOT proj_dir = ROOT ++ [x])
    by (unfold joinpath; now rewrite Hrel, Hparts).
  rewrite Hjoin. unfold exists_, glob_md.
  rewrite (stat_child fs ROOT root_dir x Hroot Hdd Hd).
  destruct (fs !! (root_dir ++ [x])) as [[c|acc]|]; simpl; eauto.
Qed.

Lemma get_all_markdown_files_total_witness :
  exists text,
    get_all_markdown_files Deployment.PROJECT_ROOT Deployment.PROJECTS
      Deployment.disk (Some ["project_alpha"]) = Ok text.
Proof.
  apply (get_all_markdown_files_total Deployment.PROJECT_ROOT
           Deployment.PROJECTS Deployment.disk (Some ["project_alpha"])
           ["srv"; "repo"]).
  - vm_compute. reflexivity.
  - intros proj_dir proj_name Hin.
    apply elem_of_cons in Hin as [[= -> ->]|Hin].
    + exists "project_alpha". repeat split; discriminate.
    + apply list_elem_of_singleton in Hin as [= -> ->].
      exists "project_beta". repeat split; discriminate.
Defined.

(* ===================================================================== *)
(** * Further properties of [ask_claude]                                  *)
(* ===================================================================== *)

Section Turns.

Variable PROJECT_ROOT : path.
Variable PROJECTS : list (string * string).
Variable CHANNEL_ACCESS : gmap string (list string).
Variable claude_messages_create : string -> list message -> result response.
Variable subprocess_run : list string -> result completed_process.
Variable since_date : Z -> result string.

Local Abbreviation ask :=
  (ask_claude PROJECT_ROOT PROJECTS CHANNEL_ACCESS claude_messages_create
     subprocess_run since_date).
Local Abbreviation load := (get_all_markdown_files PROJECT_ROOT PROJECTS).

(** Where a turn leaves the store: the store [get_session] returned, with
    the session of the channel written once or twice. *)
Lemma ask_claude_store (fuel : nat) (now : Z) (w : world)
    (user_message channel_id : string) (t : turn) :
  ask fuel now w user_message channel_id = Some t ->
  let session0 := fst (get_session now (SESSIONS w) channel_id) in
  let sessions0 := snd (get_session now (SESSIONS w) channel_id) in
  exists added,
    SESSIONS (after t)
    = <[channel_id :=
          {| messages := added; last_activity := last_activity session0 |}]>
        sessions0
    /\ (added = messages session0
        \/ (exists u, added = messages session0 ++ [user_message_of u])
        \/ (exists u a,
              added = trim (messages session0
                            ++ [user_message_of u; assistant_message_of a]))).
Proof.
  intros Hask session0 sessions0.
  destruct (ask_claude_inv _ _ _ _ _ _ _ _ _ _ _ _ Hask)
    as [(e & _ & ->) | (ctx & _ & [(e & _ & ->)
                                  | (resp & r & fs1 & out1 & reqs
                                     & _ & _ & Ht)])].
  - exists (messages session0). split; [| now left]. simpl.
    subst session0 sessions0. symmetry.
    replace {| messages :=
                 messages (fst (get_session now (SESSIONS w) channel_id));
               last_activity :=
                 last_activity
                   (fst (get_session now (SESSIONS w) channel_id)) |}
      with (fst (get_session now (SESSIONS w) channel_id))
      by now destruct (fst (get_session now (SESSIONS w) channel_id)).
    apply insert_id, get_session_stored.
  - eexists. split; [reflexivity |]. right. left. eauto.
  - destruct r as [final|e]; cbv zeta in Ht; subst t; simpl.
    + eexists. split.
      * rewrite insert_insert_eq. reflexivity.
      * right. right. eexists _, _. simpl. now rewrite <- app_assoc.
    + eexists. split; [reflexivity |]. right. left. eauto.
Qed.

(** X14. A turn in one channel leaves the sessions of the other channels
    alone: one that has not expired is what it was, one that has expired is
    removed by the sweep, and none is created. *)
Theorem ask_claude_other_channels (fuel : nat) (now : Z) (w : world)
    (user_message channel_id : string) (t : turn) (other : string) :
  ask fuel now w user_message channel_id = Some t ->
  other <> channel_id ->
  SESSIONS (after t) !! other
  = match SESSIONS w !! other with
    | Some s => if decide (expired now s) then None else Some s
    | None => None
    end.
Proof.
  intros Hask Hne.
  destruct (ask_claude_store _ _ _ _ _ _ Hask) as (added & -> & _).
  rewrite lookup_insert_ne by congruence.
  rewrite get_session_others by exact Hne.
  destruct (SESSIONS w !! other) as [s|] eqn:Hs.
  - destruct (decide (expired now s)).
    + now apply (sweep_lookup_expired now _ other s).
    + now apply sweep_lookup_live.
  - now apply sweep_lookup_absent.
Qed.

Lemma trim_suffix (l : list message) : exists k, trim l = drop k l.
Proof.
  unfold trim. destruct (40 <? List.length l)%nat; [eauto |].
  now exists 0%nat.
Qed.

(** X15. The sessions hold plain text only, and every turn keeps it so:
    whatever the model answers and however many tool rounds there are, the
    message with the tool calls and the message with the tool results are
    never written to a session. *)
Theorem ask_claude_keeps_plain_text (fuel : nat) (now : Z) (w : world)
    (user_message channel_id : string) (t : turn) :
  plain_store (SESSIONS w) ->
  ask fuel now w user_message channel_id = Some t ->
  plain_store (SESSIONS (after t)).
Proof.
  intros Hplain Hask.
  assert (Hswept : plain_store (sweep now (SESSIONS w))).
  { intros c s Hc. unfold sweep in Hc.
    apply map_lookup_filter_Some in Hc as [Hc _]. now apply (Hplain c s). }
  assert (Hsession0 :
            Forall plain_message
              (messages (fst (get_session now (SESSIONS w) channel_id)))).
  { unfold get_session. simpl.
    destruct (sweep now (SESSIONS w) !! channel_id) as [s|] eqn:Hs.
    - destruct (bool_decide (expired now s)); simpl; [constructor |].
      now apply (Hswept channel_id s).
    - constructor. }
  assert (Huser : forall u, plain_message (user_message_of u))
    by (intros u; now exists u).
  assert (Hassistant : forall a, plain_message (assistant_message_of a))
    by (intros a; now exists a).
  destruct (ask_claude_store _ _ _ _ _ _ Hask) as (added & -> & Hadded).
  intros c s Hc. destruct (decide (c = channel_id)) as [->|Hne].
  - rewrite lookup_insert_eq in Hc. injection Hc as <-. simpl.
    destruct Hadded as [-> | [(u & ->) | (u & a & ->)]].
    + exact Hsession0.
    + apply Forall_app. split; [exact Hsession0 |]. now repeat constructor.
    + destruct (trim_suffix
                  (messages (fst (get_session now (SESSIONS w) channel_id))
                   ++ [user_message_of u; assistant_message_of a]))
        as [k ->].
      apply Forall_drop, Forall_app. split; [exact Hsession0 |].
      now repeat constructor.
  - rewrite lookup_insert_ne in Hc by congruence.
    rewrite get_session_others in Hc by exact Hne.
    now apply (Hswept c s).
Qed.

(** X16. When the first response does not stop for a tool, no tool is run,
    whatever the blocks it holds: one request is sent, the disk is as it
    was, and the reply is the text of the first text block or, when there
    is none, the fixed fallback. *)
Theorem ask_claude_without_tool (fuel : nat) (now : Z) (w : world)
    (user_message channel_id project_context : string) (resp : response) :
  let session0 := fst (get_session now (SESSIONS w) channel_id) in
  load (disk w) (CHANNEL_ACCESS !! channel_id) = Ok project_context ->
  claude_messages_create (system_prompt project_context)
    (messages session0
     ++ [user_message_of
           (context_message (messages session0) project_context
              user_message)])
  = Ok resp ->
  stop_reason resp <> "tool_use" ->
  exists t,
    ask (S fuel) now w user_message channel_id = Some t
    /\ reply t
       = Ok (default "I completed the action but have no additional message."
               (first_text (content resp)))
    /\ disk (after t) = disk w
    /\ List.length (sent t) = 1%nat
    /\ caught t = None.
Proof.
  intros session0 Hload Hcall Hstop. subst session0.
  unfold ask_claude, get_allowed_dirs.
  destruct (get_session now (SESSIONS w) channel_id) as [session0 sessions0].
  simpl fst in Hcall. rewrite Hload. cbv zeta.
  unfold append_message at 1 2. cbn [messages]. rewrite Hcall.
  rewrite loop_unfold. apply str_eqb_false in Hstop. rewrite Hstop.
  eexists. split; [reflexivity |]. now repeat split.
Qed.

(** X19. A message that comes after the session of its channel has
    expired is handled as the first of a conversation: the request holds
    one message, with the documents in it, and after a turn without
    exception the session holds that message and the reply, the earlier
    ones being forgotten. *)
Theorem ask_claude_after_expiry (fuel : nat) (now : Z) (w : world)
    (user_message channel_id project_context : string) (s : session)
    (t : turn) :
  SESSIONS w !! channel_id = Some s ->
  now - last_activity s > SESSION_TIMEOUT ->
  load (disk w) (CHANNEL_ACCESS !! channel_id) = Ok project_context ->
  ask fuel now w user_message channel_id = Some t ->
  let first_message :=
    user_message_of (first_context_message project_context user_message) in
  (exists rest,
      sent t = {| system := system_prompt project_context;
                  request_messages := [first_message] |} :: rest)
  /\ (forall answer,
        reply t = Ok answer ->
        caught t = None ->
        exists stored,
          SESSIONS (after t) !! channel_id = Some stored
          /\ messages stored = [first_message; assistant_message_of answer]
          /\ last_activity stored = now).
Proof.
  intros Hs Hexp Hload Hask first_message. subst first_message.
  assert (Hfresh : fst (get_session now (SESSIONS w) channel_id)
                   = fresh_session now).
  { unfold get_session. simpl.
    now rewrite (sweep_lookup_expired now _ _ _ Hs Hexp). }
  destruct (ask_claude_inv _ _ _ _ _ _ _ _ _ _ _ _ Hask)
    as [(e & Hload' & _) | (ctx & Hload' & Hrest)]; [congruence |].
  rewrite Hload in Hload'. injection Hload' as <-.
  rewrite Hfresh in Hrest. simpl in Hrest.
  destruct Hrest as [(e & _ & ->)
                    | (resp & r & fs1 & out1 & reqs & _ & _ & Ht)].
  - split; [now exists [] | discriminate].
  - destruct r as [final|e]; cbv zeta in Ht; subst t; simpl.
    + split; [now exists reqs |].
      intros answer [= <-] _. eexists.
      split; [apply lookup_insert_eq |]. now split.
    + split; [now exists reqs | discriminate].
Qed.

End Turns.

(** At 2801 the session of C1 has expired and that of C2 has not: a turn in
    C1 leaves the session of C2 as it was. *)
Lemma ask_claude_other_channels_witness :
  exists t,
    TurnExamples.ask TurnExamples.plain_model 1 2801
      WorldExamples.two_channels "hi" "C1" = Some t
    /\ SESSIONS (after t) !! "C2"
       = Some {| messages := [SessionExamples.hello];
                 last_activity := 1001 |}.
Proof.
  destruct (TurnFacts.turn_observed (fun _ => tt)
              (TurnExamples.ask TurnExamples.plain_model 1 2801
                 WorldExamples.two_channels "hi" "C1") tt)
    as (t & Hask & _); [vm_compute; reflexivity |].
  exists t. split; [exact Hask |].
  rewrite (ask_claude_other_channels Deployment.PROJECT_ROOT
             Deployment.PROJECTS Deployment.CHANNEL_ACCESS
             TurnExamples.plain_model HistoryExamples.repository
             HistoryExamples.since_date 1%nat 2801
             WorldExamples.two_channels "hi" "C1" t "C2" Hask)
    by discriminate.
  vm_compute. reflexivity.
Defined.

(** A turn with a tool round in a session of plain text. *)
Lemma ask_claude_keeps_plain_text_witness :
  exists t,
    TurnExamples.ask TurnExamples.editing_model 2 1000
      TurnExamples.ongoing_world "change TODO to DONE" "C1" = Some t
    /\ plain_store (SESSIONS (after t)).
Proof.
  destruct (TurnFacts.turn_observed (fun _ => tt)
              (TurnExamples.ask TurnExamples.editing_model 2 1000
                 TurnExamples.ongoing_world "change TODO to DONE" "C1") tt)
    as (t & Hask & _); [vm_compute; reflexivity |].
  exists t. split; [exact Hask |].
  apply (ask_claude_keeps_plain_text Deployment.PROJECT_ROOT
           Deployment.PROJECTS Deployment.CHANNEL_ACCESS
           TurnExamples.editing_model HistoryExamples.repository
           HistoryExamples.since_date 2%nat 1000 TurnExamples.ongoing_world
           "change TODO to DONE" "C1" t); [| exact Hask].
  intros c s Hc. unfold TurnExamples.ongoing_world in Hc. cbn [SESSIONS] in Hc.
  apply lookup_singleton_Some in Hc as [_ <-].
  repeat constructor; eexists; reflexivity.
Defined.

(** A response that ends the turn with an edit in it: the edit is not made
    and the reply is the fallback. *)
Lemma ask_claude_without_tool_witness :
  exists t,
    TurnExamples.ask WorldExamples.silent_model 1 1000
      TurnExamples.fresh_world "change TODO to DONE" "C1" = Some t
    /\ reply t
       = Ok "I completed the action but have no additional message."
    /\ disk (after t) = Deployment.disk
    /\ List.length (sent t) = 1%nat
    /\ caught t = None.
Proof.
  apply (ask_claude_without_tool Deployment.PROJECT_ROOT
           Deployment.PROJECTS Deployment.CHANNEL_ACCESS
           WorldExamples.silent_model HistoryExamples.repository
           HistoryExamples.since_date 0%nat 1000 TurnExamples.fresh_world
           "change TODO to DONE" "C1" TurnExamples.blob
           {| stop_reason := "end_turn";
              content := [ToolUseBlock "toolu_01" "edit_file"
                            TurnExamples.edit_request] |}).
  - exact (TurnFacts.blob_loaded TurnExamples.fresh_world "C1" eq_refl).
  - reflexivity.
  - discriminate.
Defined.

(** At 2801 the session of C1, last active at 1000, has expired. *)
Lemma ask_claude_after_expiry_witness :
  exists t rest stored,
    TurnExamples.ask TurnExamples.plain_model 1 2801
      WorldExamples.two_channels "hi" "C1" = Some t
    /\ sent t
       = {| system := system_prompt TurnExamples.blob;
            request_messages :=
              [user_message_of
                 (first_context_message TurnExamples.blob "hi")] |} :: rest
    /\ SESSIONS (after t) !! "C1" = Some stored
    /\ messages stored
       = [ user_message_of (first_context_message TurnExamples.blob "hi");
           assistant_message_of "Nothing to change." ]
    /\ last_activity stored = 2801.
Proof.
  destruct (TurnFacts.turn_observed (fun t => (reply t, caught t))
              (TurnExamples.ask TurnExamples.plain_model 1 2801
                 WorldExamples.two_channels "hi" "C1")
              (Ok "Nothing to change.", None))
    as (t & Hask & Hobs); [vm_compute; reflexivity |].
  injection Hobs as Hreply Hcaught.
  assert (Hs : SESSIONS WorldExamples.two_channels !! "C1"
               = Some {| messages := [SessionExamples.hello];
                         last_activity := 1000 |})
    by (vm_compute; reflexivity).
  assert (Hexp : 2801 - last_activity
                          {| messages := [SessionExamples.hello];
                             last_activity := 1000 |} > SESSION_TIMEOUT)
    by (vm_compute; reflexivity).
  destruct (ask_claude_after_expiry Deployment.PROJECT_ROOT
              Deployment.PROJECTS Deployment.CHANNEL_ACCESS
              TurnExamples.plain_model HistoryExamples.repository
              HistoryExamples.since_date 1%nat 2801
              WorldExamples.two_channels "hi" "C1" TurnExamples.blob _ t
              Hs Hexp
              (TurnFacts.blob_loaded WorldExamples.two_channels "C1" eq_refl)
              Hask)
    as [(rest & Hsent) Hstored].
  destruct (Hstored _ Hreply Hcaught) as (stored & Hlookup & Hmsgs & Hlast).
  exists t, rest, stored. repeat (split; [assumption |]). exact Hlast.
Defined.

(** A turn that succeeds in a session of forty messages. *)
Lemma ask_claude_success_bound_witness :
  exists t stored,
    TurnExamples.ask TurnExamples.plain_model 1 1000
      TurnExamples.full_world "hello" "C1" = Some t
    /\ SESSIONS (after t) !! "C1" = Some stored
    /\ (List.length (messages stored) <= 40)%nat.
Proof.
  destruct (TurnFacts.turn_observed (fun t => (reply t, caught t))
              (TurnExamples.ask TurnExamples.plain_model 1 1000
                 TurnExamples.full_world "hello" "C1")
              (Ok "Nothing to change.", None))
    as (t & Hask & Hobs); [vm_compute; reflexivity |].
  injection Hobs as Hreply Hcaught.
  destruct (ask_claude_success_bound Deployment.PROJECT_ROOT
              Deployment.PROJECTS Deployment.CHANNEL_ACCESS
              TurnExamples.plain_model HistoryExamples.repository
              HistoryExamples.since_date 1%nat 1000 TurnExamples.full_world
              "hello" "C1" t _ Hask Hreply Hcaught)
    as (stored & Hlookup & Hbound).
  exists t, stored. repeat (split; [assumption |]). exact Hbound.
Defined.

(** A turn that reaches no model, in a session of one exchange. *)
Lemma ask_claude_caught_session_witness :
  exists t stored,
    TurnExamples.ask TurnExamples.failing_model 1 1000
      TurnExamples.ongoing_world "hello" "C1" = Some t
    /\ SESSIONS (after t) !! "C1" = Some stored
    /\ messages stored
       = TurnExamples.earlier
         ++ [user_message_of (later_context_message "hello")]
    /\ reply t = Ok "Sorry, I encountered an error: Connection error.".
Proof.
  destruct (TurnFacts.turn_observed caught
              (TurnExamples.ask TurnExamples.failing_model 1 1000
                 TurnExamples.ongoing_world "hello" "C1")
              (Some (Exn "APIConnectionError" "Connection error.")))
    as (t & Hask & Hcaught); [vm_compute; reflexivity |].
  destruct (ask_claude_caught_session Deployment.PROJECT_ROOT
              Deployment.PROJECTS Deployment.CHANNEL_ACCESS
              TurnExamples.failing_model HistoryExamples.repository
              HistoryExamples.since_date 1%nat 1000
              TurnExamples.ongoing_world "hello" "C1" t _ Hask Hcaught)
    as (ctx & stored & _ & Hlookup & Hmsgs & Hreply).
  exists t, stored. split; [exact Hask |]. split; [exact Hlookup |].
  split; [| exact Hreply].
  rewrite Hmsgs. vm_compute. reflexivity.
Defined.

(* ===================================================================== *)
(** * The event handlers                                                  *)
(* ===================================================================== *)

Module HandlerFacts.

(** [split(sep, 1)[-1]] on a string that holds the separator. *)
Lemma cut_after_first (sep : ascii) (prefix rest : string) :
  contains (String sep "") prefix = false ->
  cut_after sep (prefix +:+ String sep rest) = Some rest.
Proof.
  induction prefix as [|c prefix IH]; push_append; simpl.
  - intros _. now rewrite Ascii.eqb_refl.
  - destruct (Ascii.eqb sep c) eqn:E; [discriminate |].
    intros Hrest. rewrite Ascii.eqb_sym, E. apply IH.
    destruct prefix; exact Hrest.
Qed.

(** A handler that returns is known by what is observed of its result. *)
Lemma handled_observed {A} (f : handled -> A) (o : option handled) (a : A) :
  f <$> o = Some a -> exists h, o = Some h /\ f h = a.
Proof.
  destruct o as [h|]; simpl; [| discriminate].
  intros [= <-]. now exists h.
Qed.

(** The model that asks for one tool round in every turn settles at no
    length of the conversation. *)
Lemma one_round_model_never_settles (n : nat) :
  ~ settles WorldExamples.one_round_model n.
Proof.
  intros Hsettles.
  apply (Hsettles "" (replicate n (user_message_of "again"))
           {| stop_reason := "tool_use";
              content := [ToolUseBlock "toolu_01" "edit_file"
                            TurnExamples.edit_request] |}).
  - unfold WorldExamples.one_round_model.
    destruct n as [|n]; [reflexivity |].
    change (replicate (S n) (user_message_of "again"))
      with (user_message_of "again" :: replicate n (user_message_of "again")).
    rewrite replicate_cons_app, last_snoc. reflexivity.
  - now rewrite length_replicate.
  - reflexivity.
Qed.

Section Replies.

Variable PROJECT_ROOT : path.
Variable PROJECTS : list (string * string).
Variable CHANNEL_ACCESS : gmap string (list string).
Variable claude_messages_create : string -> list message -> result response.
Variable subprocess_run : list string -> result completed_process.
Variable since_date : Z -> result string.

Local Abbreviation ask :=
  (ask_claude PROJECT_ROOT PROJECTS CHANNEL_ACCESS claude_messages_create
     subprocess_run since_date).
Local Abbreviation load := (get_all_markdown_files PROJECT_ROOT PROJECTS).

(** Once the documents are loaded, a call that returns returns a text. *)
Lemma ask_claude_replies (fuel : nat) (now : Z) (w : world)
    (user_message channel_id project_context : string) (t : turn) :
  load (disk w) (CHANNEL_ACCESS !! channel_id) = Ok project_context ->
  ask fuel now w user_message channel_id = Some t ->
  exists text, reply t = Ok text.
Proof.
  intros Hload Hask.
  destruct (ask_claude_inv _ _ _ _ _ _ _ _ _ _ _ _ Hask)
    as [(e & Hload' & _)
       | (ctx & _ & [(e & _ & ->)
                    | (resp & r & fs1 & out1 & reqs & _ & _ & Ht)])].
  - congruence.
  - eauto.
  - destruct r; cbv zeta in Ht; subst t; eauto.
Qed.

(** An exception raised while the documents are loaded leaves [ask_claude]
    after the sweep of the sessions, whatever the fuel. *)
Lemma ask_claude_load_error (fuel : nat) (now : Z) (w : world)
    (user_message channel_id : string) (e : exn) :
  load (disk w) (CHANNEL_ACCESS !! channel_id) = Raise e ->
  ask fuel now w user_message channel_id
  = Some {| reply := Raise e;
            after :=
              {| disk := disk w;
                 SESSIONS :=
                   snd (get_session now (SESSIONS w) channel_id) |};
            sent := []; outbound_messages := []; caught := None |}.
Proof.
  intros Hload. unfold ask_claude, get_allowed_dirs.
  destruct (get_session now (SESSIONS w) channel_id) as [session0 sessions0].
  now rewrite Hload.
Qed.

End Replies.

End HandlerFacts.

Section Events.

Variable PROJECT_ROOT : path.
Variable PROJECTS : list (string * string).
Variable CHANNEL_ACCESS : gmap string (list string).
Variable claude_messages_create : string -> list message -> result response.
Variable subprocess_run : list string -> result completed_process.
Variable since_date : Z -> result string.
Variable chat_postMessage : string -> string -> result string.
Variable chat_delete : string -> string -> result unit.
Variable say : string -> result unit.

Local Abbreviation ask :=
  (ask_claude PROJECT_ROOT PROJECTS CHANNEL_ACCESS claude_messages_create
     subprocess_run since_date).
Local Abbreviation load := (get_all_markdown_files PROJECT_ROOT PROJECTS).
Local Abbreviation think :=
  (think_and_say PROJECT_ROOT PROJECTS CHANNEL_ACCESS claude_messages_create
     subprocess_run since_date chat_postMessage chat_delete say).
Local Abbreviation mention :=
  (handle_mention PROJECT_ROOT PROJECTS CHANNEL_ACCESS claude_messages_create
     subprocess_run since_date chat_postMessage chat_delete say).
Local Abbreviation dm :=
  (handle_dm PROJECT_ROOT PROJECTS CHANNEL_ACCESS claude_messages_create
     subprocess_run since_date chat_postMessage chat_delete say).

(** The calls of the four statements the handlers share. *)
Lemma think_and_say_calls (fuel : nat) (now : Z) (w : world)
    (user_message channel : string) (h : handled) :
  think fuel now w user_message channel = Some h ->
  let placeholder := PostMessage channel thinking_text in
  (calls h = [placeholder] /\ exists e, outcome h = Raise e)
  \/ (exists ts t text,
         chat_postMessage channel thinking_text = Ok ts
         /\ ask fuel now w user_message channel = Some t
         /\ reply t = Ok text
         /\ world_after h = after t
         /\ ((calls h = [placeholder; DeleteMessage channel ts]
              /\ exists e, outcome h = Raise e)
             \/ (calls h = [placeholder; DeleteMessage channel ts; Say text]
                 /\ outcome h = match say text with
                                | Ok _ => Ok tt
                                | Raise e => Raise e
                                end))).
Proof.
  intros Hh. cbv zeta. unfold think_and_say in Hh.
  destruct (chat_postMessage channel thinking_text) as [ts|e] eqn:Hpost.
  - destruct (ask fuel now w user_message channel) as [t|] eqn:Hask;
      [| discriminate].
    destruct (reply t) as [text|e] eqn:Hreply.
    + right. exists ts, t, text.
      destruct (chat_delete channel ts) as [[]|e] eqn:Hdelete;
        injection Hh as <-; simpl.
      * repeat (split; [assumption || reflexivity |]). right. now split.
      * repeat (split; [assumption || reflexivity |]). left.
        split; [reflexivity |]. now exists e.
    + injection Hh as <-. left. split; [reflexivity |]. now exists e.
  - injection Hh as <-. left. split; [reflexivity |]. now exists e.
Qed.

(** X20. The calls [handle_mention] makes to Slack come in one order:
    the greeting alone, or the placeholder, its deletion under the
    timestamp the post returned, and the reply of [ask_claude] to the text
    after the first [">"], stripped. A run that ends without exception has
    made the greeting or all three calls; a run that raises stops at the
    call that raised, or at the placeholder when [ask_claude] raised. *)
Theorem handle_mention_protocol (fuel : nat) (now : Z) (w : world)
    (ev : event) (h : handled) :
  mention fuel now w ev = Some h ->
  let channel := event_channel ev in
  let user_message :=
    strip (split1_last ">" (default "" (event_text ev))) in
  let placeholder := PostMessage channel thinking_text in
  (user_message = ""
   /\ calls h = [Say greeting] /\ world_after h = w)
  \/ (user_message <> ""
      /\ calls h = [placeholder] /\ exists e, outcome h = Raise e)
  \/ (exists ts t text,
         user_message <> ""
         /\ chat_postMessage channel thinking_text = Ok ts
         /\ ask fuel now w user_message channel = Some t
         /\ reply t = Ok text
         /\ world_after h = after t
         /\ ((calls h = [placeholder; DeleteMessage channel ts]
              /\ exists e, outcome h = Raise e)
             \/ (calls h
                 = [placeholder; DeleteMessage channel ts; Say text]
                 /\ outcome h = match say text with
                                | Ok _ => Ok tt
                                | Raise e => Raise e
                                end))).
Proof.
  unfold handle_mention. cbv zeta.
  destruct (str_eqb _ "") eqn:Hmsg; simpl negb; cbv iota.
  - apply str_eqb_true in Hmsg. intros [= <-]. left. now split.
  - apply str_eqb_false in Hmsg. intros Hh.
    destruct (think_and_say_calls _ _ _ _ _ _ Hh)
      as [Hone | (ts & t & text & Hpost & Hask & Hreply & Hworld & Hcalls)].
    + right. left. split; [exact Hmsg | exact Hone].
    + right. right. exists ts, t, text.
      repeat (split; [assumption |]). exact Hcalls.
Qed.

(** X21. A mention is answered whenever the turn of [ask_claude] ends:
    when the text after the first [">"] is not blank, the documents load
    and Slack accepts the calls, [handle_mention] returns without
    exception, having asked [ask_claude] that text, stripped, and said its
    reply after deleting the placeholder. The turn ends, and so does the
    handler, as soon as the model stops asking for tools. *)
Theorem handle_mention_answers (now : Z) (w : world) (ev : event)
    (prefix rest project_context ts : string) :
  event_text ev = Some (prefix +:+ ">" +:+ rest) ->
  contains ">" prefix = false ->
  strip rest <> "" ->
  load (disk w) (CHANNEL_ACCESS !! event_channel ev) = Ok project_context ->
  chat_postMessage (event_channel ev) thinking_text = Ok ts ->
  chat_delete (event_channel ev) ts = Ok tt ->
  (forall text, say text = Ok tt) ->
  (forall fuel t,
      ask fuel now w (strip rest) (event_channel ev) = Some t ->
      exists text,
        reply t = Ok text
        /\ mention fuel now w ev
           = Some {| outcome := Ok tt;
                     world_after := after t;
                     calls := [ PostMessage (event_channel ev) thinking_text;
                                DeleteMessage (event_channel ev) ts;
                                Say text ] |})
  /\ (forall n,
        settles claude_messages_create n ->
        exists h, mention (S n) now w ev = Some h /\ outcome h = Ok tt).
Proof.
  intros Htext Hprefix Hrest Hload Hpost Hdelete Hsay.
  change (">" +:+ rest) with (String ">"%char rest) in Htext.
  apply str_eqb_false in Hrest.
  assert (Hturn :
            forall fuel t,
              ask fuel now w (strip rest) (event_channel ev) = Some t ->
              exists text,
                reply t = Ok text
                /\ mention fuel now w ev
                   = Some {| outcome := Ok tt;
                             world_after := after t;
                             calls :=
                               [ PostMessage (event_channel ev) thinking_text;
                                 DeleteMessage (event_channel ev) ts;
                                 Say text ] |}).
  { intros fuel t Hask.
    destruct (HandlerFacts.ask_claude_replies _ _ _ _ _ _ _ _ _ _ _ _ _
                Hload Hask) as [text Hreply].
    exists text. split; [exact Hreply |].
    unfold handle_mention. cbv zeta. rewrite Htext. simpl default.
    unfold split1_last. rewrite HandlerFacts.cut_after_first by exact Hprefix.
    simpl default. rewrite Hrest. simpl negb. cbv iota.
    unfold think_and_say.
    now rewrite Hpost, Hask, Hreply, Hdelete, Hsay. }
  split; [exact Hturn |].
  intros n Hsettles.
  destruct (ask_claude_returns PROJECT_ROOT PROJECTS CHANNEL_ACCESS
              claude_messages_create subprocess_run since_date n now w
              (strip rest) (event_channel ev) Hsettles) as [t Hask].
  destruct (Hturn _ _ Hask) as (text & _ & ->). eauto.
Qed.

(** X22. When loading the documents raises, the exception leaves
    [handle_dm]: the placeholder has been posted, it is not deleted and
    nothing is said; the disk is as it was, and the store is as
    [get_session] left it, with no message appended. *)
Theorem handle_dm_load_error (fuel : nat) (now : Z) (w : world) (ev : event)
    (text ts : string) (e : exn) :
  truthy (event_bot_id ev) = false ->
  event_channel_type ev = Some "im" ->
  event_text ev = Some text ->
  text <> "" ->
  chat_postMessage (event_channel ev) thinking_text = Ok ts ->
  load (disk w) (CHANNEL_ACCESS !! event_channel ev) = Raise e ->
  dm fuel now w ev
  = Some {| outcome := Raise e;
            world_after :=
              {| disk := disk w;
                 SESSIONS :=
                   snd (get_session now (SESSIONS w) (event_channel ev)) |};
            calls := [PostMessage (event_channel ev) thinking_text] |}.
Proof.
  intros Hbot Him Htext Hne Hpost Hload.
  unfold handle_dm. rewrite Hbot, Him, Htext.
  rewrite bool_decide_eq_true_2 by reflexivity. simpl.
  apply str_eqb_false in Hne. rewrite Hne. simpl.
  unfold think_and_say. rewrite Hpost.
  now rewrite (HandlerFacts.ask_claude_load_error _ _ _ _ _ _ _ _ _ _ _ _
                 Hload).
Qed.

(** X23. [handle_dm] stays silent on the messages of bots, on messages
    that are not direct messages and on empty texts, and only on those:
    it then makes no call, raises nothing and leaves the state as it was;
    on every other message its first call posts the placeholder. *)
Theorem handle_dm_silent (fuel : nat) (now : Z) (w : world) (ev : event)
    (h : handled) :
  dm fuel now w ev = Some h ->
  let ignored :=
    truthy (event_bot_id ev) = true
    \/ event_channel_type ev <> Some "im"
    \/ default "" (event_text ev) = "" in
  (ignored -> calls h = [] /\ outcome h = Ok tt /\ world_after h = w)
  /\ (~ ignored ->
      exists rest,
        calls h = PostMessage (event_channel ev) thinking_text :: rest).
Proof.
  intros Hh. cbv zeta. unfold handle_dm in Hh. cbv zeta in Hh.
  destruct (truthy (event_bot_id ev)) eqn:Hbot; simpl in Hh.
  { injection Hh as <-. split; [now intros _ |].
    intros Hnot. exfalso. apply Hnot. now left. }
  destruct (decide (event_channel_type ev = Some "im")) as [Him|Him].
  2:{ rewrite bool_decide_eq_false_2 in Hh by exact Him. simpl in Hh.
      injection Hh as <-. split; [now intros _ |].
      intros Hnot. exfalso. apply Hnot. right. now left. }
  rewrite bool_decide_eq_true_2 in Hh by exact Him. simpl in Hh.
  destruct (str_eqb (default "" (event_text ev)) "") eqn:Htext; simpl in Hh.
  { injection Hh as <-. split; [now intros _ |].
    intros Hnot. exfalso. apply Hnot. right. right.
    now apply str_eqb_true. }
  apply str_eqb_false in Htext. split.
  - intros [Hb | [Hc | Ht]]; [discriminate | contradiction | contradiction].
  - intros _.
    destruct (think_and_say_calls _ _ _ _ _ _ Hh)
      as [[-> _] | (ts & t & text & _ & _ & _ & _ & [[-> _] | [-> _]])];
      eauto.
Qed.

End Events.

(** A mention answered at once: the three calls, in order. *)
Lemma handle_mention_protocol_witness :
  exists h ts t text,
    SlackExamples.on_mention TurnExamples.plain_model 1 1000
      TurnExamples.fresh_world
      (SlackExamples.mention "<@U1> what is planned?") = Some h
    /\ TurnExamples.ask TurnExamples.plain_model 1 1000
         TurnExamples.fresh_world "what is planned?" "C1" = Some t
    /\ reply t = Ok text
    /\ world_after h = after t
    /\ calls h = [ PostMessage "C1" thinking_text; DeleteMessage "C1" ts;
                   Say text ].
Proof.
  destruct (HandlerFacts.handled_observed
              (fun h => List.length (calls h))
              (SlackExamples.on_mention TurnExamples.plain_model 1 1000
                 TurnExamples.fresh_world
                 (SlackExamples.mention "<@U1> what is planned?")) 3%nat)
    as (h & Hh & Hcount); [vm_compute; reflexivity |].
  assert (Hmsg : strip (split1_last ">" "<@U1> what is planned?")
                 = "what is planned?")
    by (vm_compute; reflexivity).
  pose proof (handle_mention_protocol Deployment.PROJECT_ROOT
                Deployment.PROJECTS Deployment.CHANNEL_ACCESS
                TurnExamples.plain_model HistoryExamples.repository
                HistoryExamples.since_date SlackExamples.chat_postMessage
                SlackExamples.chat_delete SlackExamples.say 1%nat 1000
                TurnExamples.fresh_world
                (SlackExamples.mention "<@U1> what is planned?") h Hh)
    as Hcases.
  cbv zeta in Hcases.
  change (default "" (event_text
                        (SlackExamples.mention "<@U1> what is planned?")))
    with "<@U1> what is planned?" in Hcases.
  rewrite Hmsg in Hcases.
  destruct Hcases
    as [(_ & Hcalls & _)
       | [(_ & Hcalls & _)
         | (ts & t & text & _ & _ & Hask & Hreply & Hworld
            & [[Hcalls _] | [Hcalls _]])]];
    try (rewrite Hcalls in Hcount; discriminate Hcount).
  exists h, ts, t, text. split; [exact Hh |]. split; [exact Hask |].
  split; [exact Hreply |]. split; [exact Hworld | exact Hcalls].
Defined.

(** A mention that asks for an edit, with a model that asks for one tool
    round in every turn, however long the conversation: the turn ends with
    fuel 2. With the model that edits once, which settles at 3, fuel 4 is
    enough. *)
Lemma handle_mention_answers_witness :
  (exists t text,
      TurnExamples.ask WorldExamples.one_round_model 2 1000
        TurnExamples.fresh_world (strip " change TODO to DONE") "C1" = Some t
      /\ reply t = Ok text
      /\ SlackExamples.on_mention WorldExamples.one_round_model 2 1000
           TurnExamples.fresh_world
           (SlackExamples.mention "<@U1> change TODO to DONE")
         = Some {| outcome := Ok tt;
                   world_after := after t;
                   calls := [ PostMessage "C1" thinking_text;
                              DeleteMessage "C1" "1700000000.000100";
                              Say text ] |})
  /\ (exists h,
        SlackExamples.on_mention TurnExamples.editing_model 4 1000
          TurnExamples.fresh_world
          (SlackExamples.mention "<@U1> change TODO to DONE") = Some h
        /\ outcome h = Ok tt).
Proof.
  split.
  - destruct (TurnFacts.turn_observed (fun _ => tt)
                (TurnExamples.ask WorldExamples.one_round_model 2 1000
                   TurnExamples.fresh_world (strip " change TODO to DONE")
                   "C1") tt)
      as (t & Hask & _); [vm_compute; reflexivity |].
    exists t.
    destruct (proj1 (handle_mention_answers Deployment.PROJECT_ROOT
                       Deployment.PROJECTS Deployment.CHANNEL_ACCESS
                       WorldExamples.one_round_model
                       HistoryExamples.repository HistoryExamples.since_date
                       SlackExamples.chat_postMessage
                       SlackExamples.chat_delete SlackExamples.say 1000
                       TurnExamples.fresh_world
                       (SlackExamples.mention "<@U1> change TODO to DONE")
                       "<@U1" " change TODO to DONE" TurnExamples.blob
                       "1700000000.000100" eq_refl eq_refl
                       ltac:(intros H; vm_compute in H; discriminate H)
                       (TurnFacts.blob_loaded TurnExamples.fresh_world "C1"
                          eq_refl)
                       eq_refl eq_refl (fun _ => eq_refl))
                2%nat t Hask) as (text & Hreply & Hh).
    exists text. split; [exact Hask |]. split; [exact Hreply | exact Hh].
  - apply (proj2 (handle_mention_answers Deployment.PROJECT_ROOT
                    Deployment.PROJECTS Deployment.CHANNEL_ACCESS
                    TurnExamples.editing_model
                    HistoryExamples.repository HistoryExamples.since_date
                    SlackExamples.chat_postMessage
                    SlackExamples.chat_delete SlackExamples.say 1000
                    TurnExamples.fresh_world
                    (SlackExamples.mention "<@U1> change TODO to DONE")
                    "<@U1" " change TODO to DONE" TurnExamples.blob
                    "1700000000.000100" eq_refl eq_refl
                    ltac:(intros H; vm_compute in H; discriminate H)
                    (TurnFacts.blob_loaded TurnExamples.fresh_world "C1"
                       eq_refl)
                    eq_refl eq_refl (fun _ => eq_refl))
             3%nat TurnFacts.editing_model_settles).
Defined.

(** A direct message while the project root may not be searched. *)
Lemma handle_dm_load_error_witness :
  SlackExamples.on_dm TurnExamples.plain_model 1 1000
    TurnExamples.locked_world (SlackExamples.direct "hello")
  = Some {| outcome :=
              Raise (PermissionError ["srv"; "repo"; "project_alpha"]);
            world_after :=
              {| disk := TurnExamples.locked_disk;
                 SESSIONS :=
                   snd (get_session 1000
                          (SESSIONS TurnExamples.locked_world) "D1") |};
            calls := [PostMessage "D1" thinking_text] |}.
Proof.
  apply (handle_dm_load_error Deployment.PROJECT_ROOT
           Deployment.PROJECTS Deployment.CHANNEL_ACCESS
           TurnExamples.plain_model HistoryExamples.repository
           HistoryExamples.since_date SlackExamples.chat_postMessage
           SlackExamples.chat_delete SlackExamples.say 1%nat 1000
           TurnExamples.locked_world (SlackExamples.direct "hello")
           "hello" "1700000000.000100").
  - reflexivity.
  - reflexivity.
  - reflexivity.
  - discriminate.
  - reflexivity.
  - unfold Deployment.CHANNEL_ACCESS. rewrite lookup_empty.
    vm_compute. reflexivity.
Defined.

(** A direct message written by a bot is ignored. *)
Lemma handle_dm_silent_witness :
  exists h,
    SlackExamples.on_dm TurnExamples.plain_model 1 1000
      TurnExamples.fresh_world EventExamples.from_bot = Some h
    /\ calls h = []
    /\ outcome h = Ok tt
    /\ world_after h = TurnExamples.fresh_world.
Proof.
  exists {| outcome := Ok tt; world_after := TurnExamples.fresh_world;
            calls := [] |}.
  split; [reflexivity |].
  apply (proj1 (handle_dm_silent Deployment.PROJECT_ROOT
                  Deployment.PROJECTS Deployment.CHANNEL_ACCESS
                  TurnExamples.plain_model HistoryExamples.repository
                  HistoryExamples.since_date SlackExamples.chat_postMessage
                  SlackExamples.chat_delete SlackExamples.say 1%nat 1000
                  TurnExamples.fresh_world EventExamples.from_bot _
                  eq_refl)).
  left. reflexivity.
Defined.
